(** * CourseShop: subscription pricing and authentication

    A shallow embedding of the backend of the course marketplace:
    [SubscriptionService], [AuthService], the [authMiddleware] and the
    route handlers of [routes/auth] and [routes/subscriptions], over a
    model of the three PostgreSQL tables of [db/schema.sql].

    - JavaScript numbers are IEEE 754 binary64 values; they are modelled
      by the Standard Library's [spec_float] with [prec = 53] and
      [emax = 1024], so that [originalPrice * (1 - discount)] and
      [toFixed(2)] behave here as they do in the service.
    - The strings that hold numbers ([toFixed(2)], the text of a
      [DECIMAL(10,2)] column) are kept as the sign and the digits they
      spell; all other strings are strings. A string is its sequence of
      code units.
    - An [async] function is a tree of queries. A query is one atomic
      statement; between two queries of a request another request may
      run its own, and nothing else is shared between requests.
    - bcrypt, jsonwebtoken, zod's format checks, and what PostgreSQL
      generates at an insert are parameters ([Externals]). Identifiers
      are taken to be well-formed UUIDs in the spelling in which
      PostgreSQL prints them and in which the tables below hold them,
      so that equal texts are equal values. *)

From Stdlib Require Import ZArith Lia Bool List String Ascii.
From Stdlib Require Import Floats.SpecFloat.
From Stdlib Require Import Permutation Sorted.
Import ListNotations.

#[local] Set Warnings "-register-all".

Local Open Scope string_scope.
Local Open Scope list_scope.
Local Open Scope Z_scope.

(** ** JavaScript numbers *)

Module JsNumber.

Definition prec : Z := 53.
Definition emax : Z := 1024.

(** A JavaScript [number]. *)
Definition number : Type := spec_float.

Definition sub : number -> number -> number := SFsub prec emax.
Definition mul : number -> number -> number := SFmul prec emax.

(** [x === y] on numbers: [NaN] differs from itself, [+0 === -0]. *)
Definition strict_eq : number -> number -> bool := SFeqb.

Definition zero : number := S754_zero false.
Definition one : number := S754_finite false 4503599627370496 (-52).
(** The literal [0.5]. *)
Definition half : number := S754_finite false 4503599627370496 (-53).

(** The location of the exact quotient [(q * d + r) / d] between [q] and
    [q + 1], for [0 <= r < d]. *)
Definition location_of_remainder (d r : Z) : location :=
  if r =? 0 then loc_Exact else loc_Inexact (2 * r ?= d).

(** Quotient and remainder of [n / (d * 2^e)]. *)
Definition scaled_div (n d : positive) (e : Z) : Z * Z * Z :=
  let num := if 0 <=? e then Zpos n else Zpos n * 2 ^ (- e) in
  let den := if 0 <=? e then Zpos d * 2 ^ e else Zpos d in
  (num / den, num mod den, den).

(** The exponent for which the quotient of [n / d] has exactly [prec]
    bits. *)
Definition ratio_exponent (n d : positive) : Z :=
  let e1 := Z.log2 (Zpos n) - Z.log2 (Zpos d) - prec in
  let '(q1, _, _) := scaled_div n d e1 in
  if q1 <? 2 ^ prec then e1 else e1 + 1.

(** The number nearest to the rational [n / d], ties to even: the value
    that the reading of a decimal literal yields (ECMAScript, Number
    value of a StringNumericLiteral). The quotient is cut to [prec]
    bits and rounded by the library's [binary_round_aux]. *)
Definition of_ratio (s : bool) (n d : positive) : number :=
  let e := ratio_exponent n d in
  let '(q, r, den) := scaled_div n d e in
  binary_round_aux prec emax s q e (location_of_remainder den r).

(** The text of a number, as far as the service meets it. *)
Inductive numeric_text : Type :=
| TxtFixed (neg : bool) (n : N)
    (** the digits of [n], a point before the last two, ["-"] in front
        when [neg]: what [toFixed(2)] and a [DECIMAL(10,2)] column
        print *)
| TxtRepr (x : number)
    (** [Number::toString(x)]: ["NaN"], ["Infinity"], or the digits of
        a number of magnitude at least [1e21] *).

(** [parseFloat(text)]. *)
Definition parseFloat (t : numeric_text) : number :=
  match t with
  | TxtFixed neg N0 => S754_zero neg
  | TxtFixed neg (Npos n) => of_ratio neg n 100
  | TxtRepr x => x
  end.

(** The integer [n] for which [n / 100 - m * 2^e] is as close to zero as
    possible, the larger one if there are two (step 11.a of
    [Number.prototype.toFixed]). *)
Definition nearest_hundredths (m : positive) (e : Z) : Z :=
  if 0 <=? e then 100 * Zpos m * 2 ^ e
  else (200 * Zpos m + 2 ^ (- e)) / 2 ^ (- e + 1).

(** [10^21 <= m * 2^e]: from there on [toFixed] prints [ToString(x)]. *)
Definition at_least_1e21 (m : positive) (e : Z) : bool :=
  if 0 <=? e then 10 ^ 21 <=? Zpos m * 2 ^ e
  else 10 ^ 21 * 2 ^ (- e) <=? Zpos m.

(** [x.toFixed(2)]. *)
Definition toFixed2 (x : number) : numeric_text :=
  match x with
  | S754_zero _ => TxtFixed false 0
  | S754_finite s m e =>
      if at_least_1e21 m e then TxtRepr x
      else TxtFixed s (Z.to_N (nearest_hundredths m e))
  | _ => TxtRepr x
  end.

(** The same number, bit for bit. *)
Definition same_number (x y : number) : bool :=
  match x, y with
  | S754_zero s, S754_zero s' => Bool.eqb s s'
  | S754_infinity s, S754_infinity s' => Bool.eqb s s'
  | S754_nan, S754_nan => true
  | S754_finite s m e, S754_finite s' m' e' =>
      Bool.eqb s s' && Pos.eqb m m' && Z.eqb e e'
  | _, _ => false
  end.

(** The quotient of the integers [n] and 100 by IEEE 754 division. *)
Definition divided_by_100 (n : positive) : number :=
  SFdiv prec emax (S754_finite false n 0) (S754_finite false 100 0).

End JsNumber.

Import JsNumber.

(** ** Errors, rows and objects *)

Definition uuid : Type := string.
Definition timestamp : Type := Z.

Definition dquote : string := String (ascii_of_nat 34) EmptyString.

(** What a [catch] clause can receive. [PgError] is the driver's
    [DatabaseError]; it extends [Error], as [ZodError] does. *)
Inductive exn : Type :=
| JsError (message : string)
| PgError (code : string) (constraint : string)
| ZodError (issues : list (string * string)).

Definition pg_message (code constraint : string) : string :=
  if String.eqb code "23505" then
    ("duplicate key value violates unique constraint "
       ++ dquote ++ constraint ++ dquote)%string
  else if String.eqb code "23503" then
    ("insert or update on table " ++ dquote ++ "subscriptions" ++ dquote
       ++ " violates foreign key constraint " ++ dquote ++ constraint ++ dquote)%string
  else "numeric field overflow".

(** [error.message]. *)
Definition exn_message (e : exn) : string :=
  match e with
  | JsError m => m
  | PgError code constraint => pg_message code constraint
  | ZodError _ => "Validation failed"
  end.

(** A [DECIMAL(10,2)] value: a number of hundredths, or PostgreSQL's
    numeric [NaN]. *)
Inductive pg_numeric : Type :=
| Numeric (hundredths : Z)
| NumericNaN.

Record UserRow : Type := {
  user_id : uuid;
  user_name : option string;
  user_email : string;
  user_password : string;
  user_created_at : timestamp }.

Record CourseRow : Type := {
  course_id : uuid;
  course_title : string;
  course_description : string;
  course_price : pg_numeric;
  course_image : string;
  course_main_image : option string;
  course_created_at : timestamp }.

Record SubscriptionRow : Type := {
  subscription_id : uuid;
  subscription_user_id : uuid;
  subscription_course_id : uuid;
  subscription_price_paid : pg_numeric;
  subscription_subscribed_at : timestamp }.

(** The three tables of [schema.sql]. *)
Record Database : Type := {
  users : list UserRow;
  courses : list CourseRow;
  subscriptions : list SubscriptionRow }.

(** A numeric column as the driver hands it to JavaScript: a string, unless
    a type parser turns it into a number. *)
Inductive js_numeric : Type :=
| AsString (t : numeric_text)
| AsNumber (x : number).

(** [parseFloat(v)]: a number is first turned into its string, which reads
    back as the same number, [-0] as [0]. *)
Definition parseFloat_any (v : js_numeric) : number :=
  match v with
  | AsString t => parseFloat t
  | AsNumber (S754_zero _) => S754_zero false
  | AsNumber x => x
  end.

(** [Course] of [types/index.ts], as a row of [courses] reaches the
    service. *)
Record Course : Type := {
  Course_id : uuid;
  Course_title : string;
  Course_description : string;
  Course_price : js_numeric;
  Course_image : string;
  Course_main_image : option string;
  Course_created_at : timestamp }.

(** The row that [INSERT ... RETURNING] yields. *)
Record InsertedRow : Type := {
  row_id : uuid;
  row_user_id : uuid;
  row_course_id : uuid;
  row_price_paid : js_numeric;
  row_subscribed_at : timestamp }.

(** [Subscription] of [types/index.ts]. *)
Record Subscription : Type := {
  subscriptionId : uuid;
  userId : uuid;
  courseId : uuid;
  pricePaid : number;
  subscribedAt : timestamp }.

Record UserDTO : Type := {
  dto_id : uuid;
  dto_email : string;
  dto_name : option string }.

Record JWTPayload : Type := { payload_userId : string }.

(** ** The collaborators outside the repository *)

Class Externals : Type := {
  (** [bcrypt.compare(password, hash)] *)
  bcrypt_compare : string -> string -> bool;
  (** [jwt.sign(payload, secret, { expiresIn: '7d' })] *)
  jwt_sign : JWTPayload -> string -> string;
  (** [jwt.verify(token, secret)]: the payload, or the error it throws *)
  jwt_verify : string -> string -> exn + JWTPayload;
  (** [process.env.JWT_SECRET] *)
  env_JWT_SECRET : option string;
  (** zod's [email()] and [uuid()] checks *)
  zod_email : string -> bool;
  zod_uuid : string -> bool;
  (** [gen_random_uuid()] and [CURRENT_TIMESTAMP] at an insert *)
  gen_random_uuid : Database -> uuid;
  current_timestamp : Database -> timestamp;
  (** whether the driver parses numeric columns into numbers *)
  numeric_as_number : bool }.

(** ** Asynchronous code over the connection pool

    An [async] function is a tree of [await pool.query(...)] steps. Each
    query is one atomic statement of the database; other requests may run
    theirs between two steps of the same function. *)

Inductive query : Type -> Type :=
| SelectSubscriptionId (userId courseId : uuid) : query (list uuid)
| SelectCourseById (courseId : uuid) : query (list Course)
| InsertSubscription (userId courseId : uuid) (pricePaid : number) :
    query (list InsertedRow)
| SelectUserByEmail (email : string) : query (list UserRow).

Inductive io (A : Type) : Type :=
| Return (a : A)
| Throw (e : exn)
| Await {R : Type} (q : query R) (k : exn + R -> io A).

Arguments Return {A} a.
Arguments Throw {A} e.
Arguments Await {A R} q k.

Fixpoint bind {A B : Type} (p : io A) (f : A -> io B) : io B :=
  match p with
  | Return a => f a
  | Throw e => Throw e
  | Await q k => Await q (fun r => bind (k r) f)
  end.

(** [try { p } catch (error) { h(error) }]. *)
Fixpoint try_catch {A : Type} (p : io A) (h : exn -> io A) : io A :=
  match p with
  | Return a => Return a
  | Throw e => h e
  | Await q k => Await q (fun r => try_catch (k r) h)
  end.

(** [await pool.query(...)]: the rows, or the rejection thrown where the
    query was awaited. *)
Definition await {A R : Type} (q : query R) (k : R -> io A) : io A :=
  Await q (fun outcome =>
    match outcome with
    | inl e => Throw e
    | inr rows => k rows
    end).

Notation "x <- p ;; q" := (bind p (fun x => q))
  (at level 61, p at next level, right associativity).

Section Service.

Context `{Ext : Externals}.

(** *** PostgreSQL *)

(** The text of a numeric value. *)
Definition numeric_out (v : pg_numeric) : numeric_text :=
  match v with
  | Numeric c => TxtFixed (c <? 0) (Z.abs_N c)
  | NumericNaN => TxtRepr S754_nan
  end.

(** The value of a numeric column in a result row. *)
Definition numeric_to_js (v : pg_numeric) : js_numeric :=
  if numeric_as_number then AsNumber (parseFloat (numeric_out v))
  else AsString (numeric_out v).

(** A number sent as a parameter for a [DECIMAL(10,2)] column: it is
    rounded to two decimals, half away from zero; ten digits must
    suffice. *)
Definition numeric_in (x : number) : exn + pg_numeric :=
  match x with
  | S754_zero _ => inr (Numeric 0)
  | S754_nan => inr NumericNaN
  | S754_infinity _ => inl (PgError "22003" "")
  | S754_finite s m e =>
      let n := nearest_hundredths m e in
      if 10 ^ 10 <=? n then inl (PgError "22003" "")
      else inr (Numeric (if s then - n else n))
  end.

Definition subscribed_row (userId courseId : uuid) (s : SubscriptionRow) : bool :=
  String.eqb (subscription_user_id s) userId
  && String.eqb (subscription_course_id s) courseId.

Definition course_object (c : CourseRow) : Course :=
  {| Course_id := course_id c;
     Course_title := course_title c;
     Course_description := course_description c;
     Course_price := numeric_to_js (course_price c);
     Course_image := course_image c;
     Course_main_image := course_main_image c;
     Course_created_at := course_created_at c |}.

(** [INSERT INTO subscriptions (user_id, course_id, price_paid)]: the
    column type, then [UNIQUE(user_id, course_id)], then the two foreign
    keys. *)
Definition insert_subscription (userId courseId : uuid) (x : number)
    (d : Database) : exn + SubscriptionRow :=
  match numeric_in x with
  | inl e => inl e
  | inr v =>
      if existsb (subscribed_row userId courseId) (subscriptions d) then
        inl (PgError "23505" "subscriptions_user_id_course_id_key")
      else if negb (existsb (fun u => String.eqb (user_id u) userId) (users d)) then
        inl (PgError "23503" "subscriptions_user_id_fkey")
      else if negb (existsb (fun c => String.eqb (course_id c) courseId) (courses d)) then
        inl (PgError "23503" "subscriptions_course_id_fkey")
      else
        inr {| subscription_id := gen_random_uuid d;
               subscription_user_id := userId;
               subscription_course_id := courseId;
               subscription_price_paid := v;
               subscription_subscribed_at := current_timestamp d |}
  end.

Definition inserted_row (s : SubscriptionRow) : InsertedRow :=
  {| row_id := subscription_id s;
     row_user_id := subscription_user_id s;
     row_course_id := subscription_course_id s;
     row_price_paid := numeric_to_js (subscription_price_paid s);
     row_subscribed_at := subscription_subscribed_at s |}.

(** One statement: its rows or the error that rejects the promise, and
    the database after it. *)
Definition pg {R : Type} (q : query R) (d : Database) : (exn + R) * Database :=
  match q in query R0 return (exn + R0) * Database with
  | SelectSubscriptionId u c =>
      (inr (map subscription_id (filter (subscribed_row u c) (subscriptions d))), d)
  | SelectCourseById c =>
      (inr (map course_object
              (filter (fun r => String.eqb (course_id r) c) (courses d))), d)
  | InsertSubscription u c x =>
      match insert_subscription u c x d with
      | inl e => (inl e, d)
      | inr s =>
          (inr [inserted_row s],
           {| users := users d;
              courses := courses d;
              subscriptions := subscriptions d ++ [s] |})
      end
  | SelectUserByEmail e =>
      (inr (filter (fun u => String.eqb (user_email u) e) (users d)), d)
  end.

(** A function run to its end with no other request in between. *)
Fixpoint run {A : Type} (p : io A) (d : Database) : (exn + A) * Database :=
  match p with
  | Return a => (inr a, d)
  | Throw e => (inl e, d)
  | Await q k => let '(outcome, d') := pg q d in run (k outcome) d'
  end.

(** One step of a function: it ends, or it has run one statement. *)
Definition step {A : Type} (p : io A) (d : Database) : io A * Database :=
  match p with
  | Await q k => let '(outcome, d') := pg q d in (k outcome, d')
  | _ => (p, d)
  end.

(** Two requests served together: the schedule says whose statement runs
    next ([true] for the first); when it is used up each runs to its
    end. *)
Fixpoint race {A B : Type} (schedule : list bool) (p1 : io A) (p2 : io B)
    (d : Database) : (exn + A) * (exn + B) * Database :=
  match schedule with
  | [] =>
      let '(r1, d1) := run p1 d in
      let '(r2, d2) := run p2 d1 in
      (r1, r2, d2)
  | true :: rest => let '(p1', d') := step p1 d in race rest p1' p2 d'
  | false :: rest => let '(p2', d') := step p2 d in race rest p1 p2' d'
  end.

(** *** SubscriptionService *)

Definition VALID_PROMO_CODE : string := "BFSALE25".
Definition PROMO_DISCOUNT : number := half.

Record PromoValidation : Type := { valid : bool; discount : number }.

Definition validatePromoCode (code : string) : PromoValidation :=
  if String.eqb code VALID_PROMO_CODE then
    {| valid := true; discount := PROMO_DISCOUNT |}
  else {| valid := false; discount := zero |}.

Definition calculateDiscountedPrice (originalPrice discount : number) : number :=
  let discountedPrice := mul originalPrice (sub one discount) in
  parseFloat (toFixed2 discountedPrice).

Definition isUserSubscribed (userId courseId : uuid) : io bool :=
  await (SelectSubscriptionId userId courseId) (fun rows =>
  Return (0 <? Z.of_nat (List.length rows))).

(** [!promoCode]: no code, or the empty string. *)
Definition falsy (promoCode : option string) : bool :=
  match promoCode with
  | None => true
  | Some s => String.eqb s ""
  end.

Definition promo_or_empty (promoCode : option string) : string :=
  match promoCode with Some s => s | None => "" end.

(** [typeof price === 'string' ? parseFloat(price) : price]. *)
Definition number_of_price (price : js_numeric) : number :=
  match price with
  | AsString t => parseFloat t
  | AsNumber x => x
  end.

(** The price to pay once the course is known: the part of [subscribe]
    between the two last queries. *)
Definition price_to_pay (course : Course) (promoCode : option string) : io number :=
  let coursePrice := number_of_price (Course_price course) in
  if strict_eq coursePrice zero then Return zero
  else if falsy promoCode then Throw (JsError "Promo code required for paid courses")
  else
    let promoValidation := validatePromoCode (promo_or_empty promoCode) in
    if negb (valid promoValidation) then Throw (JsError "Invalid promo code")
    else Return (calculateDiscountedPrice coursePrice (discount promoValidation)).

Definition subscribe (userId courseId : uuid) (promoCode : option string) :
    io Subscription :=
  alreadySubscribed <- isUserSubscribed userId courseId ;;
  if alreadySubscribed : bool then
    Throw (JsError "User already subscribed to this course")
  else
    await (SelectCourseById courseId) (fun courseResult =>
    match courseResult with
    | [] => Throw (JsError "Course not found")
    | course :: _ =>
        pricePaid <- price_to_pay course promoCode ;;
        await (InsertSubscription userId courseId pricePaid) (fun result =>
        match result with
        | [] => Throw (JsError "Cannot read properties of undefined")
        | row :: _ =>
            Return {| subscriptionId := row_id row;
                      userId := row_user_id row;
                      courseId := row_course_id row;
                      pricePaid := parseFloat_any (row_price_paid row);
                      subscribedAt := row_subscribed_at row |}
        end)
    end).

(** *** Vocabulary for the statements about the service *)

(** The database with one more subscription. *)
Definition with_subscription (d : Database) (s : SubscriptionRow) : Database :=
  {| users := users d;
     courses := courses d;
     subscriptions := subscriptions d ++ [s] |}.

(** The [Subscription] that [subscribe] builds from an inserted row. *)
Definition subscription_of (s : SubscriptionRow) : Subscription :=
  {| subscriptionId := subscription_id s;
     userId := subscription_user_id s;
     courseId := subscription_course_id s;
     pricePaid := parseFloat_any (numeric_to_js (subscription_price_paid s));
     subscribedAt := subscription_subscribed_at s |}.

Definition is_subscribed (d : Database) (userId courseId : uuid) : bool :=
  existsb (subscribed_row userId courseId) (subscriptions d).

Definition has_user (d : Database) (userId : uuid) : bool :=
  existsb (fun u => String.eqb (user_id u) userId) (users d).

(** The rows that [SELECT ... FROM courses WHERE id = $1] finds. *)
Definition course_rows (d : Database) (courseId : uuid) : list CourseRow :=
  filter (fun r => String.eqb (course_id r) courseId) (courses d).

(** The row that a successful insert adds. *)
Definition new_subscription (d : Database) (userId courseId : uuid)
    (v : pg_numeric) : SubscriptionRow :=
  {| subscription_id := gen_random_uuid d;
     subscription_user_id := userId;
     subscription_course_id := courseId;
     subscription_price_paid := v;
     subscription_subscribed_at := current_timestamp d |}.

(** *** AuthService *)

Definition JWT_SECRET : string :=
  match env_JWT_SECRET with
  | Some s => if String.eqb s "" then "dev-secret-key-change-in-production" else s
  | None => "dev-secret-key-change-in-production"
  end.

Definition comparePassword (password hash : string) : bool :=
  bcrypt_compare password hash.

Definition generateToken (userId : string) : string :=
  jwt_sign {| payload_userId := userId |} JWT_SECRET.

(** [null] is [None]. *)
Definition verifyToken (token : string) : io (option JWTPayload) :=
  try_catch
    (match jwt_verify token JWT_SECRET with
     | inr decoded => Return (Some decoded)
     | inl error => Throw error
     end)
    (fun _ => Return None).

Definition login (email password : string) : io (UserDTO * string) :=
  await (SelectUserByEmail email) (fun rows =>
  match rows with
  | [] => Throw (JsError "Invalid credentials")
  | user :: _ =>
      let isPasswordValid := comparePassword password (user_password user) in
      if negb isPasswordValid then Throw (JsError "Invalid credentials")
      else
        let userDTO :=
          {| dto_id := user_id user;
             dto_email := user_email user;
             dto_name := user_name user |} in
        let token := generateToken (user_id user) in
        Return (userDTO, token)
  end).

End Service.

(** The rows that [SELECT ... FROM users WHERE email = $1] finds. *)
Definition user_rows (d : Database) (email : string) : list UserRow :=
  filter (fun u => String.eqb (user_email u) email) (users d).

(** ** The HTTP layer *)

Inductive json : Type :=
| JUndefined
| JNull
| JBool (b : bool)
| JNumber (x : number)
| JString (s : string)
| JObject (fields : list (string * json)).

Inductive response_body : Type :=
| ErrorBody (error : string)
| ValidationBody (details : list (string * string))
| AuthBody (token : string) (user : UserDTO)
| SubscriptionBody (subscription : Subscription).

Record Response : Type := { status : Z; body : response_body }.

Record Request : Type := {
  headers_authorization : option string;
  req_body : json }.

(** The property [key] of a parsed JSON object; the last of two equal keys
    wins. *)
Fixpoint get_field (key : string) (fields : list (string * json)) : json :=
  match fields with
  | [] => JUndefined
  | (k, v) :: rest =>
      match get_field key rest with
      | JUndefined => if String.eqb k key then v else JUndefined
      | later => later
      end
  end.

Definition received (v : json) : string :=
  match v with
  | JUndefined => "undefined"
  | JNull => "null"
  | JBool _ => "boolean"
  | JNumber _ => "number"
  | JString _ => "string"
  | JObject _ => "object"
  end.

(** The issue zod raises for a value that is not a string. *)
Definition not_a_string (path : string) (v : json) : list (string * string) :=
  match v with
  | JUndefined => [(path, "Required")]
  | _ => [(path, ("Expected string, received " ++ received v)%string)]
  end.

(** [z.string().min(8, ...)] at [path]. *)
Definition check_password (path : string) (v : json) : list (string * string) :=
  match v with
  | JString s =>
      if (String.length s <? 8)%nat then
        [(path, "Password must be at least 8 characters long")]
      else []
  | _ => not_a_string path v
  end.

Definition string_of (v : json) : string :=
  match v with JString s => s | _ => "" end.

Definition validation_failed (issues : list (string * string)) : Response :=
  {| status := 400; body := ValidationBody issues |}.

Definition error_response (code : Z) (message : string) : Response :=
  {| status := code; body := ErrorBody message |}.

(** What the [catch] clause of the handler of [POST /subscribe] answers to
    an error. *)
Definition subscribe_error_response (error : exn) : Response :=
  match error with
  | ZodError issues => validation_failed issues
  | _ =>
      let message := exn_message error in
      if String.eqb message "User already subscribed to this course" then
        error_response 409 message
      else if String.eqb message "Course not found" then
        error_response 404 message
      else if String.eqb message "Invalid promo code" then
        error_response 400 message
      else if String.eqb message "Promo code required for paid courses" then
        error_response 400 message
      else error_response 500 "Internal server error"
  end.

(** The response of [POST /subscribe] to an outcome of [subscribe]. *)
Definition subscribe_response (outcome : exn + Subscription) : Response :=
  match outcome with
  | inr subscription => {| status := 201; body := SubscriptionBody subscription |}
  | inl error => subscribe_error_response error
  end.

Section Routes.

Context `{Ext : Externals}.

(** [z.string().email('Invalid email format')] at [path]. *)
Definition check_email (path : string) (v : json) : list (string * string) :=
  match v with
  | JString s => if zod_email s then [] else [(path, "Invalid email format")]
  | _ => not_a_string path v
  end.

(** [loginSchema.parse(req.body)]. *)
Definition loginSchema_parse (b : json) : io (string * string) :=
  match b with
  | JObject fields =>
      let email := get_field "email" fields in
      let password := get_field "password" fields in
      match check_email "email" email ++ check_password "password" password with
      | [] => Return (string_of email, string_of password)
      | issues => Throw (ZodError issues)
      end
  | JUndefined => Throw (ZodError [("", "Required")])
  | _ => Throw (ZodError [("", ("Expected object, received " ++ received b)%string)])
  end.

(** [router.post('/login', ...)]. *)
Definition post_login (req : Request) : io Response :=
  try_catch
    (validatedData <- loginSchema_parse (req_body req) ;;
     result <- login (fst validatedData) (snd validatedData) ;;
     Return {| status := 200; body := AuthBody (snd result) (fst result) |})
    (fun error =>
       match error with
       | ZodError issues => Return (validation_failed issues)
       | _ =>
           if String.eqb (exn_message error) "Invalid credentials" then
             Return (error_response 401 (exn_message error))
           else Return (error_response 500 "Internal server error")
       end).

(** [authMiddleware]: the response it sends, or the [userId] it attaches
    before it calls [next()]. *)
Definition authMiddleware (req : Request) : io (Response + string) :=
  try_catch
    (match headers_authorization req with
     | None => Return (inl (error_response 401 "Authorization header missing"))
     | Some authHeader =>
         if String.eqb authHeader "" then
           Return (inl (error_response 401 "Authorization header missing"))
         else if negb (prefix "Bearer " authHeader) then
           Return (inl (error_response 401
                          "Invalid authorization format. Expected: Bearer <token>"))
         else
           let token := substring 7 (String.length authHeader - 7) authHeader in
           payload <- verifyToken token ;;
           match payload with
           | None => Return (inl (error_response 401 "Invalid or expired token"))
           | Some p => Return (inr (payload_userId p))
           end
     end)
    (fun _ => Return (inl (error_response 401 "Authentication failed"))).

(** A route behind [authMiddleware]. *)
Definition protected (handler : string -> Request -> io Response)
    (req : Request) : io Response :=
  r <- authMiddleware req ;;
  match r with
  | inl res => Return res
  | inr userId => handler userId req
  end.

(** [subscribeSchema.parse(req.body)]. *)
Definition subscribeSchema_parse (b : json) : io (string * option string) :=
  match b with
  | JObject fields =>
      let courseId := get_field "courseId" fields in
      let promoCode := get_field "promoCode" fields in
      let courseId_issues :=
        match courseId with
        | JString s => if zod_uuid s then [] else [("courseId", "Invalid course ID format")]
        | _ => not_a_string "courseId" courseId
        end in
      let promoCode_issues :=
        match promoCode with
        | JUndefined | JString _ => []
        | _ => not_a_string "promoCode" promoCode
        end in
      match courseId_issues ++ promoCode_issues with
      | [] =>
          Return (string_of courseId,
                  match promoCode with JString s => Some s | _ => None end)
      | issues => Throw (ZodError issues)
      end
  | JUndefined => Throw (ZodError [("", "Required")])
  | _ => Throw (ZodError [("", ("Expected object, received " ++ received b)%string)])
  end.

(** The handler of [router.post('/subscribe', authMiddleware, ...)]. *)
Definition subscribe_handler (userId : string) (req : Request) : io Response :=
  try_catch
    (validatedData <- subscribeSchema_parse (req_body req) ;;
     subscription <- subscribe userId (fst validatedData) (snd validatedData) ;;
     Return {| status := 201; body := SubscriptionBody subscription |})
    (fun error => Return (subscribe_error_response error)).

Definition post_subscribe : Request -> io Response := protected subscribe_handler.

End Routes.

(** The two errors with which a second [subscribe] for a pair can end:
    the one of the check, and the one of the unique constraint. *)
Definition already_subscribed : exn := JsError "User already subscribed to this course".
Definition duplicate_key : exn := PgError "23505" "subscriptions_user_id_course_id_key".




(** A request that [authMiddleware] has to turn away: no [Authorization]
    header or an empty one, a header that does not start with "Bearer ",
    or a token that [jwt.verify] throws on (bad signature, malformed,
    expired). *)
Definition bad_authorization `{Ext : Externals} (req : Request) : Prop :=
  match headers_authorization req with
  | None => True
  | Some authHeader =>
      authHeader = ""
      \/ prefix "Bearer " authHeader = false
      \/ exists error,
           jwt_verify (substring 7 (String.length authHeader - 7) authHeader) JWT_SECRET
           = inl error
  end.

(** ** The seeded catalogue

    The users and courses of [db/seed.ts], and stand-ins for the
    libraries, to run the service on. *)

Definition seed_user (i name email password : string) : UserRow :=
  {| user_id := i;
     user_name := Some name;
     user_email := email;
     user_password := password;
     user_created_at := 0 |}.

Definition seed_course (i title : string) (hundredths : Z) : CourseRow :=
  {| course_id := i;
     course_title := title;
     course_description := "";
     course_price := Numeric hundredths;
     course_image := "";
     course_main_image := None;
     course_created_at := 0 |}.

Definition seed_database : Database :=
  {| users :=
       [ seed_user "user-1" "Test User One" "test1@example.com" "bcrypt:password123";
         seed_user "user-2" "Test User Two" "test2@example.com" "bcrypt:password123";
         seed_user "user-3" "Admin User" "admin@example.com" "bcrypt:admin123" ];
     courses :=
       [ seed_course "course-1" "Introduction to Web Development" 0;
         seed_course "course-2" "Advanced React Patterns" 9999;
         seed_course "course-3" "Node.js Backend Development" 14999;
         seed_course "course-4" "Database Design Fundamentals" 0;
         seed_course "course-5" "Full-Stack TypeScript" 19999;
         seed_course "course-6" "Docker and DevOps Essentials" 7999 ];
     subscriptions := [] |}.

(** A course of one hundredth, next to the seeded ones. *)
Definition penny_database : Database :=
  {| users := users seed_database;
     courses := seed_course "course-7" "One Cent" 1 :: courses seed_database;
     subscriptions := [] |}.

Definition demo_externals : Externals :=
  {| bcrypt_compare := fun password hash => String.eqb ("bcrypt:" ++ password)%string hash;
     jwt_sign := fun payload _ => ("jwt:" ++ payload_userId payload)%string;
     jwt_verify := fun token _ =>
       if prefix "jwt:" token then
         inr {| payload_userId := substring 4 (String.length token - 4) token |}
       else inl (JsError "jwt malformed");
     env_JWT_SECRET := None;
     zod_email := fun s =>
       match index 0 "@" s with Some _ => true | None => false end;
     zod_uuid := fun s => prefix "course-" s;
     gen_random_uuid := fun d =>
       ("subscription-" ++ String (ascii_of_nat (49 + List.length (subscriptions d)))
                                  EmptyString)%string;
     current_timestamp := fun d => Z.of_nat (List.length (subscriptions d));
     numeric_as_number := false |}.

Definition option_eq_dec (a b : option string) : {a = b} + {a <> b}.
Proof. decide equality. apply string_dec. Defined.

(** [POST /subscribe] by the first seeded user for a course, with a valid
    token. *)
Definition subscribe_request (courseId : string) (promoCode : json) : Request :=
  {| headers_authorization := Some "Bearer jwt:user-1";
     req_body := JObject [ ("courseId", JString courseId); ("promoCode", promoCode) ] |}.

(** * The rest of the backend, and the pages that call it

    [AuthService.signup] with its route, [CourseService] with its
    routes, [SubscriptionService.getUserSubscriptions] with
    [GET /my-courses], the global [errorHandler], and the validators and
    price displays of the pages. Texts are sequences of code units below
    256; PostgreSQL refuses a text that holds the code unit 0. Here an
    identifier that arrives in a path is any text: PostgreSQL reads it as
    a [uuid], in any of the spellings it accepts, or refuses it. *)

(** ** Text *)

(** [haystack.includes(needle)]. *)
Fixpoint includes (needle haystack : string) : bool :=
  prefix needle haystack
  || match haystack with
     | EmptyString => false
     | String _ rest => includes needle rest
     end.

(** Every code unit of [s] satisfies [f]. *)
Fixpoint every (f : ascii -> bool) (s : string) : bool :=
  match s with
  | EmptyString => true
  | String c rest => f c && every f rest
  end.

(** The text holds the code unit 0. *)
Fixpoint has_nul (s : string) : bool :=
  match s with
  | EmptyString => false
  | String c rest => Ascii.eqb c Ascii.zero || has_nul rest
  end.

(** ** Regular expressions

    The expressions that the repository writes use classes, sequence and
    [+], anchored at both ends; [test] then asks for a match of the whole
    text. Matching is by derivatives. *)

Module RegExp.

Inductive regex : Type :=
| Nothing
| Epsilon
| Symbol (class : ascii -> bool)
| Concat (r1 r2 : regex)
| Choice (r1 r2 : regex)
| Repeat (r : regex).

(** [r+]. *)
Definition Plus (r : regex) : regex := Concat r (Repeat r).

Fixpoint nullable (r : regex) : bool :=
  match r with
  | Nothing => false
  | Epsilon => true
  | Symbol _ => false
  | Concat r1 r2 => nullable r1 && nullable r2
  | Choice r1 r2 => nullable r1 || nullable r2
  | Repeat _ => true
  end.

Fixpoint derivative (c : ascii) (r : regex) : regex :=
  match r with
  | Nothing => Nothing
  | Epsilon => Nothing
  | Symbol class => if class c then Epsilon else Nothing
  | Concat r1 r2 =>
      if nullable r1 then Choice (Concat (derivative c r1) r2) (derivative c r2)
      else Concat (derivative c r1) r2
  | Choice r1 r2 => Choice (derivative c r1) (derivative c r2)
  | Repeat r0 => Concat (derivative c r0) (Repeat r0)
  end.

(** [/^r$/.test(s)]. *)
Fixpoint test (r : regex) (s : string) : bool :=
  match s with
  | EmptyString => nullable r
  | String c rest => test (derivative c r) rest
  end.

(** [\s] on code units below 256: tab, line feed, vertical tab, form
    feed, carriage return, space, no-break space. *)
Definition white_space (c : ascii) : bool :=
  let n := nat_of_ascii c in
  ((9 <=? n) && (n <=? 13) || (n =? 32) || (n =? 160))%nat.

(** [[^\s@]]. *)
Definition address_char (c : ascii) : bool :=
  negb (white_space c || Ascii.eqb c "@").

(** [/^[^\s@]+@[^\s@]+\.[^\s@]+$/]. *)
Definition emailRegex : regex :=
  Concat (Plus (Symbol address_char))
    (Concat (Symbol (Ascii.eqb "@"))
       (Concat (Plus (Symbol address_char))
          (Concat (Symbol (Ascii.eqb "."))
             (Plus (Symbol address_char))))).

(** The texts of a regular expression. *)
Inductive language : regex -> string -> Prop :=
| in_Epsilon : language Epsilon ""
| in_Symbol (class : ascii -> bool) (c : ascii) :
    class c = true -> language (Symbol class) (String c "")
| in_Concat (r1 r2 : regex) (s1 s2 : string) :
    language r1 s1 -> language r2 s2 -> language (Concat r1 r2) (s1 ++ s2)
| in_Choice_left (r1 r2 : regex) (s : string) :
    language r1 s -> language (Choice r1 r2) s
| in_Choice_right (r1 r2 : regex) (s : string) :
    language r2 s -> language (Choice r1 r2) s
| in_Repeat_none (r : regex) : language (Repeat r) ""
| in_Repeat_more (r : regex) (s1 s2 : string) :
    language r s1 -> language (Repeat r) s2 -> language (Repeat r) (s1 ++ s2).

End RegExp.

(** A part of an address: not empty, without white space and without
    ["@"]. *)
Definition address_part (s : string) : bool :=
  negb (String.eqb s "") && every RegExp.address_char s.

(** ** The collaborators of the rest *)

Class Library : Type := {
  (** [bcrypt.hash(password, rounds)], with the salt it draws *)
  bcrypt_hash : string -> Z -> string;
  (** the [uuid] that PostgreSQL reads the text as, in the spelling in
      which it prints the value (lower case, hyphens after 8, 12, 16 and
      20 digits) and which reads as itself, or [None] for a text that is
      no [uuid]; upper case, braces and other hyphens are read as well *)
  uuid_in : string -> option uuid }.

(** ** More statements *)

(** The row that [INSERT INTO users ... RETURNING id, email, name,
    created_at] yields. *)
Record NewUser : Type := {
  new_id : uuid;
  new_email : string;
  new_name : option string;
  new_created_at : timestamp }.

(** A row of the join of [getUserSubscriptions], by the names of its
    columns. Both [s.course_id] and [c.id as course_id] are called
    [course_id]; the row object holds the second. *)
Record JoinedRow : Type := {
  joined_id : uuid;
  joined_user_id : uuid;
  joined_course_id : uuid;
  joined_price_paid : js_numeric;
  joined_subscribed_at : timestamp;
  joined_course_title : string;
  joined_course_description : string;
  joined_course_price : js_numeric;
  joined_course_image : string;
  joined_course_main_image : option string;
  joined_course_created_at : timestamp }.

Inductive statement : Type -> Type :=
| Earlier {R : Type} (q : query R) : statement R
| SelectUserId (email : string) : statement (list uuid)
| InsertUser (email password : string) (name : option string) :
    statement (list NewUser)
| SelectCourses : statement (list Course)
| SelectCourseByText (id : string) : statement (list Course)
| SelectSubscriptionsOfUser (userId : uuid) : statement (list JoinedRow).

(** An [async] function over these statements. *)
Inductive task (A : Type) : Type :=
| Done (a : A)
| Failed (e : exn)
| Ask {R : Type} (q : statement R) (k : exn + R -> task A).

Arguments Done {A} a.
Arguments Failed {A} e.
Arguments Ask {A R} q k.

Fixpoint and_then {A B : Type} (p : task A) (f : A -> task B) : task B :=
  match p with
  | Done a => f a
  | Failed e => Failed e
  | Ask q k => Ask q (fun r => and_then (k r) f)
  end.

(** [try { p } catch (error) { h(error) }]. *)
Fixpoint attempt {A : Type} (p : task A) (h : exn -> task A) : task A :=
  match p with
  | Done a => Done a
  | Failed e => h e
  | Ask q k => Ask q (fun r => attempt (k r) h)
  end.

(** [await pool.query(...)]. *)
Definition ask {A R : Type} (q : statement R) (k : R -> task A) : task A :=
  Ask q (fun outcome =>
    match outcome with
    | inl e => Failed e
    | inr rows => k rows
    end).

(** A function over the statements of the subscription and login flows,
    among the others. *)
Fixpoint lift {A : Type} (p : io A) : task A :=
  match p with
  | Return a => Done a
  | Throw e => Failed e
  | Await q k => Ask (Earlier q) (fun r => lift (k r))
  end.

Notation "x <~ p ;; q" := (and_then p (fun x => q))
  (at level 61, p at next level, right associativity).

(** [rows] by [key], the largest first: [ORDER BY key DESC]. Rows with
    the same key stay as they were; PostgreSQL may give them in any
    order. *)
Fixpoint insert_by {A : Type} (key : A -> Z) (a : A) (sorted : list A) : list A :=
  match sorted with
  | [] => [a]
  | b :: rest =>
      if key b <=? key a then a :: sorted else b :: insert_by key a rest
  end.

Fixpoint order_by_desc {A : Type} (key : A -> Z) (rows : list A) : list A :=
  match rows with
  | [] => []
  | a :: rest => insert_by key a (order_by_desc key rest)
  end.

Fixpoint all_spaces (s : string) : bool :=
  match s with
  | EmptyString => true
  | String c rest => Ascii.eqb c " " && all_spaces rest
  end.

(** A text assigned to a [VARCHAR(255)] column: spaces beyond the length
    are cut off, anything else there is an error. *)
Definition varchar255 (s : string) : exn + string :=
  if (String.length s <=? 255)%nat then inr s
  else if all_spaces (substring 255 (String.length s - 255) s) then
    inr (substring 0 255 s)
  else inl (PgError "22001" "").

(** A text sent as a parameter of a statement: PostgreSQL refuses the
    code unit 0 in it, whatever the statement does with the text. *)
Definition invalid_byte_sequence : exn := PgError "22021" "".

Definition with_user (d : Database) (u : UserRow) : Database :=
  {| users := users d ++ [u];
     courses := courses d;
     subscriptions := subscriptions d |}.

Definition new_user (u : UserRow) : NewUser :=
  {| new_id := user_id u;
     new_email := user_email u;
     new_name := user_name u;
     new_created_at := user_created_at u |}.

Section Statements.

Context `{Ext : Externals} `{Lib : Library}.

(** [INSERT INTO users (email, password, name)]: the texts of the
    parameters, the column types, then [UNIQUE] on [email]. The
    identifier that PostgreSQL generates is taken to be new. *)
Definition insert_user (email password : string) (name : option string)
    (d : Database) : exn + UserRow :=
  if has_nul email || has_nul password
     || match name with Some n => has_nul n | None => false end then
    inl invalid_byte_sequence
  else
  match varchar255 email, varchar255 password,
        match name with
        | None => inr None
        | Some n =>
            match varchar255 n with
            | inl e => inl e
            | inr n' => inr (Some n')
            end
        end
  with
  | inr email', inr password', inr name' =>
      if existsb (fun u => String.eqb (user_email u) email') (users d) then
        inl (PgError "23505" "users_email_key")
      else
        inr {| user_id := gen_random_uuid d;
               user_name := name';
               user_email := email';
               user_password := password';
               user_created_at := current_timestamp d |}
  | inl e, _, _ => inl e
  | _, inl e, _ => inl e
  | _, _, inl e => inl e
  end.

(** The row of the join for a subscription and its course. *)
Definition joined_row (pair : SubscriptionRow * CourseRow) : JoinedRow :=
  let (s, c) := pair in
  {| joined_id := subscription_id s;
     joined_user_id := subscription_user_id s;
     joined_course_id := course_id c;
     joined_price_paid := numeric_to_js (subscription_price_paid s);
     joined_subscribed_at := subscription_subscribed_at s;
     joined_course_title := course_title c;
     joined_course_description := course_description c;
     joined_course_price := numeric_to_js (course_price c);
     joined_course_image := course_image c;
     joined_course_main_image := course_main_image c;
     joined_course_created_at := course_created_at c |}.

(** [subscriptions s JOIN courses c ON s.course_id = c.id WHERE
    s.user_id = $1]. *)
Definition subscriptions_joined (d : Database) (userId : uuid) :
    list (SubscriptionRow * CourseRow) :=
  flat_map
    (fun s =>
       map (pair s)
         (filter (fun c => String.eqb (subscription_course_id s) (course_id c))
            (courses d)))
    (filter (fun s => String.eqb (subscription_user_id s) userId) (subscriptions d)).

(** One statement of the wider set. *)
Definition exec {R : Type} (q : statement R) (d : Database) : (exn + R) * Database :=
  match q in statement R0 return (exn + R0) * Database with
  | Earlier q0 => pg q0 d
  | SelectUserId email =>
      if has_nul email then (inl invalid_byte_sequence, d)
      else (inr (map user_id (user_rows d email)), d)
  | InsertUser email password name =>
      match insert_user email password name d with
      | inl e => (inl e, d)
      | inr u => (inr [new_user u], with_user d u)
      end
  | SelectCourses =>
      (inr (map course_object (order_by_desc course_created_at (courses d))), d)
  | SelectCourseByText id =>
      if has_nul id then (inl invalid_byte_sequence, d)
      else
        match uuid_in id with
        | Some value => (inr (map course_object (course_rows d value)), d)
        | None => (inl (PgError "22P02" id), d)
        end
  | SelectSubscriptionsOfUser userId =>
      (inr (map joined_row
              (order_by_desc (fun pair => subscription_subscribed_at (fst pair))
                 (subscriptions_joined d userId))), d)
  end.

Fixpoint run_task {A : Type} (p : task A) (d : Database) : (exn + A) * Database :=
  match p with
  | Done a => (inr a, d)
  | Failed e => (inl e, d)
  | Ask q k => let '(outcome, d') := exec q d in run_task (k outcome) d'
  end.

Definition step_task {A : Type} (p : task A) (d : Database) : task A * Database :=
  match p with
  | Ask q k => let '(outcome, d') := exec q d in (k outcome, d')
  | _ => (p, d)
  end.

(** Two requests served together, as [race]. *)
Fixpoint race_tasks {A B : Type} (schedule : list bool) (p1 : task A) (p2 : task B)
    (d : Database) : (exn + A) * (exn + B) * Database :=
  match schedule with
  | [] =>
      let '(r1, d1) := run_task p1 d in
      let '(r2, d2) := run_task p2 d1 in
      (r1, r2, d2)
  | true :: rest => let '(p1', d') := step_task p1 d in race_tasks rest p1' p2 d'
  | false :: rest => let '(p2', d') := step_task p2 d in race_tasks rest p1 p2' d'
  end.

(** *** AuthService, continued *)

Definition SALT_ROUNDS : Z := 10.

Definition hashPassword (password : string) : string :=
  bcrypt_hash password SALT_ROUNDS.

(** [name || null]. *)
Definition or_null (name : option string) : option string :=
  match name with
  | Some n => if String.eqb n "" then None else Some n
  | None => None
  end.

Definition signup (email password : string) (name : option string) :
    task (UserDTO * string) :=
  if negb (RegExp.test RegExp.emailRegex email) then
    Failed (JsError "Invalid email format")
  else if (String.length password <? 8)%nat then
    Failed (JsError "Password must be at least 8 characters long")
  else
    ask (SelectUserId email) (fun existingUser =>
    if (0 <? List.length existingUser)%nat then
      Failed (JsError "Email already exists")
    else
      let hashedPassword := hashPassword password in
      ask (InsertUser email hashedPassword (or_null name)) (fun result =>
      match result with
      | [] => Failed (JsError "Cannot read properties of undefined")
      | user :: _ =>
          let userDTO :=
            {| dto_id := new_id user;
               dto_email := new_email user;
               dto_name := new_name user |} in
          let token := generateToken (new_id user) in
          Done (userDTO, token)
      end)).

(** *** CourseService *)

(** [{ ...course, price: parseFloat(course.price) }]. *)
Definition with_parsed_price (course : Course) : Course :=
  {| Course_id := Course_id course;
     Course_title := Course_title course;
     Course_description := Course_description course;
     Course_price := AsNumber (parseFloat_any (Course_price course));
     Course_image := Course_image course;
     Course_main_image := Course_main_image course;
     Course_created_at := Course_created_at course |}.

Definition getAllCourses : task (list Course) :=
  ask SelectCourses (fun rows => Done (map with_parsed_price rows)).

(** [null] is [None]. *)
Definition getCourseById (id : string) : task (option Course) :=
  ask (SelectCourseByText id) (fun rows =>
  match rows with
  | [] => Done None
  | course :: _ => Done (Some (with_parsed_price course))
  end).

End Statements.

(** *** SubscriptionService, continued *)

(** [SubscriptionWithCourse] of [types/index.ts]. *)
Record SubscriptionWithCourse : Type := {
  subscription : Subscription;
  course : Course }.

Definition subscription_with_course (row : JoinedRow) : SubscriptionWithCourse :=
  {| subscription :=
       {| subscriptionId := joined_id row;
          userId := joined_user_id row;
          courseId := joined_course_id row;
          pricePaid := parseFloat_any (joined_price_paid row);
          subscribedAt := joined_subscribed_at row |};
     course :=
       {| Course_id := joined_course_id row;
          Course_title := joined_course_title row;
          Course_description := joined_course_description row;
          Course_price := AsNumber (parseFloat_any (joined_course_price row));
          Course_image := joined_course_image row;
          Course_main_image := joined_course_main_image row;
          Course_created_at := joined_course_created_at row |} |}.

Definition getUserSubscriptions (userId : string) :
    task (list SubscriptionWithCourse) :=
  ask (SelectSubscriptionsOfUser userId) (fun rows =>
  Done (map subscription_with_course rows)).

(** ** The HTTP layer, continued *)

(** [error.message], with the texts of the driver's errors that the
    statements above add. *)
Definition message_of (e : exn) : string :=
  match e with
  | PgError code text =>
      if String.eqb code "22001" then
        "value too long for type character varying(255)"
      else if String.eqb code "22021" then
        ("invalid byte sequence for encoding " ++ dquote ++ "UTF8" ++ dquote
           ++ ": 0x00")%string
      else if String.eqb code "22P02" then
        ("invalid input syntax for type uuid: " ++ dquote ++ text ++ dquote)%string
      else exn_message e
  | _ => exn_message e
  end.

Inductive reply_content : Type :=
| Body (b : response_body)
| CoursesBody (courses : list Course)
| CourseBody (course : Course)
| SubscriptionsBody (subscriptions : list SubscriptionWithCourse)
| ErrorWithDetails (error : string) (details : json).

Record Reply : Type := { reply_status : Z; reply_content_ : reply_content }.

Definition reply_of (res : Response) : Reply :=
  {| reply_status := status res; reply_content_ := Body (body res) |}.

Definition error_reply (code : Z) (message : string) : Reply :=
  reply_of (error_response code message).

(** The [catch] clause of the handler of [POST /auth/signup]. *)
Definition signup_error_response (error : exn) : Response :=
  match error with
  | ZodError issues => validation_failed issues
  | _ =>
      let message := message_of error in
      if String.eqb message "Email already exists" then
        error_response 409 message
      else if String.eqb message "Invalid email format"
              || String.eqb message "Password must be at least 8 characters long" then
        error_response 400 message
      else error_response 500 "Internal server error"
  end.

Section MoreRoutes.

Context `{Ext : Externals} `{Lib : Library}.

(** [signupSchema.parse(req.body)]. *)
Definition signupSchema_parse (b : json) : task (string * string * option string) :=
  match b with
  | JObject fields =>
      let email := get_field "email" fields in
      let password := get_field "password" fields in
      let name := get_field "name" fields in
      let name_issues :=
        match name with
        | JUndefined | JString _ => []
        | _ => not_a_string "name" name
        end in
      match check_email "email" email ++ check_password "password" password
            ++ name_issues with
      | [] =>
          Done (string_of email, string_of password,
                match name with JString s => Some s | _ => None end)
      | issues => Failed (ZodError issues)
      end
  | JUndefined => Failed (ZodError [("", "Required")])
  | _ => Failed (ZodError [("", ("Expected object, received " ++ received b)%string)])
  end.

(** [router.post('/signup', ...)]. *)
Definition post_signup (req : Request) : task Response :=
  attempt
    (validatedData <~ signupSchema_parse (req_body req) ;;
     result <~ signup (fst (fst validatedData)) (snd (fst validatedData))
                 (snd validatedData) ;;
     Done {| status := 201; body := AuthBody (snd result) (fst result) |})
    (fun error => Done (signup_error_response error)).

(** [router.get('/', ...)] of [routes/courses]. *)
Definition get_courses : task Reply :=
  attempt
    (courses <~ getAllCourses ;;
     Done {| reply_status := 200; reply_content_ := CoursesBody courses |})
    (fun _ => Done (error_reply 500 "Internal server error")).

(** [router.get('/:id', ...)] of [routes/courses]. *)
Definition get_course (id : string) : task Reply :=
  attempt
    (course <~ getCourseById id ;;
     match course with
     | None => Done (error_reply 404 "Course not found")
     | Some c => Done {| reply_status := 200; reply_content_ := CourseBody c |}
     end)
    (fun _ => Done (error_reply 500 "Internal server error")).

(** The handler of [router.get('/my-courses', authMiddleware, ...)]. *)
Definition my_courses_handler (userId : string) : task Reply :=
  attempt
    (subscriptions <~ getUserSubscriptions userId ;;
     Done {| reply_status := 200; reply_content_ := SubscriptionsBody subscriptions |})
    (fun _ => Done (error_reply 500 "Internal server error")).

Definition get_my_courses (req : Request) : task Reply :=
  r <~ lift (authMiddleware req) ;;
  match r with
  | inl res => Done (reply_of res)
  | inr userId => my_courses_handler userId
  end.

End MoreRoutes.

(** ** Requests

    The requests that [index.ts] hands to a route which queries the
    database, and what is answered to them. *)

Inductive request : Type :=
| PostSignup (req : Request)
| PostLogin (req : Request)
| PostSubscribe (req : Request)
| GetMyCourses (req : Request)
| GetCourses
| GetCourse (id : string).

(** What happens at the server: a request arrives, or one of the
    requests that are being served runs its next statement. *)
Inductive event : Type :=
| Arrives (r : request)
| Proceeds (i : nat).

Section Serving.

Context `{Ext : Externals} `{Lib : Library}.

Definition answer (r : request) : task Reply :=
  match r with
  | PostSignup req => res <~ post_signup req ;; Done (reply_of res)
  | PostLogin req => res <~ lift (post_login req) ;; Done (reply_of res)
  | PostSubscribe req => res <~ lift (post_subscribe req) ;; Done (reply_of res)
  | GetMyCourses req => get_my_courses req
  | GetCourses => get_courses
  | GetCourse id => get_course id
  end.

(** The [i]-th of the requests that are being served takes a step; one
    that has ended stays as it is. *)
Fixpoint proceed {A : Type} (i : nat) (running : list (task A)) (d : Database)
    {struct running} : list (task A) * Database :=
  match running, i with
  | [], _ => ([], d)
  | p :: rest, O => let '(p', d') := step_task p d in (p' :: rest, d')
  | p :: rest, S j => let '(rest', d') := proceed j rest d in (p :: rest', d')
  end.

Fixpoint serve (events : list event) (running : list (task Reply)) (d : Database) :
    list (task Reply) * Database :=
  match events with
  | [] => (running, d)
  | Arrives r :: rest => serve rest (running ++ [answer r]) d
  | Proceeds i :: rest =>
      let '(running', d') := proceed i running d in serve rest running' d'
  end.

(** The database after some events at a server that was idle. *)
Definition after (events : list event) (d : Database) : Database :=
  snd (serve events [] d).

End Serving.

(** *** The global error handler *)

(** What reaches [errorHandler]: an [AppError], or another error. *)
Inductive thrown : Type :=
| AppError (statusCode : Z) (message : string) (details : json)
| Caught (e : exn).

(** Whether a value counts as true. *)
Definition truthy (v : json) : bool :=
  match v with
  | JUndefined | JNull => false
  | JBool b => b
  | JNumber x =>
      match x with
      | S754_zero _ | S754_nan => false
      | _ => true
      end
  | JString s => negb (String.eqb s "")
  | JObject _ => true
  end.

Definition errorHandler (err : thrown) : Reply :=
  match err with
  | Caught (ZodError issues) => reply_of (validation_failed issues)
  | AppError statusCode message details =>
      if truthy details then
        {| reply_status := statusCode;
           reply_content_ := ErrorWithDetails message details |}
      else error_reply statusCode message
  | Caught e =>
      let message := message_of e in
      if String.eqb message "Invalid credentials"
         || String.eqb message "No token provided"
         || String.eqb message "Invalid token"
         || String.eqb message "Token expired"
         || String.eqb message "Unauthorized" then
        error_reply 401 message
      else if String.eqb message "Course not found"
              || String.eqb message "User not found"
              || String.eqb message "Subscription not found"
              || includes "not found" message then
        error_reply 404 message
      else if String.eqb message "Email already exists"
              || String.eqb message "User already subscribed to this course"
              || includes "already exists" message then
        error_reply 409 message
      else if String.eqb message "Invalid email format"
              || String.eqb message "Password must be at least 8 characters long"
              || String.eqb message "Invalid promo code"
              || String.eqb message "Promo code required for paid courses"
              || includes "Invalid" message
              || includes "required" message then
        error_reply 400 message
      else error_reply 500 "Internal server error"
  end.

(** [notFoundHandler]: the error it hands to [next]. *)
Definition notFoundHandler (method path : string) : thrown :=
  AppError 404 ("Route " ++ method ++ " " ++ path ++ " not found")%string JUndefined.

(** ** The pages

    A page works on the numbers that the backend has sent: JSON carries
    a finite number unchanged. *)

(** A price as a page shows it. *)
Inductive price_label : Type :=
| Free
| Dollars (amount : numeric_text).

Module CourseCard.

(** [formatPrice], the same in [CourseDetail]. *)
Definition formatPrice (price : number) : price_label :=
  if strict_eq price zero then Free else Dollars (toFixed2 price).

End CourseCard.

Module PromoCodeInput.

Definition calculateDiscountedPrice (price : number) : number := mul price half.

(** The discounted price under a valid promo code:
    [${discountedPrice.toFixed(2)}]. *)
Definition discounted_price_shown (originalPrice : number) : price_label :=
  Dollars (toFixed2 (calculateDiscountedPrice originalPrice)).

End PromoCodeInput.

Module CourseDetail.

(** The amount in the message after a paid subscription:
    [${subscription.pricePaid.toFixed(2)}]. *)
Definition amount_paid_shown (s : Subscription) : price_label :=
  Dollars (toFixed2 (pricePaid s)).

End CourseDetail.

Module SignupPage.

Definition EMAIL_REGEX : RegExp.regex := RegExp.emailRegex.
Definition MIN_PASSWORD_LENGTH : nat := 8.

(** [undefined] is [None]. *)
Definition validateEmail (email : string) : option string :=
  if String.eqb email "" then Some "Email is required"
  else if negb (RegExp.test EMAIL_REGEX email) then Some "Invalid email format"
  else None.

Definition validatePassword (password : string) : option string :=
  if String.eqb password "" then Some "Password is required"
  else if (String.length password <? MIN_PASSWORD_LENGTH)%nat then
    Some "Password must be at least 8 characters"
  else None.

(** [validateForm]: no error for either field. *)
Definition validateForm (email password : string) : bool :=
  match validateEmail email, validatePassword password with
  | None, None => true
  | _, _ => false
  end.

End SignupPage.

(** ** Vocabulary for the statements about the rest *)

(** The row that a successful [INSERT INTO users] adds. *)
Definition account_row `{Ext : Externals} (d : Database) (email password : string)
    (name : option string) : UserRow :=
  {| user_id := gen_random_uuid d;
     user_name := name;
     user_email := email;
     user_password := password;
     user_created_at := current_timestamp d |}.

(** The [UserDTO] of a row of [users]. *)
Definition account (u : UserRow) : UserDTO :=
  {| dto_id := user_id u;
     dto_email := user_email u;
     dto_name := user_name u |}.

(** A text that is not too long for a [VARCHAR(255)] column. *)
Definition fits255 (s : string) : Prop := (String.length s <= 255)%nat.

(** A text that PostgreSQL takes as a parameter and stores as it is in a
    [VARCHAR(255)] column. *)
Definition stored_as_is (s : string) : Prop := has_nul s = false /\ fits255 s.

Definition has_course (d : Database) (courseId : uuid) : bool :=
  existsb (fun c => String.eqb (course_id c) courseId) (courses d).

(** The two [REFERENCES] of [subscriptions]. *)
Definition references_hold (d : Database) : Prop :=
  Forall
    (fun s =>
       has_user d (subscription_user_id s) = true
       /\ has_course d (subscription_course_id s) = true)
    (subscriptions d).

(** [PRIMARY KEY] on [courses.id]. *)
Definition unique_courses (d : Database) : Prop :=
  NoDup (map course_id (courses d)).

(** A course as [CourseService] returns it. *)
Definition course_shown `{Ext : Externals} (c : CourseRow) : Course :=
  with_parsed_price (course_object c).

(** A subscription with its course as [getUserSubscriptions] returns
    them. *)
Definition listing `{Ext : Externals} (pair : SubscriptionRow * CourseRow) :
    SubscriptionWithCourse :=
  subscription_with_course (joined_row pair).

(** The subscriptions of a user. *)
Definition subscriptions_of_user (d : Database) (userId : uuid) : list SubscriptionRow :=
  filter (fun s => String.eqb (subscription_user_id s) userId) (subscriptions d).

(** The two errors with which a second [signup] for an email can end. *)
Definition email_exists : exn := JsError "Email already exists".
Definition duplicate_email : exn := PgError "23505" "users_email_key".

(** A request with a token in its [Authorization] header. *)
Definition bearing (token : string) (b : json) : Request :=
  {| headers_authorization := Some ("Bearer " ++ token)%string; req_body := b |}.

(** ** More of the catalogue *)

(** An upper-case letter as the lower-case one. *)
Definition lower (c : ascii) : ascii :=
  let n := nat_of_ascii c in
  if ((65 <=? n) && (n <=? 90))%nat then ascii_of_nat (n + 32) else c.

Fixpoint lower_case (s : string) : string :=
  match s with
  | EmptyString => EmptyString
  | String c rest => String (lower c) (lower_case rest)
  end.

(** The stand-in for the reading of a [uuid] takes the identifiers of
    the catalogue in either case and prints them in lower case. *)
Definition demo_library : Library :=
  {| bcrypt_hash := fun password _ => ("bcrypt:" ++ password)%string;
     uuid_in := fun s =>
       let printed := lower_case s in
       if prefix "course-" printed || prefix "user-" printed || prefix "id-" printed
       then Some printed
       else None |}.

(** The stand-ins of before, with identifiers and times that count the
    rows of both tables that grow. *)
Definition demo_accounts : Externals :=
  {| bcrypt_compare := @bcrypt_compare demo_externals;
     jwt_sign := @jwt_sign demo_externals;
     jwt_verify := @jwt_verify demo_externals;
     env_JWT_SECRET := @env_JWT_SECRET demo_externals;
     zod_email := @zod_email demo_externals;
     zod_uuid := @zod_uuid demo_externals;
     gen_random_uuid := fun d =>
       ("id-" ++ String (ascii_of_nat
                           (49 + List.length (users d) + List.length (subscriptions d)))
                        EmptyString)%string;
     current_timestamp := fun d =>
       Z.of_nat (List.length (users d) + List.length (subscriptions d));
     numeric_as_number := @numeric_as_number demo_externals |}.

(** [POST /auth/signup] with a body. *)
Definition signup_request (email password : string) (name : json) : Request :=
  {| headers_authorization := None;
     req_body := JObject [ ("email", JString email); ("password", JString password);
                           ("name", name) ] |}.

(** A name of 256 letters. *)
Definition long_name : string := string_of_list_ascii (repeat "a"%char 256).

(** The seeded database after the first user has subscribed to the
    second course with the promo code. *)
Definition subscribed_database : Database :=
  {| users := users seed_database;
     courses := courses seed_database;
     subscriptions :=
       [ {| subscription_id := "id-4";
            subscription_user_id := "user-1";
            subscription_course_id := "course-2";
            subscription_price_paid := Numeric 4999;
            subscription_subscribed_at := 3 |} ] |}.

(** * Properties *)

(** ** Numbers *)

Module JsNumberFacts.

Lemma digits2_pos_log2 (p : positive) :
  Zpos (digits2_pos p) = Z.log2 (Zpos p) + 1.
Proof.
  assert (size : forall q, digits2_pos q = Pos.size q).
  { induction q as [q IH | q IH | ]; simpl; now rewrite ?IH. }
  rewrite size.
  destruct p as [p | p | ]; simpl; try reflexivity;
    now rewrite Pos.add_1_r.
Qed.

(** A mantissa between [2^(k-1)] and [2^k] has [k] digits. *)
Lemma digits2_pos_bounds (p : positive) (k : Z) :
  2 ^ (k - 1) <= Zpos p < 2 ^ k -> 1 <= k -> Zpos (digits2_pos p) = k.
Proof.
  intros bounds k_pos.
  rewrite digits2_pos_log2.
  assert (Z.log2 (Zpos p) = k - 1); [ | lia ].
  apply Z.log2_unique; [ lia | ].
  replace (Z.succ (k - 1)) with k by lia.
  exact bounds.
Qed.

Lemma iter_pos_nat {A : Type} (f : A -> A) (p : positive) (x : A) :
  iter_pos f p x = Nat.iter (Pos.to_nat p) f x.
Proof.
  revert x.
  induction p as [p IH | p IH | ]; intro x.
  - change (iter_pos f p~1 x) with (iter_pos f p (iter_pos f p (f x))).
    rewrite !IH, Pos2Nat.inj_xI, <- Nat.iter_add, <- Nat.iter_succ_r.
    f_equal. lia.
  - change (iter_pos f p~0 x) with (iter_pos f p (iter_pos f p x)).
    rewrite !IH, Pos2Nat.inj_xO, <- Nat.iter_add.
    f_equal. lia.
  - reflexivity.
Qed.

(** Shifting out [k] zero bits is exact. *)
Lemma shr_zero_bits (k : nat) (m : positive) :
  Nat.iter k shr_1 (Build_shr_record (Zpos (Nat.iter k xO m)) false false)
  = Build_shr_record (Zpos m) false false.
Proof.
  induction k as [ | k IH ].
  - reflexivity.
  - rewrite Nat.iter_succ_r. simpl Nat.iter at 2.
    exact IH.
Qed.

Lemma digits2_pos_53 (m : positive) :
  Zpos (digits2_pos m) = 53 <-> 2 ^ 52 <= Zpos m < 2 ^ 53.
Proof.
  split.
  - intro digits. rewrite digits2_pos_log2 in digits.
    assert (log : Z.log2 (Zpos m) = 52) by lia.
    pose proof (Z.log2_spec (Zpos m) ltac:(lia)) as spec.
    rewrite log in spec. exact spec.
  - intro bounds. apply digits2_pos_bounds; [ exact bounds | lia ].
Qed.

Lemma fexp_53 (m : positive) (e : Z) :
  Zpos (digits2_pos m) = 53 -> -1074 <= e ->
  fexp prec emax (Zdigits2 (Zpos m) + e) - e = 0.
Proof.
  intros digits range. unfold fexp, SpecFloat.emin, prec, emax, Zdigits2.
  rewrite digits. lia.
Qed.

Lemma sub_one_half : sub one half = half.
Proof. reflexivity. Qed.

(** Halving a normal number is exact. *)
Lemma mul_half (s : bool) (m : positive) (e : Z) :
  Zpos (digits2_pos m) = 53 -> -1073 <= e <= 971 ->
  mul (S754_finite s m e) half = S754_finite s m (e - 1).
Proof.
  intros digits range.
  assert (bounds : 2 ^ 52 <= Zpos m < 2 ^ 53) by now apply digits2_pos_53.
  unfold mul, half, SFmul.
  replace (xorb s false) with s by now destruct s.
  unfold binary_round_aux, shr_fexp at 1.
  assert (shifted : (m * 4503599627370496)%positive = Nat.iter 52 xO m).
  { rewrite Pos.mul_comm. reflexivity. }
  assert (digits' : Zdigits2 (Zpos (m * 4503599627370496)) = 105).
  { apply digits2_pos_bounds; [ | lia ].
    rewrite Pos2Z.inj_mul.
    change (Zpos 4503599627370496) with (2 ^ 52).
    change (2 ^ (105 - 1)) with (2 ^ 52 * 2 ^ 52).
    change (2 ^ 105) with (2 ^ 53 * 2 ^ 52).
    lia. }
  rewrite digits'.
  replace (fexp prec emax (105 + (e + -53)) - (e + -53)) with 52
    by (unfold fexp, SpecFloat.emin, prec, emax; lia).
  cbn [shr shr_record_of_loc].
  rewrite iter_pos_nat, shifted.
  change (Pos.to_nat 52) with 52%nat.
  rewrite shr_zero_bits.
  cbn [shr_m loc_of_shr_record round_nearest_even].
  replace (e + -53 + 52) with (e - 1) by lia.
  unfold shr_fexp.
  rewrite (fexp_53 m (e - 1) digits) by lia.
  cbn [shr shr_record_of_loc shr_m].
  replace (e - 1 <=? emax - prec) with true; [ reflexivity | ].
  symmetry. apply Z.leb_le. unfold emax, prec. lia.
Qed.

Lemma loc_of_shr_record_of_loc (m : Z) (l : location) :
  loc_of_shr_record (shr_record_of_loc m l) = l
  /\ shr_m (shr_record_of_loc m l) = m.
Proof. destruct l as [ | [ | | ] ]; split; reflexivity. Qed.

Lemma round_nearest_even_cases (q : Z) (l : location) :
  round_nearest_even q l = q \/ round_nearest_even q l = q + 1.
Proof.
  destruct l as [ | [ | | ] ]; simpl; auto.
  destruct (Z.even q); auto.
Qed.

(** Rounding a quotient of 53 bits: the mantissa is the quotient or the
    next integer, which may need one more bit and then loses it. *)
Lemma binary_round_aux_normal (s : bool) (q e : Z) (l : location) :
  2 ^ 52 <= q < 2 ^ 53 -> -1074 <= e <= 970 ->
  exists (m : positive) (e' : Z),
    binary_round_aux prec emax s q e l = S754_finite s m e'
    /\ Zpos (digits2_pos m) = 53
    /\ e <= e' <= e + 1
    /\ Zpos m * 2 ^ (e' - e) = round_nearest_even q l.
Proof.
  intros bounds range.
  destruct q as [ | qp | qp ]; try lia.
  assert (digits : Zpos (digits2_pos qp) = 53) by now apply digits2_pos_53.
  unfold binary_round_aux, shr_fexp at 1.
  rewrite (fexp_53 qp e digits) by lia.
  cbn [shr].
  destruct (loc_of_shr_record_of_loc (Zpos qp) l) as [-> ->].
  destruct (Z.eq_dec (round_nearest_even (Zpos qp) l) (2 ^ 53)) as [carry | no_carry].
  - rewrite carry.
    replace (shr_fexp prec emax (2 ^ 53) e loc_Exact)
      with (Build_shr_record (2 ^ 52) false false, e + 1).
    + cbn [shr_m]. change (2 ^ 52) with (Zpos 4503599627370496).
      replace (e + 1 <=? emax - prec) with true
        by (symmetry; apply Z.leb_le; unfold emax, prec; lia).
      exists 4503599627370496%positive, (e + 1).
      split; [ reflexivity | ].
      split; [ reflexivity | ].
      split; [ lia | ].
      replace (e + 1 - e) with 1 by lia.
      reflexivity.
    + unfold shr_fexp.
      change (Zdigits2 (2 ^ 53)) with 54.
      replace (fexp prec emax (54 + e) - e) with 1
        by (unfold fexp, SpecFloat.emin, prec, emax; lia).
      reflexivity.
  - assert (rounded : 2 ^ 52 <= round_nearest_even (Zpos qp) l < 2 ^ 53).
    { change (2 ^ 53) with 9007199254740992 in *.
      destruct (round_nearest_even_cases (Zpos qp) l) as [same | next];
        [ rewrite same in * | rewrite next in * ]; lia. }
    destruct (round_nearest_even (Zpos qp) l) as [ | m | m ] eqn:round; try lia.
    assert (digits' : Zpos (digits2_pos m) = 53) by now apply digits2_pos_53.
    unfold shr_fexp.
    rewrite (fexp_53 m e digits') by lia.
    cbn [shr shr_record_of_loc shr_m].
    replace (e <=? emax - prec) with true
      by (symmetry; apply Z.leb_le; unfold emax, prec; lia).
    exists m, e.
    split; [ reflexivity | ].
    split; [ exact digits' | ].
    split; [ lia | ].
    replace (e - e) with 0 by lia.
    change (2 ^ 0) with 1. lia.
Qed.

(** Rounding the quotient [q] of a division by 100 with remainder [r]:
    the result is within half a unit of the exact quotient, and even when
    it is exactly half a unit away. *)
Lemma round_nearest_even_remainder (q r : Z) :
  0 <= r < 100 ->
  -50 <= 100 * round_nearest_even q (location_of_remainder 100 r) - (100 * q + r) <= 50
  /\ (Z.abs (100 * round_nearest_even q (location_of_remainder 100 r) - (100 * q + r)) = 50 ->
      Z.even (round_nearest_even q (location_of_remainder 100 r)) = true).
Proof.
  intro remainder.
  unfold location_of_remainder.
  destruct (Z.eqb_spec r 0) as [-> | nonzero]; [ cbn [round_nearest_even]; lia | ].
  destruct (Z.compare_spec (2 * r) 100) as [ tie | below | above ];
    cbn [round_nearest_even]; try lia.
  destruct (Z.even q) eqn:parity; [ split; [ lia | intros _; exact parity ] | ].
  split; [ lia | intros _ ].
  rewrite Z.add_1_r, Z.even_succ, <- Z.negb_even, parity. reflexivity.
Qed.

(** [nearest_hundredths m e] is the integer nearest to [100 * m * 2^e],
    the larger one of two. *)
Lemma nearest_hundredths_spec (m : positive) (e : Z) :
  e < 0 ->
  (2 * nearest_hundredths m e - 1) * 2 ^ (- e) <= 200 * Zpos m
    < (2 * nearest_hundredths m e + 1) * 2 ^ (- e).
Proof.
  intro negative.
  unfold nearest_hundredths.
  replace (0 <=? e) with false by (symmetry; apply Z.leb_gt; lia).
  replace (- e + 1) with (Z.succ (- e)) by lia.
  rewrite Z.pow_succ_r by lia.
  assert (power : 0 < 2 ^ (- e)) by (apply Z.pow_pos_nonneg; lia).
  pose proof (Z.mul_div_le (200 * Zpos m + 2 ^ (- e)) (2 * 2 ^ (- e)) ltac:(lia)) as lower.
  pose proof (Z.mul_succ_div_gt (200 * Zpos m + 2 ^ (- e)) (2 * 2 ^ (- e)) ltac:(lia)) as upper.
  nia.
Qed.

Lemma scaled_div_negative (n d : positive) (e : Z) :
  e < 0 ->
  scaled_div n d e
  = (Zpos n * 2 ^ (- e) / Zpos d, (Zpos n * 2 ^ (- e)) mod Zpos d, Zpos d).
Proof.
  intro negative. unfold scaled_div.
  now replace (0 <=? e) with false by (symmetry; apply Z.leb_gt; lia).
Qed.

(** The exponent chosen for an amount of [n] hundredths and the quotient
    of 53 bits that goes with it. *)
Lemma ratio_exponent_hundredths (n : positive) :
  Zpos n < 2 ^ 50 ->
  exists e q r : Z,
    ratio_exponent n 100 = e
    /\ scaled_div n 100 e = (q, r, 100)
    /\ -59 <= e <= -9
    /\ 2 ^ 52 <= q < 2 ^ 53
    /\ Zpos n * 2 ^ (- e) = 100 * q + r
    /\ 0 <= r < 100.
Proof.
  intro small.
  unfold ratio_exponent.
  change (Z.log2 (Zpos 100)) with 6. unfold prec.
  pose proof (Z.log2_spec (Zpos n) ltac:(lia)) as log.
  pose proof (Z.log2_nonneg (Zpos n)) as log_nonneg.
  assert (log_small : Z.log2 (Zpos n) < 50).
  { apply Z.log2_lt_pow2; lia. }
  set (a := Z.log2 (Zpos n)) in *.
  set (e1 := a - 6 - 53).
  assert (e1_range : -59 <= e1 <= -10) by (unfold e1; lia).
  rewrite (scaled_div_negative n 100 e1) by lia.
  assert (scaled : 2 ^ 59 <= Zpos n * 2 ^ (- e1) < 2 ^ 60).
  { replace (2 ^ 59) with (2 ^ a * 2 ^ (- e1))
      by (rewrite <- Z.pow_add_r by lia; f_equal; unfold e1; lia).
    replace (2 ^ 60) with (2 ^ Z.succ a * 2 ^ (- e1))
      by (rewrite <- Z.pow_add_r by lia; f_equal; unfold e1; lia).
    assert (0 < 2 ^ (- e1)) by (apply Z.pow_pos_nonneg; lia).
    nia. }
  assert (halves : 2 ^ (- e1) = 2 * 2 ^ (- (e1 + 1))).
  { rewrite <- Z.pow_succ_r by lia. f_equal. lia. }
  change (2 ^ 59) with 576460752303423488 in scaled.
  change (2 ^ 60) with 1152921504606846976 in scaled.
  change (2 ^ 53) with 9007199254740992.
  change (2 ^ 52) with 4503599627370496.
  destruct (Z.ltb_spec (Zpos n * 2 ^ (- e1) / 100) 9007199254740992) as [fits | wide].
  - exists e1, (Zpos n * 2 ^ (- e1) / 100), ((Zpos n * 2 ^ (- e1)) mod 100).
    pose proof (Z.div_mod (Zpos n * 2 ^ (- e1)) 100 ltac:(lia)) as division.
    pose proof (Z.mod_pos_bound (Zpos n * 2 ^ (- e1)) 100 ltac:(lia)) as remainder.
    split; [ reflexivity | ].
    split; [ apply scaled_div_negative; lia | ].
    repeat split; lia.
  - exists (e1 + 1), (Zpos n * 2 ^ (- (e1 + 1)) / 100),
      ((Zpos n * 2 ^ (- (e1 + 1))) mod 100).
    pose proof (Z.div_mod (Zpos n * 2 ^ (- (e1 + 1))) 100 ltac:(lia)) as division.
    pose proof (Z.mod_pos_bound (Zpos n * 2 ^ (- (e1 + 1))) 100 ltac:(lia)) as remainder.
    pose proof (Z.div_mod (Zpos n * 2 ^ (- e1)) 100 ltac:(lia)) as division1.
    pose proof (Z.mod_pos_bound (Zpos n * 2 ^ (- e1)) 100 ltac:(lia)) as remainder1.
    split; [ reflexivity | ].
    split; [ apply scaled_div_negative; lia | ].
    repeat split; lia.
Qed.

(** Reading an amount of [n] hundredths gives the number nearest to
    [n / 100], the even one of two: a normal number [m * 2^e] with
    [|100 * m * 2^e - n|] at most half a unit of the last bit. *)
Lemma of_ratio_hundredths (s : bool) (n : positive) :
  Zpos n < 2 ^ 50 ->
  exists (m : positive) (e : Z),
    of_ratio s n 100 = S754_finite s m e
    /\ Zpos (digits2_pos m) = 53
    /\ -59 <= e <= -8
    /\ -50 <= 100 * Zpos m - Zpos n * 2 ^ (- e) <= 50
    /\ (Z.abs (100 * Zpos m - Zpos n * 2 ^ (- e)) = 50 -> Z.even (Zpos m) = true).
Proof.
  intro small.
  destruct (ratio_exponent_hundredths n small)
    as (e & q & r & exponent & quotient & e_range & q_range & division & r_range).
  unfold of_ratio. rewrite exponent, quotient.
  destruct (binary_round_aux_normal s q e (location_of_remainder 100 r))
    as (m & e' & result & digits & e'_range & value); [ exact q_range | lia | ].
  destruct (round_nearest_even_remainder q r r_range) as [ close even ].
  rewrite <- value in close, even.
  exists m, e'. split; [ exact result | ].
  split; [ exact digits | ].
  assert (cases : e' = e \/ e' = e + 1) by lia.
  destruct cases as [-> | ->].
  - replace (e - e) with 0 in * by lia.
    change (2 ^ 0) with 1 in *. rewrite Z.mul_1_r in *.
    rewrite division.
    split; [ lia | ]. split; [ exact close | exact even ].
  - replace (e + 1 - e) with 1 in * by lia.
    change (2 ^ 1) with 2 in *.
    assert (halves : 2 ^ (- e) = 2 * 2 ^ (- (e + 1))).
    { rewrite <- Z.pow_succ_r by lia. f_equal. lia. }
    split; [ lia | ].
    split; [ lia | ].
    intro tie. exfalso. lia.
Qed.

(** What the service needs to know of an amount of [n] hundredths once
    it is a number: [toFixed(2)] prints it back, and half of it prints
    as an integer nearest to [n / 2]. *)
Lemma hundredths_as_number (s : bool) (n : positive) :
  Zpos n < 2 ^ 50 ->
  exists (m : positive) (e : Z),
    of_ratio s n 100 = S754_finite s m e
    /\ Zpos (digits2_pos m) = 53
    /\ -59 <= e <= -8
    /\ nearest_hundredths m e = Zpos n
    /\ 2 * nearest_hundredths m (e - 1) - 1 <= Zpos n
         <= 2 * nearest_hundredths m (e - 1) + 1.
Proof.
  intro small.
  destruct (of_ratio_hundredths s n small)
    as (m & e & result & digits & range & close & _).
  exists m, e.
  split; [ exact result | ].
  split; [ exact digits | ].
  split; [ exact range | ].
  assert (power : 2 ^ 8 <= 2 ^ (- e)) by (apply Z.pow_le_mono_r; lia).
  change (2 ^ 8) with 256 in power.
  split.
  - pose proof (nearest_hundredths_spec m e ltac:(lia)) as nearest.
    set (k := nearest_hundredths m e) in *.
    set (p := 2 ^ (- e)) in *.
    assert (upper : (2 * k - 1) * p < (2 * Zpos n + 1) * p) by lia.
    assert (lower : (2 * Zpos n - 1) * p < (2 * k + 1) * p) by lia.
    apply Z.mul_lt_mono_pos_r in upper; [ | lia ].
    apply Z.mul_lt_mono_pos_r in lower; [ | lia ].
    lia.
  - pose proof (nearest_hundredths_spec m (e - 1) ltac:(lia)) as nearest.
    replace (- (e - 1)) with (Z.succ (- e)) in nearest by lia.
    rewrite Z.pow_succ_r in nearest by lia.
    set (k := nearest_hundredths m (e - 1)) in *.
    set (p := 2 ^ (- e)) in *.
    assert (upper : (2 * k - 1) * p < (Zpos n + 1) * p) by lia.
    assert (lower : (Zpos n - 1) * p < (2 * k + 1) * p) by lia.
    apply Z.mul_lt_mono_pos_r in upper; [ | lia ].
    apply Z.mul_lt_mono_pos_r in lower; [ | lia ].
    lia.
Qed.

(** A normal number below [2^53] is below [1e21]. *)
Lemma below_1e21 (m : positive) (e : Z) :
  Zpos (digits2_pos m) = 53 -> e < 0 -> at_least_1e21 m e = false.
Proof.
  intros digits negative.
  apply digits2_pos_53 in digits.
  unfold at_least_1e21.
  replace (0 <=? e) with false by (symmetry; apply Z.leb_gt; lia).
  apply Z.leb_gt.
  assert (0 < 2 ^ (- e)) by (apply Z.pow_pos_nonneg; lia).
  change (2 ^ 53) with 9007199254740992 in digits.
  change (10 ^ 21) with 1000000000000000000000.
  nia.
Qed.

End JsNumberFacts.

Import JsNumberFacts.

(** ** The subscription service *)

Section ServiceFacts.

Context `{Ext : Externals}.

Lemma rows_found {A B : Type} (f : A -> bool) (g : A -> B) (l : list A) :
  (0 <? Z.of_nat (List.length (map g (filter f l)))) = existsb f l.
Proof.
  induction l as [ | a l IH ]; [ reflexivity | ].
  simpl. destruct (f a); simpl; [ | exact IH ].
  apply Z.ltb_lt. lia.
Qed.

Lemma filter_cons_existsb {A : Type} (f : A -> bool) (l : list A) (a : A) (rest : list A) :
  filter f l = a :: rest -> existsb f l = true.
Proof.
  intro found.
  apply existsb_exists. exists a.
  apply filter_In. rewrite found. now left.
Qed.

(** The pricing step throws or returns; it awaits nothing. *)
Lemma price_to_pay_cases (course : Course) (promoCode : option string) :
  (exists x, price_to_pay course promoCode = Return x)
  \/ (exists e, price_to_pay course promoCode = Throw e).
Proof.
  unfold price_to_pay.
  destruct (strict_eq _ zero); [ left; eauto | ].
  destruct (falsy promoCode); [ right; eauto | ].
  destruct (negb _); [ right; eauto | left; eauto ].
Qed.

(** [subscribe] for a pair that is subscribed already. *)
Lemma subscribe_subscribed (d : Database) (u c : uuid) (promoCode : option string) :
  is_subscribed d u c = true ->
  run (subscribe u c promoCode) d
  = (inl (JsError "User already subscribed to this course"), d).
Proof.
  intro subscribed.
  unfold subscribe, isUserSubscribed, await.
  cbn [bind run pg].
  rewrite rows_found. fold (is_subscribed d u c). rewrite subscribed.
  reflexivity.
Qed.

(** [subscribe] for a course that does not exist. *)
Lemma subscribe_no_course (d : Database) (u c : uuid) (promoCode : option string) :
  is_subscribed d u c = false ->
  course_rows d c = [] ->
  run (subscribe u c promoCode) d = (inl (JsError "Course not found"), d).
Proof.
  intros free missing.
  unfold subscribe, isUserSubscribed, await.
  cbn [bind run pg].
  rewrite rows_found. fold (is_subscribed d u c). rewrite free.
  cbn [bind run pg]. fold (course_rows d c). rewrite missing.
  reflexivity.
Qed.

(** [subscribe] when the pricing step throws. *)
Lemma subscribe_no_price (d : Database) (u c : uuid) (promoCode : option string)
    (row : CourseRow) (rest : list CourseRow) (e : exn) :
  is_subscribed d u c = false ->
  course_rows d c = row :: rest ->
  price_to_pay (course_object row) promoCode = Throw e ->
  run (subscribe u c promoCode) d = (inl e, d).
Proof.
  intros free found thrown.
  unfold subscribe, isUserSubscribed, await.
  cbn [bind run pg].
  rewrite rows_found. fold (is_subscribed d u c). rewrite free.
  cbn [bind run pg]. fold (course_rows d c). rewrite found.
  cbn [map]. rewrite thrown. reflexivity.
Qed.

(** [subscribe] when the pricing step returns [x]: the insert decides. *)
Lemma subscribe_priced (d : Database) (u c : uuid) (promoCode : option string)
    (row : CourseRow) (rest : list CourseRow) (x : number) :
  is_subscribed d u c = false ->
  course_rows d c = row :: rest ->
  price_to_pay (course_object row) promoCode = Return x ->
  run (subscribe u c promoCode) d
  = match insert_subscription u c x d with
    | inl e => (inl e, d)
    | inr s => (inr (subscription_of s), with_subscription d s)
    end.
Proof.
  intros free found priced.
  unfold subscribe, isUserSubscribed, await.
  cbn [bind run pg].
  rewrite rows_found. fold (is_subscribed d u c). rewrite free.
  cbn [bind run pg]. fold (course_rows d c). rewrite found.
  cbn [map]. rewrite priced.
  cbn [bind run pg].
  destruct (insert_subscription u c x d) as [e | s]; reflexivity.
Qed.

(** The insert of a storable price for a pair that is free, by a user
    who exists, for a course that exists. *)
Lemma insert_subscription_ok (d : Database) (u c : uuid) (x : number)
    (v : pg_numeric) (row : CourseRow) (rest : list CourseRow) :
  numeric_in x = inr v ->
  is_subscribed d u c = false ->
  has_user d u = true ->
  course_rows d c = row :: rest ->
  insert_subscription u c x d = inr (new_subscription d u c v).
Proof.
  intros storable free user found.
  unfold insert_subscription. rewrite storable.
  fold (is_subscribed d u c). rewrite free.
  fold (has_user d u). rewrite user.
  apply filter_cons_existsb in found. rewrite found.
  reflexivity.
Qed.

Lemma insert_subscription_inv (d : Database) (u c : uuid) (x : number)
    (s : SubscriptionRow) :
  insert_subscription u c x d = inr s ->
  exists v, numeric_in x = inr v /\ s = new_subscription d u c v
            /\ is_subscribed d u c = false /\ has_user d u = true.
Proof.
  unfold insert_subscription, is_subscribed, has_user.
  destruct (numeric_in x) as [e | v]; [ discriminate | ].
  destruct (existsb (subscribed_row u c) _); [ discriminate | ].
  destruct (existsb _ (users d)); [ | discriminate ].
  destruct (existsb _ (courses d)); [ | discriminate ].
  cbn [negb]. intro inserted. injection inserted as <-.
  exists v. repeat split.
Qed.

(** The number that the service reads from a price column. *)
Lemma number_of_course_price (row : CourseRow) :
  number_of_price (Course_price (course_object row))
  = parseFloat (numeric_out (course_price row)).
Proof.
  unfold course_object, numeric_to_js. cbn [Course_price].
  destruct numeric_as_number; reflexivity.
Qed.

(** A finite amount comes back from the database as the number it reads
    as. *)
Lemma returned_price (paid : Z) :
  0 <= paid < 2 ^ 50 ->
  parseFloat_any (numeric_to_js (Numeric paid))
  = parseFloat (TxtFixed false (Z.to_N paid)).
Proof.
  intro range. unfold numeric_to_js, numeric_out.
  replace (paid <? 0) with false by (symmetry; apply Z.ltb_ge; lia).
  replace (Z.abs_N paid) with (Z.to_N paid) by (destruct paid; try reflexivity; lia).
  destruct numeric_as_number; [ | reflexivity ].
  destruct paid as [ | p | p ]; [ reflexivity | | lia ].
  cbn [parseFloat_any Z.to_N parseFloat].
  destruct (of_ratio_hundredths false p ltac:(lia)) as (m & e & -> & _).
  reflexivity.
Qed.

(** An amount of at least one hundredth is stored as it is. *)
Lemma stored_price (paid : Z) :
  0 < paid < 10 ^ 10 ->
  numeric_in (parseFloat (TxtFixed false (Z.to_N paid))) = inr (Numeric paid).
Proof.
  intro range.
  destruct paid as [ | p | p ]; try lia.
  cbn [Z.to_N parseFloat].
  assert (small : Zpos p < 2 ^ 50).
  { change (10 ^ 10) with 10000000000 in range.
    change (2 ^ 50) with 1125899906842624. lia. }
  destruct (hundredths_as_number false p small)
    as (m & e & -> & _ & _ & nearest & _).
  unfold numeric_in. rewrite nearest.
  now replace (10 ^ 10 <=? Zpos p) with false by (symmetry; apply Z.leb_gt; lia).
Qed.

(** The pricing step for a paid course and the promo code: the price as
    a number, and the amount [paid] that [toFixed(2)] prints for half of
    it. *)
Lemma paid_price (row : CourseRow) (cents : Z) :
  course_price row = Numeric cents ->
  0 < cents < 10 ^ 10 ->
  exists (m : positive) (e paid : Z),
    number_of_price (Course_price (course_object row)) = S754_finite false m e
    /\ e < 0
    /\ paid = nearest_hundredths m (e - 1)
    /\ 2 * paid - 1 <= cents <= 2 * paid + 1
    /\ 0 < paid
    /\ price_to_pay (course_object row) (Some VALID_PROMO_CODE)
       = Return (parseFloat (TxtFixed false (Z.to_N paid))).
Proof.
  intros priced range.
  destruct cents as [ | p | p ]; try lia.
  assert (small : Zpos p < 2 ^ 50).
  { change (10 ^ 10) with 10000000000 in range.
    change (2 ^ 50) with 1125899906842624. lia. }
  destruct (hundredths_as_number false p small)
    as (m & e & read & digits & exponent & _ & halved).
  assert (number : number_of_price (Course_price (course_object row))
                   = S754_finite false m e).
  { rewrite number_of_course_price, priced. exact read. }
  assert (positive : 0 < nearest_hundredths m (e - 1)).
  { destruct (Pos.eq_dec p 1) as [-> | more]; [ | lia ].
    vm_compute in read. injection read as <- <-. reflexivity. }
  exists m, e, (nearest_hundredths m (e - 1)).
  split; [ exact number | ].
  split; [ lia | ].
  split; [ reflexivity | ].
  split; [ exact halved | ].
  split; [ exact positive | ].
  unfold price_to_pay. rewrite number.
  cbn [strict_eq SFeqb SFcompare falsy VALID_PROMO_CODE String.eqb Ascii.eqb
         Bool.eqb validatePromoCode valid discount negb promo_or_empty].
  unfold calculateDiscountedPrice, PROMO_DISCOUNT.
  rewrite sub_one_half, mul_half by (exact digits || lia).
  unfold toFixed2. rewrite below_1e21 by (exact digits || lia).
  reflexivity.
Qed.

(** Running a sequence: the first part, then the rest on its result. *)
Lemma run_bind {A B : Type} (p : io A) (f : A -> io B) (d : Database) :
  run (bind p f) d
  = match run p d with
    | (inl e, d') => (inl e, d')
    | (inr a, d') => run (f a) d'
    end.
Proof.
  revert d.
  induction p as [ a | e | R q k IH ]; intro d; try reflexivity.
  cbn [bind run].
  destruct (pg q d) as [outcome d'].
  apply IH.
Qed.

(** Running [try { p } catch (error) { h(error) }]. *)
Lemma run_try_catch {A : Type} (p : io A) (h : exn -> io A) (d : Database) :
  run (try_catch p h) d
  = match run p d with
    | (inl e, d') => run (h e) d'
    | (inr a, d') => (inr a, d')
    end.
Proof.
  revert d.
  induction p as [ a | e | R q k IH ]; intro d; try reflexivity.
  cbn [try_catch run].
  destruct (pg q d) as [outcome d'].
  apply IH.
Qed.

(** Answering with a function of the outcome: [try { res.json(ok(await p)) }
    catch (error) { res.json(err(error)) }] takes the steps of [p]. *)
Lemma step_answering {A B : Type} (p : io A) (ok : A -> B) (err : exn -> B)
    (d : Database) :
  step (try_catch (a <- p ;; Return (ok a)) (fun e => Return (err e))) d
  = (try_catch (a <- fst (step p d) ;; Return (ok a)) (fun e => Return (err e)),
     snd (step p d)).
Proof.
  destruct p as [ a | e | R q k ]; try reflexivity.
  cbn [bind try_catch step]. now destruct (pg q d).
Qed.

Lemma run_answering {A B : Type} (p : io A) (ok : A -> B) (err : exn -> B)
    (d : Database) :
  run (try_catch (a <- p ;; Return (ok a)) (fun e => Return (err e))) d
  = (inr match fst (run p d) with inr a => ok a | inl e => err e end,
     snd (run p d)).
Proof.
  rewrite run_try_catch, run_bind.
  now destruct (run p d) as [ [ e | a ] d' ].
Qed.

Lemma race_answering {A B : Type} (schedule : list bool) (p1 p2 : io A)
    (ok : A -> B) (err : exn -> B) (d : Database) :
  race schedule
    (try_catch (a <- p1 ;; Return (ok a)) (fun e => Return (err e)))
    (try_catch (a <- p2 ;; Return (ok a)) (fun e => Return (err e))) d
  = let '(r1, r2, d') := race schedule p1 p2 d in
    (inr match r1 with inr a => ok a | inl e => err e end,
     inr match r2 with inr a => ok a | inl e => err e end,
     d').
Proof.
  revert p1 p2 d.
  induction schedule as [ | first schedule IH ]; intros p1 p2 d.
  - cbn [race]. rewrite (run_answering p1).
    destruct (run p1 d) as [ r1 d1 ]. cbn [fst snd].
    rewrite (run_answering p2).
    now destruct (run p2 d1) as [ r2 d2 ].
  - destruct first; cbn [race].
    + rewrite (step_answering p1).
      destruct (step p1 d) as [ p1' d' ]. apply IH.
    + rewrite (step_answering p2).
      destruct (step p2 d) as [ p2' d' ]. apply IH.
Qed.

(** The handler of [POST /subscribe] on a body that passes the schema
    answers to the outcome of [subscribe]. *)
Lemma subscribe_handler_answers (u : string) (req : Request) (c : string)
    (promoCode : option string) :
  subscribeSchema_parse (req_body req) = Return (c, promoCode) ->
  subscribe_handler u req
  = try_catch
      (subscription <- subscribe u c promoCode ;;
       Return (subscribe_response (inr subscription)))
      (fun error => Return (subscribe_response (inl error))).
Proof.
  intro parsed. unfold subscribe_handler. now rewrite parsed.
Qed.

Lemma subscribe_handler_response (u : string) (req : Request) (c : string)
    (promoCode : option string) (d : Database) :
  subscribeSchema_parse (req_body req) = Return (c, promoCode) ->
  run (subscribe_handler u req) d
  = (inr (subscribe_response (fst (run (subscribe u c promoCode) d))),
     snd (run (subscribe u c promoCode) d)).
Proof.
  intro parsed.
  rewrite (subscribe_handler_answers u req c promoCode parsed), run_answering.
  now destruct (run (subscribe u c promoCode) d) as [ [ e | a ] d' ].
Qed.

(** A request to [POST /subscribe] that passes [authMiddleware] and the
    schema. *)
Lemma post_subscribe_answers (req : Request) (u c : string)
    (promoCode : option string) :
  authMiddleware req = Return (inr u) ->
  subscribeSchema_parse (req_body req) = Return (c, promoCode) ->
  post_subscribe req
  = try_catch
      (subscription <- subscribe u c promoCode ;;
       Return (subscribe_response (inr subscription)))
      (fun error => Return (subscribe_response (inl error))).
Proof.
  intros authorized parsed.
  unfold post_subscribe, protected. rewrite authorized. cbn [bind].
  now apply subscribe_handler_answers.
Qed.

End ServiceFacts.

(** ** The claims about pricing *)

Section Pricing.

Context `{Ext : Externals}.

(** Subscribing to a free course. *)
Lemma subscribe_free (d : Database) (u c : uuid) (row : CourseRow)
    (rest : list CourseRow) (promoCode : option string) :
  is_subscribed d u c = false ->
  course_rows d c = row :: rest ->
  course_price row = Numeric 0 ->
  run (subscribe u c promoCode) d
  = match insert_subscription u c zero d with
    | inl e => (inl e, d)
    | inr s => (inr (subscription_of s), with_subscription d s)
    end.
Proof.
  intros free found gratis.
  apply (subscribe_priced d u c promoCode row rest zero free found).
  unfold price_to_pay.
  rewrite number_of_course_price, gratis.
  reflexivity.
Qed.

(** C2. For every course whose price is 0, [subscribe] succeeds and the
    price paid is 0, in the returned subscription and in the row that is
    persisted, whether a promo code is supplied or not and whatever it
    is: the code is never looked at. *)
Theorem free_course_costs_nothing (d : Database) (u c : uuid) (row : CourseRow)
    (rest : list CourseRow) (promoCode : option string) :
  is_subscribed d u c = false ->
  has_user d u = true ->
  course_rows d c = row :: rest ->
  course_price row = Numeric 0 ->
  run (subscribe u c promoCode) d
  = (inr {| subscriptionId := gen_random_uuid d;
            userId := u;
            courseId := c;
            pricePaid := zero;
            subscribedAt := current_timestamp d |},
     with_subscription d (new_subscription d u c (Numeric 0))).
Proof.
  intros free user found gratis.
  rewrite (subscribe_free d u c row rest promoCode free found gratis).
  rewrite (insert_subscription_ok d u c zero (Numeric 0) row rest
             eq_refl free user found).
  unfold subscription_of, new_subscription.
  cbn [subscription_id subscription_user_id subscription_course_id
         subscription_price_paid subscription_subscribed_at].
  rewrite returned_price by (change (2 ^ 50) with 1125899906842624; lia).
  reflexivity.
Qed.

(** Subscribing to a paid course with the promo code: the insert of the
    halved price decides. *)
Lemma subscribe_paid (d : Database) (u c : uuid) (row : CourseRow)
    (rest : list CourseRow) (cents : Z) :
  is_subscribed d u c = false ->
  course_rows d c = row :: rest ->
  course_price row = Numeric cents ->
  0 < cents < 10 ^ 10 ->
  exists (m : positive) (e paid : Z),
    number_of_price (Course_price (course_object row)) = S754_finite false m e
    /\ e < 0
    /\ paid = nearest_hundredths m (e - 1)
    /\ 2 * paid - 1 <= cents <= 2 * paid + 1
    /\ 0 < paid
    /\ run (subscribe u c (Some VALID_PROMO_CODE)) d
       = if has_user d u then
           (inr {| subscriptionId := gen_random_uuid d;
                   userId := u;
                   courseId := c;
                   pricePaid := parseFloat (TxtFixed false (Z.to_N paid));
                   subscribedAt := current_timestamp d |},
            with_subscription d (new_subscription d u c (Numeric paid)))
         else (inl (PgError "23503" "subscriptions_user_id_fkey"), d).
Proof.
  intros free found priced range.
  destruct (paid_price row cents priced range)
    as (m & e & paid & number & negative & nearest & halved & positive & pricing).
  exists m, e, paid.
  repeat (split; [ assumption | ]).
  rewrite (subscribe_priced d u c _ row rest _ free found pricing).
  assert (storable : 0 < paid < 10 ^ 10)
    by (change (10 ^ 10) with 10000000000 in *; lia).
  destruct (has_user d u) eqn:user.
  - rewrite (insert_subscription_ok d u c _ (Numeric paid) row rest
               (stored_price paid storable) free user found).
    unfold subscription_of, new_subscription.
    cbn [subscription_id subscription_user_id subscription_course_id
           subscription_price_paid subscription_subscribed_at].
    rewrite returned_price; [ reflexivity | ].
    change (10 ^ 10) with 10000000000 in *.
    change (2 ^ 50) with 1125899906842624. lia.
  - unfold insert_subscription.
    rewrite (stored_price paid storable).
    fold (is_subscribed d u c). rewrite free.
    fold (has_user d u). rewrite user.
    reflexivity.
Qed.

(** C1. For every course with a price above zero and the promo code
    "BFSALE25", [subscribe] succeeds, and the price paid, returned and
    persisted, is half the price rounded to two decimals: [paid]
    hundredths, where [paid] is the integer nearest to a hundred times the
    half of the number [m * 2^e] that the service reads the price as (the
    larger one of two), and an integer nearest to half the hundredths of
    the price. *)
Theorem promo_code_pays_half (d : Database) (u c : uuid) (row : CourseRow)
    (rest : list CourseRow) (cents : Z) :
  is_subscribed d u c = false ->
  has_user d u = true ->
  course_rows d c = row :: rest ->
  course_price row = Numeric cents ->
  0 < cents < 10 ^ 10 ->
  exists (m : positive) (e paid : Z),
    number_of_price (Course_price (course_object row)) = S754_finite false m e
    /\ (2 * paid - 1) * 2 ^ (1 - e) <= 200 * Zpos m < (2 * paid + 1) * 2 ^ (1 - e)
    /\ 2 * paid - 1 <= cents <= 2 * paid + 1
    /\ run (subscribe u c (Some "BFSALE25")) d
       = (inr {| subscriptionId := gen_random_uuid d;
                 userId := u;
                 courseId := c;
                 pricePaid := parseFloat (TxtFixed false (Z.to_N paid));
                 subscribedAt := current_timestamp d |},
          with_subscription d (new_subscription d u c (Numeric paid))).
Proof.
  intros free user found priced range.
  destruct (subscribe_paid d u c row rest cents free found priced range)
    as (m & e & paid & number & negative & nearest & halved & positive & result).
  exists m, e, paid.
  split; [ exact number | ].
  split.
  { pose proof (nearest_hundredths_spec m (e - 1) ltac:(lia)) as spec.
    rewrite <- nearest in spec.
    now replace (- (e - 1)) with (1 - e) in spec by lia. }
  split; [ exact halved | ].
  rewrite user in result. exact result.
Qed.

(** The pricing step for a paid course without the promo code. *)
Lemma unpaid_price (row : CourseRow) (cents : Z) (promoCode : option string) :
  course_price row = Numeric cents ->
  0 < cents < 10 ^ 10 ->
  promoCode <> Some VALID_PROMO_CODE ->
  price_to_pay (course_object row) promoCode
  = Throw (JsError (if falsy promoCode then "Promo code required for paid courses"
                    else "Invalid promo code")).
Proof.
  intros priced range other.
  destruct (paid_price row cents priced range) as (m & e & _ & number & _).
  unfold price_to_pay. rewrite number.
  cbn [strict_eq SFeqb SFcompare].
  destruct (falsy promoCode) eqn:absent; [ reflexivity | ].
  destruct promoCode as [ code | ]; [ | discriminate ].
  cbn [promo_or_empty]. unfold validatePromoCode.
  destruct (String.eqb_spec code VALID_PROMO_CODE) as [ -> | _ ]; [ | reflexivity ].
  now contradiction other.
Qed.

(** C3, amended. For every course with a price above zero: without a
    promo code, or with the empty string for one, [subscribe] fails with
    "Promo code required for paid courses"; with a promo code that is
    neither empty nor exactly "BFSALE25" it fails with "Invalid promo
    code". In both cases nothing is persisted and [POST /subscribe]
    answers 400 with that message. *)
Theorem paid_course_requires_promo_code (d : Database) (u c : uuid)
    (row : CourseRow) (rest : list CourseRow) (cents : Z)
    (promoCode : option string) :
  is_subscribed d u c = false ->
  course_rows d c = row :: rest ->
  course_price row = Numeric cents ->
  0 < cents < 10 ^ 10 ->
  promoCode <> Some "BFSALE25" ->
  let message :=
    match promoCode with
    | None | Some "" => "Promo code required for paid courses"
    | Some _ => "Invalid promo code"
    end in
  run (subscribe u c promoCode) d = (inl (JsError message), d)
  /\ forall req : Request,
       subscribeSchema_parse (req_body req) = Return (c, promoCode) ->
       run (subscribe_handler u req) d = (inr (error_response 400 message), d).
Proof.
  intros free found priced range other message.
  assert (failure : run (subscribe u c promoCode) d = (inl (JsError message), d)).
  { rewrite (subscribe_no_price d u c promoCode row rest _ free found
               (unpaid_price row cents promoCode priced range other)).
    unfold message.
    destruct promoCode as [ [ | a code ] | ]; reflexivity. }
  split; [ exact failure | ].
  intros req parsed.
  rewrite (subscribe_handler_response u req c promoCode d parsed), failure.
  unfold message.
  destruct promoCode as [ [ | a code ] | ]; reflexivity.
Qed.

(** Which way a decimal half-cent goes: for a price of [2 * k + 1]
    hundredths, [k + 1] hundredths are paid when the number the price is
    read as is not below the price, and [k] when it is below. *)
Lemma decimal_half_cent (row : CourseRow) (cents k : Z) :
  course_price row = Numeric cents ->
  0 < cents < 10 ^ 10 ->
  cents = 2 * k + 1 ->
  exists (m : positive) (e : Z),
    number_of_price (Course_price (course_object row)) = S754_finite false m e
    /\ price_to_pay (course_object row) (Some VALID_PROMO_CODE)
       = Return (parseFloat
                   (TxtFixed false
                      (Z.to_N (if cents * 2 ^ (- e) <=? 100 * Zpos m then k + 1 else k)))).
Proof.
  intros priced range odd.
  destruct (paid_price row cents priced range)
    as (m & e & paid & number & negative & nearest & halved & positive & pricing).
  exists m, e. split; [ exact number | ].
  rewrite pricing. do 4 f_equal.
  pose proof (nearest_hundredths_spec m (e - 1) ltac:(lia)) as spec.
  rewrite <- nearest in spec.
  replace (- (e - 1)) with (Z.succ (- e)) in spec by lia.
  rewrite Z.pow_succ_r in spec by lia.
  assert (power : 0 < 2 ^ (- e)) by (apply Z.pow_pos_nonneg; lia).
  assert (cases : paid = k \/ paid = k + 1) by lia.
  destruct (Z.leb_spec (cents * 2 ^ (- e)) (100 * Zpos m)) as [ above | below ];
    destruct cases as [-> | ->]; try reflexivity; nia.
Qed.

(** C8, amended. [calculateDiscountedPrice] formats the halved number
    with [toFixed(2)] and reads it back: for the number [m * 2^e] with
    sign [s] the result is [n] hundredths with that sign, where [n] is
    the integer nearest to a hundred times the half of [m * 2^e], that is
    [n - 1/2 <= 100 * m * 2^(e-1) < n + 1/2]. When a hundred times the
    half is exactly [k + 1/2], [n] is [k + 1]: the half-cent goes away
    from zero. That happens only for an odd multiple of 0.25: 25 divides
    [2 * k + 1], the hundredths of the number. Every price of a
    [DECIMAL(10,2)] column, read as a number, is a number [m * 2^e] of
    this kind. *)
Theorem binary_half_cent_rounds_away_from_zero (s : bool) (m : positive) (e : Z) :
  Zpos (digits2_pos m) = 53 ->
  -1073 <= e < 0 ->
  (exists n : Z,
     calculateDiscountedPrice (S754_finite s m e) PROMO_DISCOUNT
     = parseFloat (TxtFixed s (Z.to_N n))
     /\ 0 <= n
     /\ (2 * n - 1) * 2 ^ (1 - e) <= 200 * Zpos m < (2 * n + 1) * 2 ^ (1 - e)
     /\ forall k : Z,
          100 * Zpos m = (2 * k + 1) * 2 ^ (- e) ->
          n = k + 1 /\ (25 | 2 * k + 1))
  /\ forall (negative : bool) (cents : positive),
       Zpos cents < 10 ^ 10 ->
       exists (m' : positive) (e' : Z),
         parseFloat (TxtFixed negative (Npos cents)) = S754_finite negative m' e'
         /\ Zpos (digits2_pos m') = 53
         /\ -1073 <= e' < 0.
Proof.
  intros digits range.
  split.
  2: { intros negative cents small.
       destruct (hundredths_as_number negative cents)
         as (m' & e' & read & digits' & exponent & _).
       { change (10 ^ 10) with 10000000000 in small.
         change (2 ^ 50) with 1125899906842624. lia. }
       exists m', e'. split; [ exact read | ]. split; [ exact digits' | lia ]. }
  exists (nearest_hundredths m (e - 1)).
  pose proof (nearest_hundredths_spec m (e - 1) ltac:(lia)) as spec.
  replace (- (e - 1)) with (1 - e) in spec by lia.
  assert (power : 0 < 2 ^ (- e)) by (apply Z.pow_pos_nonneg; lia).
  assert (double : 2 ^ (1 - e) = 2 * 2 ^ (- e)).
  { replace (1 - e) with (Z.succ (- e)) by lia. apply Z.pow_succ_r. lia. }
  split.
  { unfold calculateDiscountedPrice, PROMO_DISCOUNT.
    rewrite sub_one_half, mul_half by (exact digits || lia).
    unfold toFixed2. now rewrite below_1e21 by (exact digits || lia). }
  split; [ rewrite double in spec; nia | ].
  split; [ exact spec | ].
  intros k tie.
  split.
  - rewrite double in spec. nia.
  - apply (Z.gauss 25 (2 ^ (- e))).
    + exists (4 * Zpos m). lia.
    + apply Z.coprime_pow_r; [ lia | reflexivity ].
Qed.

(** C9, amended. For every successful [subscribe] to a course with a
    price of zero or more, the price paid is 0 for a free course, and for
    a paid course the promo code was "BFSALE25" and the price paid is half
    the price rounded to two decimals. It is never negative and never
    above the price, and below the price for a price of 0.02 or more. *)
Theorem price_paid_is_zero_or_half (d d' : Database) (u c : uuid)
    (promoCode : option string) (row : CourseRow) (rest : list CourseRow)
    (cents : Z) (subscription : Subscription) :
  course_rows d c = row :: rest ->
  course_price row = Numeric cents ->
  0 <= cents < 10 ^ 10 ->
  run (subscribe u c promoCode) d = (inr subscription, d') ->
  exists paid : Z,
    d' = with_subscription d (new_subscription d u c (Numeric paid))
    /\ pricePaid subscription = parseFloat (TxtFixed false (Z.to_N paid))
    /\ (cents = 0 /\ paid = 0
        \/ 0 < cents /\ promoCode = Some "BFSALE25"
           /\ 2 * paid - 1 <= cents <= 2 * paid + 1
           /\ exists (m : positive) (e : Z),
                number_of_price (Course_price (course_object row))
                = S754_finite false m e
                /\ paid = nearest_hundredths m (e - 1))
    /\ 0 <= paid <= cents
    /\ (2 <= cents -> paid < cents).
Proof.
  intros found priced range success.
  destruct (is_subscribed d u c) eqn:free.
  { rewrite (subscribe_subscribed d u c promoCode free) in success. discriminate. }
  destruct (Z.eq_dec cents 0) as [-> | paid_course].
  - rewrite (subscribe_free d u c row rest promoCode free found priced) in success.
    destruct (insert_subscription u c zero d) as [ error | s ] eqn:inserted;
      [ discriminate | ].
    destruct (insert_subscription_inv d u c zero s inserted)
      as (v & stored & -> & _).
    injection stored as <-. injection success as <- <-.
    exists 0. split; [ reflexivity | ].
    split.
    { unfold subscription_of, new_subscription.
      cbn [pricePaid subscription_price_paid].
      apply returned_price. change (2 ^ 50) with 1125899906842624. lia. }
    split; [ left; split; reflexivity | ].
    split; lia.
  - assert (positive : 0 < cents < 10 ^ 10) by lia.
    destruct (option_eq_dec promoCode (Some VALID_PROMO_CODE)) as [-> | other].
    + destruct (subscribe_paid d u c row rest cents free found priced positive)
        as (m & e & paid & number & negative & nearest & halved & paid_positive & result).
      rewrite result in success.
      destruct (has_user d u); [ | discriminate ].
      injection success as <- <-.
      exists paid. split; [ reflexivity | ].
      split; [ reflexivity | ].
      split.
      { right. split; [ lia | ]. split; [ reflexivity | ].
        split; [ exact halved | ]. now exists m, e. }
      split; lia.
    + rewrite (subscribe_no_price d u c promoCode row rest _ free found
                 (unpaid_price row cents promoCode priced positive other)) in success.
      discriminate.
Qed.

End Pricing.

(** ** The claims about authentication *)

Section Authentication.

Context `{Ext : Externals}.

(** [login] with an email that no user has. *)
Lemma login_unknown_email (d : Database) (email password : string) :
  user_rows d email = [] ->
  run (login email password) d = (inl (JsError "Invalid credentials"), d).
Proof.
  intro unknown.
  unfold login, await. cbn [run pg].
  fold (user_rows d email). rewrite unknown.
  reflexivity.
Qed.

(** [login] with the email of a user and a password that is not theirs. *)
Lemma login_wrong_password (d : Database) (email password : string)
    (user : UserRow) (rest : list UserRow) :
  user_rows d email = user :: rest ->
  bcrypt_compare password (user_password user) = false ->
  run (login email password) d = (inl (JsError "Invalid credentials"), d).
Proof.
  intros known mismatch.
  unfold login, await, comparePassword. cbn [run pg].
  fold (user_rows d email). rewrite known, mismatch.
  reflexivity.
Qed.

(** The handler of [POST /auth/login] on a body that passes the schema:
    the response for each outcome of [login]. *)
Lemma post_login_response (req : Request) (email password : string) (d : Database) :
  loginSchema_parse (req_body req) = Return (email, password) ->
  run (post_login req) d
  = match run (login email password) d with
    | (inr result, d') =>
        (inr {| status := 200; body := AuthBody (snd result) (fst result) |}, d')
    | (inl (ZodError issues), d') => (inr (validation_failed issues), d')
    | (inl error, d') =>
        (inr (if String.eqb (exn_message error) "Invalid credentials" then
                error_response 401 (exn_message error)
              else error_response 500 "Internal server error"), d')
    end.
Proof.
  intro parsed.
  unfold post_login.
  rewrite run_try_catch, parsed.
  cbn [bind fst snd].
  rewrite run_bind.
  destruct (run (login email password) d) as [[error | result] d'];
    [ | reflexivity ].
  destruct error as [ message | code constraint | issues ]; try reflexivity.
  - cbn [exn_message]. now destruct (String.eqb message _).
  - now destruct (String.eqb (exn_message (PgError code constraint)) _).
Qed.

(** C6. For every [login], an email that is not found and a password
    that does not match fail with the same error, "Invalid credentials",
    and [POST /auth/login] answers both with the same response, 401 and
    that message: the caller cannot tell the two cases apart. *)
Theorem login_failures_are_identical (d : Database)
    (unknown_email known_email password password' : string)
    (user : UserRow) (rest : list UserRow) :
  user_rows d unknown_email = [] ->
  user_rows d known_email = user :: rest ->
  bcrypt_compare password' (user_password user) = false ->
  run (login unknown_email password) d = (inl (JsError "Invalid credentials"), d)
  /\ run (login known_email password') d = (inl (JsError "Invalid credentials"), d)
  /\ forall req req' : Request,
       loginSchema_parse (req_body req) = Return (unknown_email, password) ->
       loginSchema_parse (req_body req') = Return (known_email, password') ->
       run (post_login req) d = (inr (error_response 401 "Invalid credentials"), d)
       /\ run (post_login req') d = run (post_login req) d.
Proof.
  intros unknown known mismatch.
  pose proof (login_unknown_email d unknown_email password unknown) as first.
  pose proof (login_wrong_password d known_email password' user rest known mismatch)
    as second.
  split; [ exact first | ].
  split; [ exact second | ].
  intros req req' parsed parsed'.
  rewrite (post_login_response req unknown_email password d parsed), first.
  rewrite (post_login_response req' known_email password' d parsed'), second.
  split; reflexivity.
Qed.

(** [verifyToken] returns for every token, and returns [null] when
    [jwt.verify] throws. *)
Lemma verifyToken_returns (token : string) :
  exists result : option JWTPayload,
    verifyToken token = Return result
    /\ forall error, jwt_verify token JWT_SECRET = inl error -> result = None.
Proof.
  unfold verifyToken.
  destruct (jwt_verify token JWT_SECRET) as [ error | decoded ].
  - exists None. split; [ reflexivity | reflexivity ].
  - exists (Some decoded). split; [ reflexivity | discriminate ].
Qed.

(** C7. [verifyToken] fails closed: for every token it returns, and
    whenever [jwt.verify] rejects the token (signature, form or expiry) it
    returns [null]; no exception escapes. Every request to a protected
    route with a missing or malformed [Authorization] header or with such
    a token is answered 401, and nothing of the handler runs: the
    response does not depend on it and no query is made. *)
Theorem verifyToken_fails_closed :
  (forall token : string,
     exists result : option JWTPayload,
       verifyToken token = Return result
       /\ forall error, jwt_verify token JWT_SECRET = inl error -> result = None)
  /\ (forall (handler : string -> Request -> io Response) (req : Request),
        bad_authorization req ->
        exists message : string,
          authMiddleware req = Return (inl (error_response 401 message))
          /\ protected handler req = Return (error_response 401 message)).
Proof.
  split; [ exact verifyToken_returns | ].
  intros handler req bad.
  unfold protected, authMiddleware, bad_authorization in *.
  destruct (headers_authorization req) as [ authHeader | ];
    [ | eexists; split; reflexivity ].
  destruct (String.eqb_spec authHeader "") as [ -> | filled ];
    [ eexists; split; reflexivity | ].
  destruct (prefix "Bearer " authHeader) eqn:bearer;
    [ | eexists; split; reflexivity ].
  destruct bad as [ empty | [ other | [ error rejected ] ] ];
    [ contradiction | discriminate | ].
  cbn [negb]. unfold verifyToken. rewrite rejected.
  eexists; split; reflexivity.
Qed.

(** What [loginSchema.parse] does with a body: it throws a [ZodError], or
    the body holds an email and a password of eight characters or more. *)
Lemma loginSchema_parse_cases (b : json) :
  (exists issues, loginSchema_parse b = Throw (ZodError issues))
  \/ (exists fields email password,
        b = JObject fields
        /\ get_field "password" fields = JString password
        /\ (8 <= String.length password)%nat
        /\ loginSchema_parse b = Return (email, password)).
Proof.
  destruct b as [ | | flag | x | s | fields ]; try (left; eexists; reflexivity).
  unfold loginSchema_parse.
  destruct (check_email "email" (get_field "email" fields)
            ++ check_password "password" (get_field "password" fields))%list
    as [ | issue issues ] eqn:checked; [ | left; eexists; reflexivity ].
  right.
  apply app_eq_nil in checked. destruct checked as [ _ password_ok ].
  destruct (get_field "password" fields)
    as [ | | flag | x | password | nested ] eqn:found; try discriminate.
  unfold check_password in password_ok.
  destruct (Nat.ltb_spec (String.length password) 8) as [ short | long ];
    [ discriminate | ].
  exists fields, (string_of (get_field "email" fields)), password.
  split; [ reflexivity | ].
  split; [ exact found | ].
  split; [ exact long | reflexivity ].
Qed.

(** C10. Every [POST /auth/login] whose password is shorter than eight
    characters is answered 400 with the validation details, by the handler
    alone: no query is made and the credentials are not checked, so the
    response differs from the 401 "Invalid credentials". That 401 is only
    ever the answer to a password of eight characters or more. *)
Theorem short_password_is_rejected_before_login (req : Request)
    (fields : list (string * json)) (password : string) :
  req_body req = JObject fields ->
  get_field "password" fields = JString password ->
  (String.length password < 8)%nat ->
  (exists issues : list (string * string),
     post_login req = Return (validation_failed issues)
     /\ In ("password", "Password must be at least 8 characters long") issues
     /\ status (validation_failed issues) = 400
     /\ validation_failed issues <> error_response 401 "Invalid credentials")
  /\ forall (req' : Request) (d : Database),
       fst (run (post_login req') d) = inr (error_response 401 "Invalid credentials") ->
       exists fields' password',
         req_body req' = JObject fields'
         /\ get_field "password" fields' = JString password'
         /\ (8 <= String.length password')%nat.
Proof.
  intros object field short.
  split.
  - unfold post_login, loginSchema_parse. rewrite object, field.
    unfold check_password.
    replace (String.length password <? 8)%nat with true
      by (symmetry; apply Nat.ltb_lt; exact short).
    destruct (check_email "email" (get_field "email" fields)) as [ | issue issues ];
      eexists; (split; [ reflexivity | ]);
      (split; [ | split; [ reflexivity | discriminate ] ]).
    + now left.
    + right. apply in_or_app. right. now left.
  - intros req' d unauthorized.
    destruct (loginSchema_parse_cases (req_body req'))
      as [ [ issues thrown ] | (fields' & email & password' & -> & found & long & _) ].
    + unfold post_login in unauthorized. rewrite thrown in unauthorized.
      discriminate.
    + now exists fields', password'.
Qed.

End Authentication.

(** ** The claims about uniqueness *)

Section Uniqueness.

Context `{Ext : Externals}.







(** A [subscribe] that succeeds found the pair free and added one row for
    it. *)
Lemma subscribe_success (d d' : Database) (u c : uuid) (promoCode : option string)
    (subscription : Subscription) :
  run (subscribe u c promoCode) d = (inr subscription, d') ->
  is_subscribed d u c = false
  /\ exists (row : CourseRow) (rest : list CourseRow) (x : number) (v : pg_numeric),
       course_rows d c = row :: rest
       /\ price_to_pay (course_object row) promoCode = Return x
       /\ numeric_in x = inr v
       /\ insert_subscription u c x d = inr (new_subscription d u c v)
       /\ subscription = subscription_of (new_subscription d u c v)
       /\ d' = with_subscription d (new_subscription d u c v).
Proof.
  intro success.
  destruct (is_subscribed d u c) eqn:free.
  { rewrite (subscribe_subscribed d u c promoCode free) in success. discriminate. }
  split; [ reflexivity | ].
  destruct (course_rows d c) as [ | row rest ] eqn:found.
  { rewrite (subscribe_no_course d u c promoCode free found) in success. discriminate. }
  destruct (price_to_pay_cases (course_object row) promoCode)
    as [ [ x priced ] | [ e thrown ] ].
  - rewrite (subscribe_priced d u c promoCode row rest x free found priced) in success.
    destruct (insert_subscription u c x d) as [ error | s ] eqn:inserted;
      [ discriminate | ].
    destruct (insert_subscription_inv d u c x s inserted) as (v & stored & -> & _).
    injection success as <- <-.
    exists row, rest, x, v. repeat split; assumption.
  - rewrite (subscribe_no_price d u c promoCode row rest e free found thrown) in success.
    discriminate.
Qed.

Lemma subscribed_after_insert (d : Database) (u c : uuid) (v : pg_numeric) :
  is_subscribed (with_subscription d (new_subscription d u c v)) u c = true.
Proof.
  unfold is_subscribed, with_subscription. cbn [subscriptions].
  rewrite existsb_app. apply orb_true_iff. right.
  cbn [existsb]. unfold subscribed_row, new_subscription.
  cbn [subscription_user_id subscription_course_id].
  now rewrite !String.eqb_refl.
Qed.

Lemma filter_none {A : Type} (f : A -> bool) (l : list A) :
  existsb f l = false -> filter f l = [].
Proof.
  induction l as [ | a l IH ]; [ reflexivity | ].
  cbn [existsb filter]. intro none.
  apply orb_false_iff in none. destruct none as [ -> rest ].
  now apply IH.
Qed.

(** The insert for a pair that has been subscribed in between. *)
Lemma insert_duplicate (d : Database) (u c : uuid) (x : number) (v : pg_numeric) :
  numeric_in x = inr v ->
  is_subscribed d u c = true ->
  insert_subscription u c x d
  = inl (PgError "23505" "subscriptions_user_id_course_id_key").
Proof.
  intros storable subscribed.
  unfold insert_subscription. rewrite storable.
  fold (is_subscribed d u c). now rewrite subscribed.
Qed.

(** *** Two requests for the same pair, in any interleaving *)

(** A step, then the rest, is the whole run. *)
Lemma run_step {A : Type} (p : io A) (e : Database) :
  run p e = run (fst (step p e)) (snd (step p e)).
Proof.
  destruct p as [ a | x | R q k ]; try reflexivity.
  cbn [run step]. now destruct (pg q e).
Qed.

Section Racing.

Variables (d : Database) (u c : uuid) (promoCode : option string).
Variables (row : CourseRow) (rest : list CourseRow) (x : number) (v : pg_numeric).

Hypothesis free : is_subscribed d u c = false.
Hypothesis found : course_rows d c = row :: rest.
Hypothesis priced : price_to_pay (course_object row) promoCode = Return x.
Hypothesis storable : numeric_in x = inr v.
Hypothesis inserted : insert_subscription u c x d = inr (new_subscription d u c v).

(** The database once one of the two has inserted its row, and the
    subscription it returns. *)
Let d1 : Database := with_subscription d (new_subscription d u c v).
Let won : Subscription := subscription_of (new_subscription d u c v).

(** [subscribe] before its check, after it, and after the course is
    priced. *)
Let checking : io Subscription := subscribe u c promoCode.
Let looking : io Subscription := fst (step checking d).
Let inserting : io Subscription := fst (step looking d).

Lemma step_checking : step checking d = (looking, d).
Proof. reflexivity. Qed.

Lemma step_checking_late : step checking d1 = (Throw already_subscribed, d1).
Proof.
  unfold checking, subscribe, isUserSubscribed, await.
  cbn [step bind pg].
  rewrite rows_found.
  change (existsb (subscribed_row u c) (subscriptions d1)) with (is_subscribed d1 u c).
  unfold d1. rewrite subscribed_after_insert.
  reflexivity.
Qed.

Lemma step_looking (e : Database) :
  courses e = courses d -> step looking e = (inserting, e).
Proof.
  intro same.
  unfold inserting, looking, checking, subscribe, isUserSubscribed, await.
  cbn [step bind pg fst].
  rewrite !rows_found. fold (is_subscribed d u c). rewrite free.
  cbn [step bind pg fst].
  rewrite same. reflexivity.
Qed.

Lemma step_inserting : step inserting d = (Return won, d1).
Proof.
  unfold inserting, looking, checking, subscribe, isUserSubscribed, await.
  cbn [step bind pg fst].
  rewrite !rows_found. fold (is_subscribed d u c). rewrite free.
  cbn [step bind pg fst].
  fold (course_rows d c). rewrite found.
  cbn [map]. rewrite priced.
  cbn [step bind pg fst]. rewrite inserted.
  reflexivity.
Qed.

Lemma step_inserting_late : step inserting d1 = (Throw duplicate_key, d1).
Proof.
  unfold inserting, looking, checking, subscribe, isUserSubscribed, await.
  cbn [step bind pg fst].
  rewrite !rows_found. fold (is_subscribed d u c). rewrite free.
  cbn [step bind pg fst].
  fold (course_rows d c). rewrite found.
  cbn [map]. rewrite priced.
  cbn [step bind pg fst].
  rewrite (insert_duplicate d1 u c x v storable (subscribed_after_insert d u c v)).
  reflexivity.
Qed.

Lemma run_inserting : run inserting d = (inr won, d1).
Proof. now rewrite run_step, step_inserting. Qed.

Lemma run_looking : run looking d = (inr won, d1).
Proof. rewrite run_step, step_looking by reflexivity. exact run_inserting. Qed.

Lemma run_checking : run checking d = (inr won, d1).
Proof. rewrite run_step, step_checking. exact run_looking. Qed.

Lemma run_checking_late : run checking d1 = (inl already_subscribed, d1).
Proof. now rewrite run_step, step_checking_late. Qed.

Lemma run_inserting_late : run inserting d1 = (inl duplicate_key, d1).
Proof. now rewrite run_step, step_inserting_late. Qed.

Lemma run_looking_late : run looking d1 = (inl duplicate_key, d1).
Proof. rewrite run_step, step_looking by reflexivity. exact run_inserting_late. Qed.

(** Where two requests for the pair can be: none has inserted and each is
    at one of its three statements, or one has inserted and returned and
    the other is at a statement or has failed. *)
Let underway (p : io Subscription) : Prop :=
  p = checking \/ p = looking \/ p = inserting.
Let behind (p : io Subscription) : Prop :=
  underway p \/ p = Throw already_subscribed \/ p = Throw duplicate_key.
Let configuration (p1 p2 : io Subscription) (e : Database) : Prop :=
  (e = d /\ underway p1 /\ underway p2)
  \/ (e = d1 /\ p1 = Return won /\ behind p2)
  \/ (e = d1 /\ behind p1 /\ p2 = Return won).

(** How two requests for the pair can end: one has subscribed, the other
    has failed at the check or at the unique constraint, and one row has
    been added. *)
Let ending (result : (exn + Subscription) * (exn + Subscription) * Database) : Prop :=
  exists error : exn,
    (error = already_subscribed \/ error = duplicate_key)
    /\ (result = (inr won, inl error, d1) \/ result = (inl error, inr won, d1)).

Lemma underway_first (p : io Subscription) :
  underway p -> run p d = (inr won, d1).
Proof.
  intros [-> | [-> | ->]];
    [ exact run_checking | exact run_looking | exact run_inserting ].
Qed.

Lemma behind_late (p : io Subscription) :
  behind p ->
  exists error : exn,
    (error = already_subscribed \/ error = duplicate_key)
    /\ run p d1 = (inl error, d1).
Proof.
  intros [ [-> | [-> | ->]] | [-> | ->] ].
  - exists already_subscribed. split; [ now left | exact run_checking_late ].
  - exists duplicate_key. split; [ now right | exact run_looking_late ].
  - exists duplicate_key. split; [ now right | exact run_inserting_late ].
  - exists already_subscribed. split; [ now left | reflexivity ].
  - exists duplicate_key. split; [ now right | reflexivity ].
Qed.

Lemma underway_step (p : io Subscription) :
  underway p ->
  (snd (step p d) = d /\ underway (fst (step p d)))
  \/ step p d = (Return won, d1).
Proof.
  intros [-> | [-> | ->]].
  - left. rewrite step_checking. split; [ reflexivity | right; now left ].
  - left. rewrite step_looking by reflexivity.
    split; [ reflexivity | right; now right ].
  - right. exact step_inserting.
Qed.

Lemma behind_step (p : io Subscription) :
  behind p -> snd (step p d1) = d1 /\ behind (fst (step p d1)).
Proof.
  intros [ [-> | [-> | ->]] | [-> | ->] ].
  - rewrite step_checking_late. split; [ reflexivity | right; now left ].
  - rewrite step_looking by reflexivity.
    split; [ reflexivity | left; right; now right ].
  - rewrite step_inserting_late. split; [ reflexivity | right; now right ].
  - split; [ reflexivity | right; now left ].
  - split; [ reflexivity | right; now right ].
Qed.

Lemma race_configuration (schedule : list bool) (p1 p2 : io Subscription)
    (e : Database) :
  configuration p1 p2 e -> ending (race schedule p1 p2 e).
Proof.
  revert p1 p2 e.
  induction schedule as [ | first schedule IH ]; intros p1 p2 e.
  - intros [ (-> & busy1 & busy2) | [ (-> & -> & late) | (-> & late & ->) ] ];
      cbn [race].
    + rewrite (underway_first p1 busy1).
      destruct (behind_late p2 (or_introl busy2)) as (error & which & ->).
      exists error. split; [ exact which | now left ].
    + destruct (behind_late p2 late) as (error & which & failed).
      cbn [run]. rewrite failed.
      exists error. split; [ exact which | now left ].
    + destruct (behind_late p1 late) as (error & which & ->).
      exists error. split; [ exact which | now right ].
  - intros [ (-> & busy1 & busy2) | [ (-> & -> & late) | (-> & late & ->) ] ];
      destruct first; cbn [race].
    + destruct (underway_step p1 busy1) as [ (same & busy) | -> ].
      * destruct (step p1 d) as [ p1' e' ]. cbn [fst snd] in *. subst e'.
        apply IH. left. now repeat split.
      * apply IH. right. left. repeat split. now left.
    + destruct (underway_step p2 busy2) as [ (same & busy) | -> ].
      * destruct (step p2 d) as [ p2' e' ]. cbn [fst snd] in *. subst e'.
        apply IH. left. now repeat split.
      * apply IH. right. right. repeat split. now left.
    + cbn [step]. apply IH. right. left. now repeat split.
    + destruct (behind_step p2 late) as (same & still).
      destruct (step p2 d1) as [ p2' e' ]. cbn [fst snd] in *. subst e'.
      apply IH. right. left. now repeat split.
    + destruct (behind_step p1 late) as (same & still).
      destruct (step p1 d1) as [ p1' e' ]. cbn [fst snd] in *. subst e'.
      apply IH. right. right. now repeat split.
    + cbn [step]. apply IH. right. right. now repeat split.
Qed.

(** Two [subscribe] for a free pair, each of which would succeed alone,
    in any interleaving. *)
Lemma race_of_two (schedule : list bool) :
  exists error : exn,
    (error = already_subscribed \/ error = duplicate_key)
    /\ (race schedule (subscribe u c promoCode) (subscribe u c promoCode) d
        = (inr won, inl error, d1)
        \/ race schedule (subscribe u c promoCode) (subscribe u c promoCode) d
           = (inl error, inr won, d1)).
Proof.
  apply (race_configuration schedule checking checking d).
  left. repeat split; now left.
Qed.

(** The first passes the check, the second runs its three statements,
    then the first goes on: the unique constraint rejects its insert. *)
Lemma race_insert_rejected :
  race [true; false; false; false] (subscribe u c promoCode) (subscribe u c promoCode) d
  = (inl duplicate_key, inr won, d1).
Proof.
  change (subscribe u c promoCode) with checking.
  cbn [race]. rewrite step_checking.
  cbn [race]. rewrite step_checking.
  cbn [race]. rewrite step_looking by reflexivity.
  cbn [race]. rewrite step_inserting.
  cbn [race]. now rewrite run_looking_late.
Qed.


End Racing.

(** Two equal [subscribe], each of which would succeed alone, in any
    interleaving: one subscribes, the other fails at the check or at the
    unique constraint, and the subscription of the one is what has been
    persisted. *)
Lemma race_of_two_subscribe (d d' : Database) (u c : uuid)
    (promoCode : option string) (subscription : Subscription)
    (schedule : list bool) :
  run (subscribe u c promoCode) d = (inr subscription, d') ->
  exists error : exn,
    (error = already_subscribed \/ error = duplicate_key)
    /\ (race schedule (subscribe u c promoCode) (subscribe u c promoCode) d
        = (inr subscription, inl error, d')
        \/ race schedule (subscribe u c promoCode) (subscribe u c promoCode) d
           = (inl error, inr subscription, d')).
Proof.
  intro success.
  destruct (subscribe_success d d' u c promoCode subscription success)
    as (free & row & rest & x & v & found & priced & storable & inserted & -> & ->).
  exact (race_of_two d u c promoCode row rest x v free found priced storable
           inserted schedule).
Qed.

Lemma race_insert_rejected_subscribe (d d' : Database) (u c : uuid)
    (promoCode : option string) (subscription : Subscription) :
  run (subscribe u c promoCode) d = (inr subscription, d') ->
  race [true; false; false; false] (subscribe u c promoCode) (subscribe u c promoCode) d
  = (inl duplicate_key, inr subscription, d').
Proof.
  intro success.
  destruct (subscribe_success d d' u c promoCode subscription success)
    as (free & row & rest & x & v & found & priced & storable & inserted & -> & ->).
  exact (race_insert_rejected d u c promoCode row rest x v free found priced
           storable inserted).
Qed.

(** What [POST /subscribe] answers to the two errors. *)
Lemma already_subscribed_response :
  subscribe_error_response already_subscribed
  = error_response 409 "User already subscribed to this course".
Proof. reflexivity. Qed.

Lemma duplicate_key_response :
  subscribe_error_response duplicate_key
  = error_response 500 "Internal server error".
Proof. reflexivity. Qed.


(** C5, amended. When the unique constraint rejects the insert of
    [subscribe], the error of the driver leaves [subscribe] as it is and
    [POST /subscribe] answers 500 "Internal server error". Two equal
    requests, each of which would succeed alone, in any interleaving: one
    subscribes and is answered 201; the other fails at the check and is
    answered 409, or at the unique constraint and is answered 500; one
    subscription is persisted. The constraint does reject an insert: when
    the first passes the check, the second runs its three statements and
    the first goes on, the first is answered 500. *)
Theorem duplicate_key_is_answered_500 (d d' : Database) (req : Request)
    (u c : uuid) (promoCode : option string) (subscription : Subscription) :
  authMiddleware req = Return (inr u) ->
  subscribeSchema_parse (req_body req) = Return (c, promoCode) ->
  run (subscribe u c promoCode) d = (inr subscription, d') ->
  (forall schedule : list bool,
     exists (error : exn) (answer : Response),
       (error = already_subscribed
        /\ answer = error_response 409 "User already subscribed to this course"
        \/ error = duplicate_key
           /\ answer = error_response 500 "Internal server error")
       /\ (race schedule (subscribe u c promoCode) (subscribe u c promoCode) d
             = (inr subscription, inl error, d')
           /\ race schedule (post_subscribe req) (post_subscribe req) d
              = (inr {| status := 201; body := SubscriptionBody subscription |},
                 inr answer, d')
           \/ race schedule (subscribe u c promoCode) (subscribe u c promoCode) d
              = (inl error, inr subscription, d')
              /\ race schedule (post_subscribe req) (post_subscribe req) d
                 = (inr answer,
                    inr {| status := 201; body := SubscriptionBody subscription |},
                    d')))
  /\ race [true; false; false; false]
       (subscribe u c promoCode) (subscribe u c promoCode) d
     = (inl duplicate_key, inr subscription, d')
  /\ race [true; false; false; false] (post_subscribe req) (post_subscribe req) d
     = (inr (error_response 500 "Internal server error"),
        inr {| status := 201; body := SubscriptionBody subscription |},
        d').
Proof.
  intros authorized parsed success.
  pose proof (post_subscribe_answers req u c promoCode authorized parsed) as answers.
  split; [ | split ].
  - intro schedule.
    destruct (race_of_two_subscribe d d' u c promoCode subscription schedule success)
      as (error & which & ended).
    exists error, (subscribe_error_response error).
    split.
    { destruct which as [ -> | -> ];
        [ left; split; [ reflexivity | exact already_subscribed_response ]
        | right; split; [ reflexivity | exact duplicate_key_response ] ]. }
    rewrite answers, race_answering.
    destruct ended as [ ended | ended ]; [ left | right ];
      (split; [ exact ended | now rewrite ended ]).
  - now apply race_insert_rejected_subscribe.
  - rewrite answers, race_answering.
    now rewrite (race_insert_rejected_subscribe d d' u c promoCode subscription success).
Qed.

End Uniqueness.

(** ** The seeded catalogue at work *)

Section Catalogue.

#[local] Existing Instance demo_externals.


(** A free course of the catalogue, subscribed to with a code that is not
    the promo code. *)
Lemma free_course_costs_nothing_witness :
  fst (run (subscribe "user-1" "course-1" (Some "NOT-A-CODE")) seed_database)
  = inr {| subscriptionId := "subscription-1";
           userId := "user-1";
           courseId := "course-1";
           pricePaid := zero;
           subscribedAt := 0 |}.
Proof.
  rewrite (free_course_costs_nothing
             seed_database "user-1" "course-1"
             (seed_course "course-1" "Introduction to Web Development" 0)
             [] (Some "NOT-A-CODE")); reflexivity.
Defined.

(** The course of 149.99 of the catalogue: 75.00 is paid. *)
Lemma promo_code_pays_half_witness :
  exists (m : positive) (e paid : Z),
    number_of_price
      (Course_price
         (course_object
            (seed_course "course-3" "Node.js Backend Development" 14999)))
    = S754_finite false m e
    /\ (2 * paid - 1) * 2 ^ (1 - e) <= 200 * Zpos m < (2 * paid + 1) * 2 ^ (1 - e)
    /\ 2 * paid - 1 <= 14999 <= 2 * paid + 1
    /\ run (subscribe "user-1" "course-3" (Some "BFSALE25")) seed_database
       = (inr {| subscriptionId := "subscription-1";
                 userId := "user-1";
                 courseId := "course-3";
                 pricePaid := parseFloat (TxtFixed false (Z.to_N paid));
                 subscribedAt := 0 |},
          with_subscription seed_database
            (new_subscription seed_database
               "user-1" "course-3" (Numeric paid))).
Proof.
  exact (promo_code_pays_half
           seed_database "user-1" "course-3"
           (seed_course "course-3" "Node.js Backend Development" 14999)
           [] 14999 eq_refl eq_refl eq_refl eq_refl (conj eq_refl eq_refl)).
Defined.

(** The course of 99.99 of the catalogue and the promo code in lower
    case. *)
Lemma paid_course_requires_promo_code_witness :
  run
    (subscribe "user-1" "course-2" (Some "bfsale25")) seed_database
  = (inl (JsError "Invalid promo code"), seed_database)
  /\ forall req : Request,
       subscribeSchema_parse (req_body req)
       = Return ("course-2", Some "bfsale25") ->
       run (subscribe_handler "user-1" req) seed_database
       = (inr (error_response 400 "Invalid promo code"), seed_database).
Proof.
  apply (paid_course_requires_promo_code
           seed_database "user-1" "course-2"
           (seed_course "course-2" "Advanced React Patterns" 9999)
           [] 9999 (Some "bfsale25")); try reflexivity.
  - change (10 ^ 10) with 10000000000. lia.
  - discriminate.
Defined.

(** C3 as it is written fails for the empty promo code: it is a promo
    code that is supplied and is not "BFSALE25", and the error is the one
    of a missing code, not "Invalid promo code". *)
Lemma empty_promo_code_counts_as_missing :
  Some "" <> Some "BFSALE25"
  /\ fst (run
            (subscribe "user-1" "course-2" (Some "")) seed_database)
     = inl (JsError "Promo code required for paid courses")
  /\ fst (run
            (subscribe "user-1" "course-2" (Some "")) seed_database)
     <> inl (JsError "Invalid promo code").
Proof.
  split; [ discriminate | ].
  split; [ reflexivity | ].
  vm_compute. discriminate.
Qed.

(** The price 0.25: half of it is 0.125, and 0.13 is paid. *)
Lemma binary_half_cent_rounds_away_from_zero_witness :
  parseFloat (TxtFixed false 25) = S754_finite false 4503599627370496 (-54)
  /\ calculateDiscountedPrice (S754_finite false 4503599627370496 (-54)) PROMO_DISCOUNT
     = parseFloat (TxtFixed false 13).
Proof.
  split; [ reflexivity | ].
  destruct (binary_half_cent_rounds_away_from_zero false 4503599627370496 (-54))
    as ((n & result & _ & _ & tie) & _); [ reflexivity | lia | ].
  destruct (tie 12 eq_refl) as [ -> _ ].
  exact result.
Defined.

(** C8 as it is written fails for the course of 99.99 of the catalogue:
    half of 9999 hundredths is 4999 and a half, and 49.99 is paid, not
    50.00. The number read from "99.99" lies below 99.99, and its half
    below the half-cent. *)
Lemma seeded_half_cent_rounds_towards_zero :
  9999 = 2 * 4999 + 1
  /\ parseFloat (TxtFixed false 9999) = S754_finite false 7036170730324623 (-46)
  /\ 100 * 7036170730324623 < 9999 * 2 ^ 46
  /\ calculateDiscountedPrice (parseFloat (TxtFixed false 9999)) PROMO_DISCOUNT
     = parseFloat (TxtFixed false 4999)
  /\ parseFloat (TxtFixed false 4999) <> parseFloat (TxtFixed false 5000)
  /\ map subscription_price_paid
       (subscriptions
          (snd (run
                  (subscribe "user-1" "course-2" (Some "BFSALE25")) seed_database)))
     = [Numeric 4999].
Proof.
  split; [ reflexivity | ].
  split; [ reflexivity | ].
  split; [ reflexivity | ].
  split; [ reflexivity | ].
  split; [ vm_compute; discriminate | reflexivity ].
Qed.

(** The course of 199.99 of the catalogue: 100.00 is paid. *)
Lemma price_paid_is_zero_or_half_witness :
  exists paid : Z,
    with_subscription seed_database
      (new_subscription seed_database
         "user-2" "course-5" (Numeric 10000))
    = with_subscription seed_database
        (new_subscription seed_database
           "user-2" "course-5" (Numeric paid))
    /\ parseFloat (TxtFixed false 10000) = parseFloat (TxtFixed false (Z.to_N paid))
    /\ (19999 = 0 /\ paid = 0
        \/ 0 < 19999 /\ Some "BFSALE25" = Some "BFSALE25"
           /\ 2 * paid - 1 <= 19999 <= 2 * paid + 1
           /\ exists (m : positive) (e : Z),
                number_of_price
                  (Course_price
                     (course_object
                        (seed_course "course-5" "Full-Stack TypeScript" 19999)))
                = S754_finite false m e
                /\ paid = nearest_hundredths m (e - 1))
    /\ 0 <= paid <= 19999
    /\ (2 <= 19999 -> paid < 19999).
Proof.
  apply (price_paid_is_zero_or_half
           seed_database _ "user-2" "course-5" (Some "BFSALE25")
           (seed_course "course-5" "Full-Stack TypeScript" 19999) [] 19999
           {| subscriptionId := "subscription-1";
              userId := "user-2";
              courseId := "course-5";
              pricePaid := parseFloat (TxtFixed false 10000);
              subscribedAt := 0 |});
    try reflexivity.
  change (10 ^ 10) with 10000000000. lia.
Defined.

(** C9 as it is written fails for a course of 0.01: with the promo code
    0.01 is paid, the full price. *)
Lemma one_cent_course_pays_full_price :
  map course_price (course_rows penny_database "course-7") = [Numeric 1]
  /\ map subscription_price_paid
       (subscriptions
          (snd (run
                  (subscribe "user-1" "course-7" (Some "BFSALE25")) penny_database)))
     = [Numeric 1]
  /\ (exists subscription,
        fst (run
               (subscribe "user-1" "course-7" (Some "BFSALE25")) penny_database)
        = inr subscription
        /\ pricePaid subscription = parseFloat (TxtFixed false 1)).
Proof.
  split; [ reflexivity | ].
  split; [ vm_compute; reflexivity | ].
  eexists. split; [ vm_compute; reflexivity | reflexivity ].
Qed.


(** An address that is not registered, and the address of the first
    seeded user with a wrong password. *)
Lemma login_failures_are_identical_witness :
  run (login "nobody@example.com" "password123") seed_database
  = (inl (JsError "Invalid credentials"), seed_database)
  /\ run (login "test1@example.com" "wrongpassword") seed_database
     = (inl (JsError "Invalid credentials"), seed_database)
  /\ forall req req' : Request,
       loginSchema_parse (req_body req)
       = Return ("nobody@example.com", "password123") ->
       loginSchema_parse (req_body req')
       = Return ("test1@example.com", "wrongpassword") ->
       run (post_login req) seed_database
       = (inr (error_response 401 "Invalid credentials"), seed_database)
       /\ run (post_login req')
            seed_database
          = run (post_login req)
              seed_database.
Proof.
  apply (login_failures_are_identical seed_database
           "nobody@example.com" "test1@example.com" "password123" "wrongpassword"
           (seed_user "user-1" "Test User One" "test1@example.com" "bcrypt:password123")
           []); reflexivity.
Defined.

(** A login with the password "admin12", of seven characters. *)
Lemma short_password_is_rejected_before_login_witness :
  (exists issues : list (string * string),
     post_login
       {| headers_authorization := None;
          req_body := JObject [ ("email", JString "admin@example.com");
                                ("password", JString "admin12") ] |}
     = Return (validation_failed issues)
     /\ In ("password", "Password must be at least 8 characters long") issues
     /\ status (validation_failed issues) = 400
     /\ validation_failed issues <> error_response 401 "Invalid credentials")
  /\ forall (req' : Request) (d : Database),
       fst (run (post_login req') d) = inr (error_response 401 "Invalid credentials") ->
       exists fields' password',
         req_body req' = JObject fields'
         /\ get_field "password" fields' = JString password'
         /\ (8 <= String.length password')%nat.
Proof.
  apply (short_password_is_rejected_before_login
           {| headers_authorization := None;
              req_body := JObject [ ("email", JString "admin@example.com");
                                    ("password", JString "admin12") ] |}
           [ ("email", JString "admin@example.com"); ("password", JString "admin12") ]
           "admin12");
    [ reflexivity | reflexivity | repeat constructor ].
Defined.



(** Two requests of the first seeded user for the first free course. *)
Lemma duplicate_key_is_answered_500_witness :
  let req := subscribe_request "course-1" JUndefined in
  let subscription :=
    {| subscriptionId := "subscription-1";
       userId := "user-1";
       courseId := "course-1";
       pricePaid := zero;
       subscribedAt := 0 |} in
  let d' :=
    with_subscription seed_database
      (new_subscription seed_database "user-1" "course-1" (Numeric 0)) in
  (authMiddleware req = Return (inr "user-1")
   /\ subscribeSchema_parse (req_body req) = Return ("course-1", None)
   /\ run (subscribe "user-1" "course-1" None) seed_database = (inr subscription, d'))
  /\ (forall schedule : list bool,
        exists (error : exn) (answer : Response),
          (error = already_subscribed
           /\ answer = error_response 409 "User already subscribed to this course"
           \/ error = duplicate_key
              /\ answer = error_response 500 "Internal server error")
          /\ (race schedule (subscribe "user-1" "course-1" None)
                (subscribe "user-1" "course-1" None) seed_database
              = (inr subscription, inl error, d')
              /\ race schedule (post_subscribe req) (post_subscribe req) seed_database
                 = (inr {| status := 201; body := SubscriptionBody subscription |},
                    inr answer, d')
              \/ race schedule (subscribe "user-1" "course-1" None)
                   (subscribe "user-1" "course-1" None) seed_database
                 = (inl error, inr subscription, d')
                 /\ race schedule (post_subscribe req) (post_subscribe req) seed_database
                    = (inr answer,
                       inr {| status := 201; body := SubscriptionBody subscription |},
                       d')))
  /\ race [true; false; false; false]
       (subscribe "user-1" "course-1" None) (subscribe "user-1" "course-1" None)
       seed_database
     = (inl duplicate_key, inr subscription, d')
  /\ race [true; false; false; false] (post_subscribe req) (post_subscribe req)
       seed_database
     = (inr (error_response 500 "Internal server error"),
        inr {| status := 201; body := SubscriptionBody subscription |},
        d').
Proof.
  intros req subscription d'.
  assert (authorized : authMiddleware req = Return (inr "user-1"))
    by (vm_compute; reflexivity).
  assert (parsed : subscribeSchema_parse (req_body req) = Return ("course-1", None))
    by (vm_compute; reflexivity).
  assert (success : run (subscribe "user-1" "course-1" None) seed_database
                    = (inr subscription, d'))
    by (vm_compute; reflexivity).
  split; [ now repeat split | ].
  exact (duplicate_key_is_answered_500 seed_database d' req "user-1" "course-1" None
           subscription authorized parsed success).
Defined.

(** C5 as it is written fails in that race: the request whose insert the
    unique constraint rejects is answered 500, not 409. *)
Lemma racing_duplicate_is_not_a_conflict :
  exists (first second : Response) (d : Database),
    race [true; false; false; false]
      (post_subscribe (subscribe_request "course-1" JUndefined))
      (post_subscribe (subscribe_request "course-1" JUndefined)) seed_database
    = (inr first, inr second, d)
    /\ status second = 201
    /\ status first = 500
    /\ status first <> 409
    /\ List.length (subscriptions d) = 1%nat.
Proof.
  do 3 eexists.
  split; [ vm_compute; reflexivity | ].
  repeat split. discriminate.
Qed.

(** The four paid courses of the catalogue with the promo code: 49.99 for
    99.99 and 39.99 for 79.99, but 75.00 for 149.99 and 100.00 for
    199.99. *)
Example seeded_prices_paid :
  map (fun courseId =>
         map subscription_price_paid
           (subscriptions
              (snd (run (subscribe "user-1" courseId (Some "BFSALE25")) seed_database))))
      [ "course-2"; "course-3"; "course-5"; "course-6" ]
  = [ [Numeric 4999]; [Numeric 7500]; [Numeric 10000]; [Numeric 3999] ].
Proof. vm_compute. reflexivity. Qed.

(** The numbers read from the first amounts, from 0.01 to 30.00, are the
    quotients that the library's IEEE 754 division yields for the
    hundredths and 100; so are those read from the seeded prices. *)
Example amounts_read_as_quotients :
  forallb (fun n => same_number (parseFloat (TxtFixed false (Npos n))) (divided_by_100 n))
    (map Pos.of_nat (seq 1 3000) ++ [ 9999; 14999; 19999; 7999 ]%positive)
  = true.
Proof. vm_compute. reflexivity. Qed.

(** Subscribing twice in a row: 201, then 409. *)
Example second_subscribe_conflicts :
  let '(first, d) :=
    run (post_subscribe (subscribe_request "course-1" JUndefined)) seed_database in
  let '(second, d') :=
    run (post_subscribe (subscribe_request "course-1" JUndefined)) d in
  (match first with inr response => status response | inl _ => 0 end,
   match second with inr response => status response | inl _ => 0 end,
   List.length (subscriptions d'))
  = (201, 409, 1%nat).
Proof. vm_compute. reflexivity. Qed.

(** A request without a header, one with a token that does not verify,
    and one with a valid token and an invalid course id. *)
Example protected_route_statuses :
  map (fun req =>
         match fst (run (post_subscribe req) seed_database) with
         | inr response => status response
         | inl _ => 0
         end)
      [ {| headers_authorization := None; req_body := JUndefined |};
        {| headers_authorization := Some "Bearer expired"; req_body := JUndefined |};
        subscribe_request "not-a-uuid" JUndefined;
        subscribe_request "course-0" JUndefined ]
  = [ 401; 401; 400; 404 ].
Proof. vm_compute. reflexivity. Qed.

(** A token that does not verify, alone and in the header of a request to
    [POST /subscribe]. *)
Lemma verifyToken_fails_closed_witness :
  (exists result : option JWTPayload,
     verifyToken "expired" = Return result /\ result = None)
  /\ exists message : string,
       post_subscribe
         {| headers_authorization := Some "Bearer expired"; req_body := JUndefined |}
       = Return (error_response 401 message).
Proof.
  destruct verifyToken_fails_closed as [ tokens requests ].
  split.
  - destruct (tokens "expired") as (result & returned & rejected).
    exists result. split; [ exact returned | ].
    apply (rejected (JsError "jwt malformed")). reflexivity.
  - destruct (requests subscribe_handler
                {| headers_authorization := Some "Bearer expired";
                   req_body := JUndefined |})
      as (message & _ & answered).
    + right. right. exists (JsError "jwt malformed"). reflexivity.
    + exists message. exact answered.
Defined.

End Catalogue.

(** * Properties of the rest *)

(** ** Text *)

Lemma append_empty (s1 s2 : string) :
  (s1 ++ s2)%string = "" -> s1 = "" /\ s2 = "".
Proof.
  destruct s1 as [ | c s1 ]; [ now split | discriminate ].
Qed.

Lemma substring_all (s : string) : substring 0 (String.length s) s = s.
Proof.
  induction s as [ | c s IH ]; [ reflexivity | ].
  cbn [String.length substring]. now rewrite IH.
Qed.

(** What follows a prefix. *)
Lemma substring_after (p s : string) :
  substring (String.length p) (String.length (p ++ s) - String.length p) (p ++ s) = s.
Proof.
  induction p as [ | c p IH ].
  - cbn [append String.length]. rewrite Nat.sub_0_r. apply substring_all.
  - cbn [append String.length substring]. exact IH.
Qed.

Lemma prefix_append (p s : string) : prefix p (p ++ s) = true.
Proof.
  induction p as [ | c p IH ]; [ now destruct s | ].
  cbn [append prefix].
  destruct (ascii_dec c c) as [ _ | different ]; [ exact IH | contradiction ].
Qed.

Lemma prefix_split (p s : string) :
  prefix p s = true ->
  s = (p ++ substring (String.length p) (String.length s - String.length p) s)%string.
Proof.
  revert s.
  induction p as [ | c p IH ]; intros s starts.
  - cbn [append String.length]. rewrite Nat.sub_0_r. symmetry. apply substring_all.
  - destruct s as [ | c' s ]; [ discriminate | ].
    cbn [prefix] in starts.
    destruct (ascii_dec c c') as [ <- | ]; [ | discriminate ].
    cbn [append String.length substring Nat.sub].
    f_equal. now apply IH.
Qed.

Lemma every_append (f : ascii -> bool) (s1 s2 : string) :
  every f (s1 ++ s2) = every f s1 && every f s2.
Proof.
  induction s1 as [ | c s1 IH ]; [ reflexivity | ].
  cbn [append every]. now rewrite IH, andb_assoc.
Qed.

(** ** Regular expressions *)

Module RegExpFacts.

Import RegExp.

Lemma nullable_language (r : regex) : nullable r = true <-> language r "".
Proof.
  split.
  - induction r as [ | | class | r1 IH1 r2 IH2 | r1 IH1 r2 IH2 | r IH ];
      cbn [nullable]; intro null; try discriminate.
    + constructor.
    + apply andb_true_iff in null. destruct null as [ null1 null2 ].
      change "" with ("" ++ "")%string.
      constructor; [ now apply IH1 | now apply IH2 ].
    + apply orb_true_iff in null. destruct null as [ null1 | null2 ].
      * apply in_Choice_left. now apply IH1.
      * apply in_Choice_right. now apply IH2.
    + constructor.
  - intro member. remember "" as s eqn:empty.
    induction member
      as [ | class c holds | r1 r2 s1 s2 _ IH1 _ IH2 | r1 r2 s _ IH | r1 r2 s _ IH
         | r | r s1 s2 _ _ _ _ ];
      cbn [nullable]; try reflexivity; try discriminate.
    + apply append_empty in empty. destruct empty as [ -> -> ].
      now rewrite IH1, IH2.
    + now rewrite IH.
    + rewrite IH by exact empty. apply orb_true_r.
Qed.

(** A repetition that starts with [c] starts with a round that starts
    with [c]. *)
Lemma repeat_first (r : regex) (c : ascii) (s : string) :
  language (Repeat r) (String c s) ->
  exists s1 s2 : string,
    s = (s1 ++ s2)%string /\ language r (String c s1) /\ language (Repeat r) s2.
Proof.
  intro member.
  remember (Repeat r) as r' eqn:shape.
  remember (String c s) as t eqn:text.
  revert s text.
  induction member
    as [ | | | | | r0 | r0 s1 s2 round _ more IH ];
    try discriminate; intros s text.
  injection shape as ->.
  destruct s1 as [ | c1 s1 ].
  - cbn [append] in text. now apply IH.
  - cbn [append] in text. injection text as -> <-.
    now exists s1, s2.
Qed.

Lemma derivative_language (c : ascii) (r : regex) (s : string) :
  language (derivative c r) s <-> language r (String c s).
Proof.
  revert s.
  induction r as [ | | class | r1 IH1 r2 IH2 | r1 IH1 r2 IH2 | r IH ];
    intro s; cbn [derivative].
  - split; intro member; inversion member.
  - split; intro member; inversion member.
  - destruct (class c) eqn:holds.
    + split; intro member.
      * inversion member. now constructor.
      * inversion member. constructor.
    + split; intro member; inversion member. congruence.
  - split.
    + intro member.
      assert (first : forall t, language (Concat (derivative c r1) r2) t ->
                                language (Concat r1 r2) (String c t)).
      { intros t both. inversion both as [ | | r1' r2' s1 s2 left right | | | | ].
        subst. change (String c (s1 ++ s2)) with (String c s1 ++ s2)%string.
        constructor; [ now apply IH1 | exact right ]. }
      destruct (nullable r1) eqn:null; [ | now apply first ].
      inversion member as [ | | | r1' r2' t left | r1' r2' t right | | ]; subst.
      * now apply first.
      * change (String c s) with ("" ++ String c s)%string.
        constructor; [ now apply nullable_language | now apply IH2 ].
    + intro member.
      inversion member as [ | | r1' r2' s1 s2 left right | | | | ]; subst.
      match goal with
      | equation : (_ ++ _)%string = String _ _ |- _ => rename equation into text
      end.
      destruct s1 as [ | c1 s1 ].
      * cbn [append] in text. subst s2.
        apply nullable_language in left. rewrite left.
        apply in_Choice_right. now apply IH2.
      * cbn [append] in text. injection text as -> <-.
        assert (both : language (Concat (derivative c r1) r2) (s1 ++ s2)).
        { constructor; [ now apply IH1 | exact right ]. }
        destruct (nullable r1); [ now apply in_Choice_left | exact both ].
  - split; intro member.
    + inversion member; subst.
      * apply in_Choice_left. now apply IH1.
      * apply in_Choice_right. now apply IH2.
    + inversion member; subst.
      * apply in_Choice_left. now apply IH1.
      * apply in_Choice_right. now apply IH2.
  - split; intro member.
    + inversion member as [ | | r1' r2' s1 s2 left right | | | | ]; subst.
      change (String c (s1 ++ s2)) with (String c s1 ++ s2)%string.
      constructor; [ now apply IH | exact right ].
    + destruct (repeat_first r c s member) as (s1 & s2 & -> & round & more).
      constructor; [ now apply IH | exact more ].
Qed.

(** [test] decides the language. *)
Lemma test_language (r : regex) (s : string) :
  test r s = true <-> language r s.
Proof.
  revert r.
  induction s as [ | c s IH ]; intro r; cbn [test].
  - apply nullable_language.
  - rewrite IH. apply derivative_language.
Qed.

Lemma repeat_symbol (class : ascii -> bool) (s : string) :
  language (Repeat (Symbol class)) s <-> every class s = true.
Proof.
  split.
  - intro member. remember (Repeat (Symbol class)) as r eqn:shape.
    induction member
      as [ | | | | | r0 | r0 s1 s2 round _ more IH ]; try discriminate.
    + reflexivity.
    + injection shape as ->.
      rewrite every_append, IH by reflexivity.
      inversion round as [ | class' c holds | | | | | ]; subst.
      cbn [every]. now rewrite holds.
  - induction s as [ | c s IH ]; cbn [every]; intro all.
    + constructor.
    + apply andb_true_iff in all. destruct all as [ holds rest ].
      change (String c s) with (String c "" ++ s)%string.
      constructor; [ now constructor | now apply IH ].
Qed.

Lemma plus_symbol (class : ascii -> bool) (s : string) :
  language (Plus (Symbol class)) s <-> s <> "" /\ every class s = true.
Proof.
  unfold Plus. split.
  - intro member.
    inversion member as [ | | r1 r2 s1 s2 first rest | | | | ]; subst.
    inversion first as [ | class' c holds | | | | | ]; subst.
    apply repeat_symbol in rest.
    cbn [append every]. rewrite holds, rest. split; [ discriminate | reflexivity ].
  - intros [ filled all ].
    destruct s as [ | c s ]; [ contradiction | ].
    cbn [every] in all. apply andb_true_iff in all. destruct all as [ holds rest ].
    change (String c s) with (String c "" ++ s)%string.
    constructor; [ now constructor | now apply repeat_symbol ].
Qed.

Lemma symbol_char (c : ascii) (s : string) :
  language (Symbol (Ascii.eqb c)) s <-> s = String c "".
Proof.
  split.
  - intro member. inversion member as [ | class c' holds | | | | | ]; subst.
    apply Ascii.eqb_eq in holds. now subst.
  - intros ->. constructor. apply Ascii.eqb_refl.
Qed.

End RegExpFacts.

Lemma address_part_plus (s : string) :
  address_part s = true <-> RegExp.language (RegExp.Plus (RegExp.Symbol RegExp.address_char)) s.
Proof.
  rewrite RegExpFacts.plus_symbol. unfold address_part.
  rewrite andb_true_iff, negb_true_iff.
  split; intros [ filled all ]; (split; [ | exact all ]).
  - intros ->. discriminate.
  - destruct s; [ contradiction | reflexivity ].
Qed.

(** X1. [emailRegex.test] accepts exactly the texts made of a part, ["@"],
    a part, ["."] and a part, where a part is not empty and holds neither
    white space nor ["@"]; a part may hold dots. *)
Theorem emailRegex_accepts (s : string) :
  RegExp.test RegExp.emailRegex s = true
  <-> exists local domain top : string,
        s = (local ++ "@" ++ domain ++ "." ++ top)%string
        /\ address_part local = true
        /\ address_part domain = true
        /\ address_part top = true.
Proof.
  rewrite RegExpFacts.test_language. unfold RegExp.emailRegex.
  split.
  - intro member.
    inversion member as [ | | r1 r2 local s1 part1 rest1 | | | | ]; subst.
    inversion rest1 as [ | | r1 r2 at_ s2 sign rest2 | | | | ]; subst.
    inversion rest2 as [ | | r1 r2 domain s3 part2 rest3 | | | | ]; subst.
    inversion rest3 as [ | | r1 r2 dot top point part3 | | | | ]; subst.
    apply RegExpFacts.symbol_char in sign, point. subst.
    exists local, domain, top.
    split; [ reflexivity | ].
    now rewrite !address_part_plus.
  - intros (local & domain & top & -> & part1 & part2 & part3).
    apply address_part_plus in part1, part2, part3.
    constructor; [ exact part1 | ].
    change ("@" ++ domain ++ "." ++ top)%string
      with (String "@" "" ++ (domain ++ (String "." "" ++ top)))%string.
    constructor; [ now apply RegExpFacts.symbol_char | ].
    constructor; [ exact part2 | ].
    constructor; [ now apply RegExpFacts.symbol_char | exact part3 ].
Qed.

(** ** Running tasks *)

Section TaskFacts.

Context `{Ext : Externals} `{Lib : Library}.

(** A function of the subscription and login flows runs among the others
    as it runs alone. *)
Lemma run_lift {A : Type} (p : io A) (d : Database) :
  run_task (lift p) d = run p d.
Proof.
  revert d.
  induction p as [ a | e | R q k IH ]; intro d; try reflexivity.
  cbn [lift run_task run exec].
  destruct (pg q d) as [ outcome d' ]. apply IH.
Qed.

Lemma run_and_then {A B : Type} (p : task A) (f : A -> task B) (d : Database) :
  run_task (and_then p f) d
  = match run_task p d with
    | (inl e, d') => (inl e, d')
    | (inr a, d') => run_task (f a) d'
    end.
Proof.
  revert d.
  induction p as [ a | e | R q k IH ]; intro d; try reflexivity.
  cbn [and_then run_task].
  destruct (exec q d) as [ outcome d' ]. apply IH.
Qed.

Lemma run_attempt {A : Type} (p : task A) (h : exn -> task A) (d : Database) :
  run_task (attempt p h) d
  = match run_task p d with
    | (inl e, d') => run_task (h e) d'
    | (inr a, d') => (inr a, d')
    end.
Proof.
  revert d.
  induction p as [ a | e | R q k IH ]; intro d; try reflexivity.
  cbn [attempt run_task].
  destruct (exec q d) as [ outcome d' ]. apply IH.
Qed.

Lemma run_task_step {A : Type} (p : task A) (d : Database) :
  run_task p d = run_task (fst (step_task p d)) (snd (step_task p d)).
Proof.
  destruct p as [ a | e | R q k ]; try reflexivity.
  cbn [run_task step_task]. now destruct (exec q d).
Qed.

(** A handler that answers with a function of the outcome takes the
    steps of what it awaits. *)
Lemma step_replying {A B : Type} (p : task A) (ok : A -> B) (err : exn -> B)
    (d : Database) :
  step_task (attempt (a <~ p ;; Done (ok a)) (fun e => Done (err e))) d
  = (attempt (a <~ fst (step_task p d) ;; Done (ok a)) (fun e => Done (err e)),
     snd (step_task p d)).
Proof.
  destruct p as [ a | e | R q k ]; try reflexivity.
  cbn [and_then attempt step_task]. now destruct (exec q d).
Qed.

Lemma run_replying {A B : Type} (p : task A) (ok : A -> B) (err : exn -> B)
    (d : Database) :
  run_task (attempt (a <~ p ;; Done (ok a)) (fun e => Done (err e))) d
  = (inr match fst (run_task p d) with inr a => ok a | inl e => err e end,
     snd (run_task p d)).
Proof.
  rewrite run_attempt, run_and_then.
  now destruct (run_task p d) as [ [ e | a ] d' ].
Qed.

Lemma race_replying {A B : Type} (schedule : list bool) (p1 p2 : task A)
    (ok : A -> B) (err : exn -> B) (d : Database) :
  race_tasks schedule
    (attempt (a <~ p1 ;; Done (ok a)) (fun e => Done (err e)))
    (attempt (a <~ p2 ;; Done (ok a)) (fun e => Done (err e))) d
  = let '(r1, r2, d') := race_tasks schedule p1 p2 d in
    (inr match r1 with inr a => ok a | inl e => err e end,
     inr match r2 with inr a => ok a | inl e => err e end,
     d').
Proof.
  revert p1 p2 d.
  induction schedule as [ | first schedule IH ]; intros p1 p2 d.
  - cbn [race_tasks]. rewrite (run_replying p1).
    destruct (run_task p1 d) as [ r1 d1 ]. cbn [fst snd].
    rewrite (run_replying p2).
    now destruct (run_task p2 d1) as [ r2 d2 ].
  - destruct first; cbn [race_tasks].
    + rewrite (step_replying p1).
      destruct (step_task p1 d) as [ p1' d' ]. apply IH.
    + rewrite (step_replying p2).
      destruct (step_task p2 d) as [ p2' d' ]. apply IH.
Qed.

End TaskFacts.

(** ** [ORDER BY ... DESC] *)

Section Ordering.

Context {A : Type} (key : A -> Z).

Lemma insert_by_permutation (a : A) (l : list A) :
  Permutation (a :: l) (insert_by key a l).
Proof.
  induction l as [ | b l IH ]; cbn [insert_by]; [ reflexivity | ].
  destruct (key b <=? key a); [ reflexivity | ].
  rewrite perm_swap. now constructor.
Qed.

Lemma order_by_desc_permutation (l : list A) :
  Permutation l (order_by_desc key l).
Proof.
  induction l as [ | a l IH ]; cbn [order_by_desc]; [ constructor | ].
  rewrite <- insert_by_permutation. now constructor.
Qed.

Lemma insert_by_sorted (a : A) (l : list A) :
  Sorted (fun x y => key y <= key x) l ->
  Sorted (fun x y => key y <= key x) (insert_by key a l).
Proof.
  induction 1 as [ | b l sorted IH first ]; cbn [insert_by].
  - repeat constructor.
  - destruct (Z.leb_spec (key b) (key a)) as [ below | above ].
    + constructor; [ now constructor | now constructor ].
    + constructor; [ exact IH | ].
      destruct first as [ | c l next ]; cbn [insert_by].
      * constructor. lia.
      * destruct (key c <=? key a); constructor; lia.
Qed.

Lemma order_by_desc_sorted (l : list A) :
  Sorted (fun x y => key y <= key x) (order_by_desc key l).
Proof.
  induction l as [ | a l IH ]; cbn [order_by_desc]; [ constructor | ].
  now apply insert_by_sorted.
Qed.

Lemma order_by_desc_in (l : list A) (a : A) :
  In a (order_by_desc key l) <-> In a l.
Proof.
  split; apply Permutation_in;
    [ symmetry | ]; apply order_by_desc_permutation.
Qed.

Lemma order_by_desc_length (l : list A) :
  List.length (order_by_desc key l) = List.length l.
Proof.
  symmetry. apply Permutation_length, order_by_desc_permutation.
Qed.

(** The keys of sorted rows come in descending order. *)
Lemma sorted_keys (l : list A) :
  Sorted (fun x y => key y <= key x) l -> Sorted Z.ge (map key l).
Proof.
  induction 1 as [ | a l sorted IH first ]; cbn [map]; constructor.
  - exact IH.
  - destruct first; cbn [map]; constructor. lia.
Qed.

End Ordering.

(** ** Accounts *)

Lemma every_implies (f g : ascii -> bool) (s : string) :
  (forall c, f c = true -> g c = true) -> every f s = true -> every g s = true.
Proof.
  intro implies.
  induction s as [ | c s IH ]; cbn [every]; [ reflexivity | ].
  intro all. apply andb_true_iff in all. destruct all as [ holds rest ].
  now rewrite (implies c holds), IH.
Qed.

Lemma every_substring (f : ascii -> bool) (n m : nat) (s : string) :
  every f s = true -> every f (substring n m s) = true.
Proof.
  revert n m.
  induction s as [ | c s IH ]; intros n m all.
  - destruct n, m; reflexivity.
  - cbn [every] in all. apply andb_true_iff in all. destruct all as [ holds rest ].
    destruct n as [ | n ]; [ destruct m as [ | m ] | ]; cbn [substring every].
    + reflexivity.
    + now rewrite holds, IH.
    + now apply IH.
Qed.

Lemma substring_length (n m : nat) (s : string) :
  (n + m <= String.length s)%nat -> String.length (substring n m s) = m.
Proof.
  revert n m.
  induction s as [ | c s IH ]; intros n m enough; cbn [String.length] in enough.
  - destruct n, m; try reflexivity; lia.
  - destruct n as [ | n ]; [ destruct m as [ | m ] | ]; cbn [substring String.length].
    + reflexivity.
    + f_equal. apply IH. lia.
    + apply IH. lia.
Qed.

(** Spaces only, and no space: nothing. *)
Lemma all_spaces_none (s : string) :
  all_spaces s = true ->
  every (fun c => negb (Ascii.eqb c " ")) s = true ->
  s = "".
Proof.
  destruct s as [ | c s ]; [ reflexivity | ].
  cbn [all_spaces every]. intros spaces none.
  apply andb_true_iff in spaces, none.
  destruct spaces as [ space _ ], none as [ other _ ].
  rewrite space in other. discriminate.
Qed.

Lemma varchar255_fits (s : string) : fits255 s -> varchar255 s = inr s.
Proof.
  unfold fits255, varchar255. intro fits.
  now replace (String.length s <=? 255)%nat with true
    by (symmetry; now apply Nat.leb_le).
Qed.

Lemma varchar255_error (s : string) (e : exn) :
  varchar255 s = inl e -> e = PgError "22001" "".
Proof.
  unfold varchar255.
  destruct (String.length s <=? 255)%nat; [ discriminate | ].
  destruct (all_spaces _); [ discriminate | ].
  now intros [= <-].
Qed.

(** A text without spaces is stored as it is or not at all. *)
Lemma varchar255_no_space (s stored : string) :
  every (fun c => negb (Ascii.eqb c " ")) s = true ->
  varchar255 s = inr stored -> stored = s.
Proof.
  unfold varchar255. intro none.
  destruct (Nat.leb_spec (String.length s) 255) as [ fits | long ];
    [ now intros [= <-] | ].
  destruct (all_spaces _) eqn:spaces; [ | discriminate ].
  apply all_spaces_none in spaces; [ | now apply every_substring ].
  pose proof (substring_length 255 (String.length s - 255) s ltac:(lia)) as cut.
  rewrite spaces in cut. cbn [String.length] in cut. lia.
Qed.

Lemma filter_nil_existsb {A : Type} (f : A -> bool) (l : list A) :
  filter f l = [] -> existsb f l = false.
Proof.
  induction l as [ | a l IH ]; [ reflexivity | ].
  cbn [filter existsb]. destruct (f a); [ discriminate | exact IH ].
Qed.

(** The parts of a text that [emailRegex] accepts. *)
Lemma accepted_parts (s : string) :
  RegExp.test RegExp.emailRegex s = true ->
  exists local domain top : string,
    s = (local ++ "@" ++ domain ++ "." ++ top)%string
    /\ address_part local = true
    /\ address_part domain = true
    /\ address_part top = true.
Proof.
  rewrite RegExpFacts.test_language. unfold RegExp.emailRegex.
  intro member.
  inversion member as [ | | r1 r2 local s1 part1 rest1 | | | | ]; subst.
  inversion rest1 as [ | | r1 r2 at_ s2 sign rest2 | | | | ]; subst.
  inversion rest2 as [ | | r1 r2 domain s3 part2 rest3 | | | | ]; subst.
  inversion rest3 as [ | | r1 r2 dot top point part3 | | | | ]; subst.
  apply RegExpFacts.symbol_char in sign, point. subst.
  exists local, domain, top.
  split; [ reflexivity | ].
  now rewrite !address_part_plus.
Qed.

Lemma accepted_no_space (s : string) :
  RegExp.test RegExp.emailRegex s = true ->
  every (fun c => negb (Ascii.eqb c " ")) s = true.
Proof.
  intro accepted.
  destruct (accepted_parts s accepted)
    as (local & domain & top & -> & part1 & part2 & part3).
  assert (part : forall t, address_part t = true ->
                           every (fun c => negb (Ascii.eqb c " ")) t = true).
  { intros t part. unfold address_part in part.
    apply andb_true_iff in part. destruct part as [ _ all ].
    revert all. apply every_implies. intros c plain.
    destruct (Ascii.eqb_spec c " ") as [ -> | ]; [ discriminate | reflexivity ]. }
  rewrite !every_append, (part local), (part domain), (part top) by assumption.
  reflexivity.
Qed.

Section Accounts.

Context `{Ext : Externals} `{Lib : Library}.

(** The texts that an insert into [users] has taken hold no code unit
    0. *)
Lemma insert_user_texts (email password : string) (name : option string)
    (d : Database) :
  has_nul email || has_nul password
  || match name with Some n => has_nul n | None => false end = false ->
  has_nul email = false /\ has_nul password = false
  /\ forall n, name = Some n -> has_nul n = false.
Proof.
  intro clean.
  apply orb_false_iff in clean. destruct clean as [ clean third ].
  apply orb_false_iff in clean. destruct clean as [ first second ].
  repeat split; try assumption.
  intros n ->. exact third.
Qed.

Lemma insert_user_error (email password : string) (name : option string)
    (d : Database) (e : exn) :
  insert_user email password name d = inl e ->
  e = invalid_byte_sequence \/ e = PgError "22001" "" \/ e = duplicate_email.
Proof.
  unfold insert_user.
  destruct (has_nul email || has_nul password
            || match name with Some n => has_nul n | None => false end).
  { intros [= <-]. now left. }
  intro failed. right. revert failed.
  destruct (varchar255 email) as [ e1 | email' ] eqn:first.
  { intros [= <-]. left. now apply (varchar255_error email). }
  destruct (varchar255 password) as [ e2 | password' ] eqn:second.
  { intros [= <-]. left. now apply (varchar255_error password). }
  destruct name as [ n | ].
  - destruct (varchar255 n) as [ e3 | n' ] eqn:third.
    { intros [= <-]. left. now apply (varchar255_error n). }
    destruct (existsb _ (users d)); [ | discriminate ].
    intros [= <-]. now right.
  - destruct (existsb _ (users d)); [ | discriminate ].
    intros [= <-]. now right.
Qed.

Lemma insert_user_inv (email password : string) (name : option string)
    (d : Database) (row : UserRow) :
  insert_user email password name d = inr row ->
  exists (email' password' : string) (name' : option string),
    varchar255 email = inr email'
    /\ varchar255 password = inr password'
    /\ match name with
       | Some n => exists n', varchar255 n = inr n' /\ name' = Some n'
       | None => name' = None
       end
    /\ existsb (fun u => String.eqb (user_email u) email') (users d) = false
    /\ row = account_row d email' password' name'
    /\ has_nul email = false.
Proof.
  unfold insert_user.
  destruct (has_nul email || has_nul password
            || match name with Some n => has_nul n | None => false end) eqn:clean;
    [ discriminate | ].
  destruct (insert_user_texts email password name d clean) as (clean1 & _ & _).
  destruct (varchar255 email) as [ e1 | email' ]; [ discriminate | ].
  destruct (varchar255 password) as [ e2 | password' ]; [ discriminate | ].
  destruct name as [ n | ].
  - destruct (varchar255 n) as [ e3 | n' ]; [ discriminate | ].
    destruct (existsb _ (users d)) eqn:taken; [ discriminate | ].
    intros [= <-]. exists email', password', (Some n').
    split; [ reflexivity | ]. split; [ reflexivity | ].
    split; [ now exists n' | ]. split; [ exact taken | ].
    split; [ reflexivity | exact clean1 ].
  - destruct (existsb _ (users d)) eqn:taken; [ discriminate | ].
    intros [= <-]. exists email', password', None.
    split; [ reflexivity | ]. split; [ reflexivity | ].
    split; [ reflexivity | ]. split; [ exact taken | ].
    split; [ reflexivity | exact clean1 ].
Qed.

Lemma insert_user_fits (email password : string) (name : option string)
    (d : Database) :
  stored_as_is email -> stored_as_is password ->
  (forall n, name = Some n -> stored_as_is n) ->
  user_rows d email = [] ->
  insert_user email password name d = inr (account_row d email password name).
Proof.
  intros [ clean1 fits1 ] [ clean2 fits2 ] fits3 unused.
  unfold insert_user.
  rewrite clean1, clean2.
  rewrite (varchar255_fits email fits1), (varchar255_fits password fits2).
  apply filter_nil_existsb in unused.
  destruct name as [ n | ].
  - destruct (fits3 n eq_refl) as [ clean3 fits ].
    rewrite clean3. cbn [orb].
    rewrite (varchar255_fits n fits). now rewrite unused.
  - cbn [orb]. now rewrite unused.
Qed.

(** For an address that [emailRegex] accepts and that no user has, the
    unique constraint does not reject the insert. *)
Lemma insert_user_unused (email password : string) (name : option string)
    (d : Database) (e : exn) :
  RegExp.test RegExp.emailRegex email = true ->
  user_rows d email = [] ->
  insert_user email password name d = inl e ->
  e = invalid_byte_sequence \/ e = PgError "22001" "".
Proof.
  intros accepted unused failed.
  destruct (insert_user_error _ _ _ _ _ failed) as [ -> | [ -> | -> ] ];
    [ now left | now right | exfalso ].
  revert failed. unfold insert_user.
  destruct (has_nul email || has_nul password
            || match name with Some n => has_nul n | None => false end);
    [ discriminate | ].
  destruct (varchar255 email) as [ e1 | email' ] eqn:first.
  { intros [= ->]. apply varchar255_error in first. discriminate. }
  apply (varchar255_no_space email email' (accepted_no_space email accepted)) in first.
  subst email'.
  apply filter_nil_existsb in unused.
  destruct (varchar255 password) as [ e2 | password' ] eqn:second.
  { intros [= ->]. apply varchar255_error in second. discriminate. }
  destruct name as [ n | ].
  - destruct (varchar255 n) as [ e3 | n' ] eqn:third.
    { intros [= ->]. apply varchar255_error in third. discriminate. }
    now rewrite unused.
  - now rewrite unused.
Qed.

(** [signup], run alone. *)
Lemma run_signup (email password : string) (name : option string) (d : Database) :
  run_task (signup email password name) d
  = if negb (RegExp.test RegExp.emailRegex email) then
      (inl (JsError "Invalid email format"), d)
    else if (String.length password <? 8)%nat then
      (inl (JsError "Password must be at least 8 characters long"), d)
    else if has_nul email then (inl invalid_byte_sequence, d)
    else
      match user_rows d email with
      | _ :: _ => (inl email_exists, d)
      | [] =>
          match insert_user email (hashPassword password) (or_null name) d with
          | inl e => (inl e, d)
          | inr row => (inr (account row, generateToken (user_id row)), with_user d row)
          end
      end.
Proof.
  unfold signup.
  destruct (negb (RegExp.test RegExp.emailRegex email)); [ reflexivity | ].
  destruct (String.length password <? 8)%nat; [ reflexivity | ].
  cbn [ask run_task exec].
  destruct (has_nul email); [ reflexivity | ].
  destruct (user_rows d email) as [ | user rest ]; [ | reflexivity ].
  cbn [map List.length Nat.ltb Nat.leb ask run_task exec].
  now destruct (insert_user email (hashPassword password) (or_null name) d).
Qed.

(** What a [signup] that succeeds has found and done. *)
Lemma signup_success (email password : string) (name : option string)
    (d d' : Database) (result : UserDTO * string) :
  run_task (signup email password name) d = (inr result, d') ->
  RegExp.test RegExp.emailRegex email = true
  /\ (8 <= String.length password)%nat
  /\ user_rows d email = []
  /\ exists (hash : string) (stored_name : option string),
       varchar255 (hashPassword password) = inr hash
       /\ insert_user email (hashPassword password) (or_null name) d
          = inr (account_row d email hash stored_name)
       /\ result = (account (account_row d email hash stored_name),
                    generateToken (gen_random_uuid d))
       /\ d' = with_user d (account_row d email hash stored_name).
Proof.
  rewrite run_signup.
  destruct (RegExp.test RegExp.emailRegex email) eqn:accepted; [ | discriminate ].
  cbn [negb].
  destruct (Nat.ltb_spec (String.length password) 8) as [ | long ]; [ discriminate | ].
  destruct (has_nul email); [ discriminate | ].
  destruct (user_rows d email) as [ | user rest ]; [ | discriminate ].
  destruct (insert_user email (hashPassword password) (or_null name) d)
    as [ e | row ] eqn:inserted; [ discriminate | ].
  intros [= <- <-].
  destruct (insert_user_inv _ _ _ _ _ inserted)
    as (email' & hash & stored_name & first & second & _ & _ & -> & _).
  apply (varchar255_no_space email email' (accepted_no_space email accepted)) in first.
  subst email'.
  repeat split; try assumption.
  exists hash, stored_name. repeat split. exact second.
Qed.

(** The handler of [POST /auth/signup] on a body that passes the schema
    answers to the outcome of [signup]. *)
Lemma post_signup_answers (req : Request) (email password : string)
    (name : option string) :
  signupSchema_parse (req_body req) = Done (email, password, name) ->
  post_signup req
  = attempt
      (result <~ signup email password name ;;
       Done {| status := 201; body := AuthBody (snd result) (fst result) |})
      (fun error => Done (signup_error_response error)).
Proof.
  intro parsed. unfold post_signup. now rewrite parsed.
Qed.

Lemma post_signup_response (req : Request) (email password : string)
    (name : option string) (d : Database) :
  signupSchema_parse (req_body req) = Done (email, password, name) ->
  run_task (post_signup req) d
  = (inr match fst (run_task (signup email password name) d) with
         | inr result =>
             {| status := 201; body := AuthBody (snd result) (fst result) |}
         | inl error => signup_error_response error
         end,
     snd (run_task (signup email password name) d)).
Proof.
  intro parsed.
  rewrite (post_signup_answers req email password name parsed).
  apply (run_replying (signup email password name)
           (fun result => {| status := 201; body := AuthBody (snd result) (fst result) |})
           signup_error_response).
Qed.

(** X2. A [signup] with an address that [emailRegex] accepts, a password
    of eight characters or more and texts that PostgreSQL takes and the
    columns hold as they are (no code unit 0, at most 255 characters),
    for an email that no user has, adds one row to [users], with the hash
    of the password and [null] for a missing or empty name, and leaves
    the other tables alone; it returns the user without the password with
    a token for the new identifier, and [POST /auth/signup] answers 201
    with both. *)
Theorem signup_creates_account (d : Database) (email password : string)
    (name : option string) :
  RegExp.test RegExp.emailRegex email = true ->
  (8 <= String.length password)%nat ->
  user_rows d email = [] ->
  stored_as_is email ->
  stored_as_is (hashPassword password) ->
  (forall n, or_null name = Some n -> stored_as_is n) ->
  let row := account_row d email (bcrypt_hash password 10) (or_null name) in
  run_task (signup email password name) d
  = (inr (account row, generateToken (user_id row)), with_user d row)
  /\ users (with_user d row) = users d ++ [row]
  /\ courses (with_user d row) = courses d
  /\ subscriptions (with_user d row) = subscriptions d
  /\ forall req : Request,
       signupSchema_parse (req_body req) = Done (email, password, name) ->
       run_task (post_signup req) d
       = (inr {| status := 201;
                 body := AuthBody (generateToken (user_id row)) (account row) |},
          with_user d row).
Proof.
  intros accepted long unused fits1 fits2 fits3 row.
  assert (ran : run_task (signup email password name) d
                = (inr (account row, generateToken (user_id row)), with_user d row)).
  { rewrite run_signup, accepted. cbn [negb].
    replace (String.length password <? 8)%nat with false
      by (symmetry; apply Nat.ltb_ge; exact long).
    rewrite (proj1 fits1), unused.
    now rewrite (insert_user_fits email (hashPassword password) (or_null name) d
                   fits1 fits2 fits3 unused). }
  split; [ exact ran | ].
  repeat split.
  intros req parsed.
  now rewrite (post_signup_response req email password name d parsed), ran.
Qed.

Lemma user_rows_with_user (d : Database) (row : UserRow) (email : string) :
  user_rows d email = [] ->
  user_email row = email ->
  user_rows (with_user d row) email = [row].
Proof.
  intros unused same.
  unfold user_rows, with_user in *. cbn [users].
  rewrite filter_app, unused. cbn [filter app].
  now rewrite same, String.eqb_refl.
Qed.

(** X3. After a [signup] that has succeeded, [login] with the same email
    and password finds the new user and succeeds with the user that
    [signup] returned, provided bcrypt accepts the password for its own
    hash; with a password that bcrypt rejects for that hash it fails with
    "Invalid credentials". *)
Theorem signup_then_login (d d' : Database) (email password : string)
    (name : option string) (user : UserDTO) (token : string) :
  run_task (signup email password name) d = (inr (user, token), d') ->
  fits255 (hashPassword password) ->
  bcrypt_compare password (hashPassword password) = true ->
  dto_email user = email
  /\ run (login email password) d' = (inr (user, generateToken (dto_id user)), d')
  /\ forall other : string,
       bcrypt_compare other (hashPassword password) = false ->
       run (login email other) d' = (inl (JsError "Invalid credentials"), d').
Proof.
  intros success fits matches.
  destruct (signup_success email password name d d' (user, token) success)
    as (_ & _ & unused & hash & stored_name & stored & _ & result & ->).
  rewrite (varchar255_fits _ fits) in stored. injection stored as <-.
  injection result as -> ->.
  set (row := account_row d email (hashPassword password) stored_name).
  pose proof (user_rows_with_user d row email unused eq_refl) as found.
  split; [ reflexivity | ].
  split.
  - unfold login, await, comparePassword. cbn [run pg].
    fold (user_rows (with_user d row) email). rewrite found.
    cbn [user_password row account_row]. rewrite matches.
    reflexivity.
  - intros other rejected.
    unfold login, await, comparePassword. cbn [run pg].
    fold (user_rows (with_user d row) email). rewrite found.
    cbn [user_password row account_row]. rewrite rejected.
    reflexivity.
Qed.

(** [signup], run alone, by how it fails. *)
Lemma signup_outcomes (d d' : Database) (email password : string)
    (name : option string) (e : exn) :
  run_task (signup email password name) d = (inl e, d') ->
  d' = d
  /\ (e = JsError "Invalid email format"
         /\ RegExp.test RegExp.emailRegex email = false
      \/ e = JsError "Password must be at least 8 characters long"
         /\ (String.length password < 8)%nat
      \/ e = email_exists /\ user_rows d email <> []
      \/ e = invalid_byte_sequence
         /\ (has_nul email = true \/ has_nul (hashPassword password) = true
             \/ exists n, or_null name = Some n /\ has_nul n = true)
      \/ e = PgError "22001" ""
         /\ (~ fits255 email \/ ~ fits255 (hashPassword password)
             \/ exists n, or_null name = Some n /\ ~ fits255 n)).
Proof.
  intro failure.
  rewrite run_signup in failure.
  destruct (RegExp.test RegExp.emailRegex email) eqn:accepted; cbn [negb] in failure;
    [ | injection failure as <- <-; split; [ | left ]; now split ].
  destruct (Nat.ltb_spec (String.length password) 8) as [ short | long ];
    [ injection failure as <- <-; split; [ | right; left ]; now split | ].
  destruct (has_nul email) eqn:clean1;
    [ injection failure as <- <-; split;
      [ | right; right; right; left; split; [ | left ] ]; reflexivity | ].
  destruct (user_rows d email) as [ | found rest ] eqn:unused;
    [ | injection failure as <- <-; split;
        [ | right; right; left; split; [ | discriminate ] ]; reflexivity ].
  destruct (insert_user email (hashPassword password) (or_null name) d)
    as [ error | row ] eqn:inserted; [ | discriminate ].
  injection failure as <- <-.
  split; [ reflexivity | ].
  do 3 right.
  destruct (insert_user_unused _ _ _ _ _ accepted unused inserted) as [ -> | -> ].
  - left. split; [ reflexivity | ].
    revert inserted. unfold insert_user. rewrite clean1. cbn [orb].
    destruct (has_nul (hashPassword password)); [ intros _; right; now left | ].
    cbn [orb].
    destruct (or_null name) as [ n | ].
    + destruct (has_nul n) eqn:third;
        [ intros _; right; right; now exists n | ].
      destruct (varchar255 email) as [ e1 | email' ] eqn:first;
        [ intros [= ->]; apply varchar255_error in first; discriminate | ].
      destruct (varchar255 (hashPassword password)) as [ e2 | hash ] eqn:second;
        [ intros [= ->]; apply varchar255_error in second; discriminate | ].
      destruct (varchar255 n) as [ e3 | n' ] eqn:fourth;
        [ intros [= ->]; apply varchar255_error in fourth; discriminate | ].
      destruct (existsb _ (users d)); discriminate.
    + destruct (varchar255 email) as [ e1 | email' ] eqn:first;
        [ intros [= ->]; apply varchar255_error in first; discriminate | ].
      destruct (varchar255 (hashPassword password)) as [ e2 | hash ] eqn:second;
        [ intros [= ->]; apply varchar255_error in second; discriminate | ].
      destruct (existsb _ (users d)); discriminate.
  - right. split; [ reflexivity | ].
    destruct (Nat.le_gt_cases (String.length email) 255) as [ fits1 | ];
      [ | left; unfold fits255; lia ].
    destruct (Nat.le_gt_cases (String.length (hashPassword password)) 255)
      as [ fits2 | ]; [ | right; left; unfold fits255; lia ].
    right. right.
    revert inserted. unfold insert_user.
    destruct (has_nul email || has_nul (hashPassword password)
              || match or_null name with Some n => has_nul n | None => false end);
      [ discriminate | ].
    rewrite (varchar255_fits email fits1), (varchar255_fits _ fits2).
    destruct (or_null name) as [ n | ].
    + destruct (Nat.le_gt_cases (String.length n) 255) as [ fits3 | ];
        [ | intros _; exists n; split; [ reflexivity | unfold fits255; lia ] ].
      rewrite (varchar255_fits n fits3).
      destruct (existsb _ (users d)); discriminate.
    + destruct (existsb _ (users d)); discriminate.
Qed.

(** X4. A [signup] that fails leaves the database as it was. Run alone
    it fails with "Invalid email format" for an address that [emailRegex]
    refuses, with "Password must be at least 8 characters long" for a
    shorter password, with "Email already exists" when a user has the
    email, or with an error of the driver: for a text that holds the
    code unit 0, or for a text of more than 255 characters.
    [POST /auth/signup] answers 400 to the two format messages, 409 to
    "Email already exists", and 500 to the driver's errors. *)
Theorem signup_fails_without_trace (d d' : Database) (email password : string)
    (name : option string) (e : exn) :
  run_task (signup email password name) d = (inl e, d') ->
  d' = d
  /\ (e = JsError "Invalid email format"
        /\ RegExp.test RegExp.emailRegex email = false
        /\ signup_error_response e = error_response 400 "Invalid email format"
      \/ e = JsError "Password must be at least 8 characters long"
         /\ (String.length password < 8)%nat
         /\ signup_error_response e
            = error_response 400 "Password must be at least 8 characters long"
      \/ e = email_exists
         /\ user_rows d email <> []
         /\ signup_error_response e = error_response 409 "Email already exists"
      \/ e = invalid_byte_sequence
         /\ (has_nul email = true \/ has_nul (hashPassword password) = true
             \/ exists n, or_null name = Some n /\ has_nul n = true)
         /\ signup_error_response e = error_response 500 "Internal server error"
      \/ e = PgError "22001" ""
         /\ (~ fits255 email \/ ~ fits255 (hashPassword password)
             \/ exists n, or_null name = Some n /\ ~ fits255 n)
         /\ signup_error_response e = error_response 500 "Internal server error")
  /\ forall req : Request,
       signupSchema_parse (req_body req) = Done (email, password, name) ->
       run_task (post_signup req) d = (inr (signup_error_response e), d).
Proof.
  intro failure.
  destruct (signup_outcomes d d' email password name e failure) as [ -> which ].
  split; [ reflexivity | ].
  split.
  - destruct which
      as [ [ -> why ] | [ [ -> why ] | [ [ -> why ] | [ [ -> why ] | [ -> why ] ] ] ] ].
    + left. now repeat split.
    + right. left. now repeat split.
    + right. right. left. now repeat split.
    + right. right. right. left. now repeat split.
    + right. right. right. right. now repeat split.
  - intros req parsed.
    now rewrite (post_signup_response req email password name d parsed), failure.
Qed.

(** X5. A name of more than 255 characters, not all spaces from there on,
    does not fit its column: [POST /auth/signup] with an address and a
    password that pass, for an email that no user has, is answered 500
    "Internal server error", and no user is added. The error of the
    driver is the one for a text that is too long, unless one of the
    texts holds the code unit 0, which is refused before. *)
Theorem overlong_name_is_answered_500 (d : Database) (req : Request)
    (email password n : string) :
  signupSchema_parse (req_body req) = Done (email, password, Some n) ->
  RegExp.test RegExp.emailRegex email = true ->
  user_rows d email = [] ->
  (255 < String.length n)%nat ->
  all_spaces (substring 255 (String.length n - 255) n) = false ->
  run_task (signup email password (Some n)) d
  = (inl (if has_nul email || has_nul (hashPassword password) || has_nul n then
            invalid_byte_sequence
          else PgError "22001" ""), d)
  /\ run_task (post_signup req) d
     = (inr (error_response 500 "Internal server error"), d).
Proof.
  intros parsed accepted unused long filled.
  assert (checked : check_password "password" (JString password) = []).
  { unfold signupSchema_parse in parsed.
    destruct (req_body req) as [ | | flag | x | s | fields ]; try discriminate.
    destruct (check_email "email" (get_field "email" fields)) as [ | i1 l1 ];
      [ | discriminate ].
    cbn [app] in parsed.
    destruct (get_field "password" fields) as [ | | flag | x | s | fields' ] eqn:field;
      try discriminate.
    destruct (check_password "password" (JString s)) as [ | i2 l2 ] eqn:checked;
      [ | discriminate ].
    cbn [app] in parsed.
    destruct (match get_field "name" fields with
              | JUndefined | JString _ => []
              | _ => not_a_string "name" (get_field "name" fields)
              end); [ | discriminate ].
    injection parsed as _ <- _. exact checked. }
  cbn [check_password] in checked.
  destruct (String.length password <? 8)%nat eqn:short; [ discriminate | ].
  assert (ran : run_task (signup email password (Some n)) d
                = (inl (if has_nul email || has_nul (hashPassword password)
                           || has_nul n then
                          invalid_byte_sequence
                        else PgError "22001" ""), d)).
  { rewrite run_signup, accepted, short. cbn [negb].
    destruct (has_nul email) eqn:clean; [ reflexivity | ].
    rewrite unused. cbn [orb].
    assert (named : or_null (Some n) = Some n).
    { cbn [or_null]. destruct n; [ cbn [String.length] in long; lia | reflexivity ]. }
    rewrite named.
    assert (refused : varchar255 n = inl (PgError "22001" "")).
    { unfold varchar255.
      replace (String.length n <=? 255)%nat with false
        by (symmetry; apply Nat.leb_gt; exact long).
      now rewrite filled. }
    unfold insert_user. rewrite clean. cbn [orb].
    destruct (has_nul (hashPassword password) || has_nul n); [ reflexivity | ].
    rewrite refused.
    destruct (varchar255 email) as [ e1 | email' ] eqn:first;
      [ now rewrite (varchar255_error email e1 first) | ].
    destruct (varchar255 (hashPassword password)) as [ e2 | hash ] eqn:second;
      [ now rewrite (varchar255_error _ e2 second) | reflexivity ]. }
  split; [ exact ran | ].
  rewrite (post_signup_response req email password (Some n) d parsed), ran.
  now destruct (has_nul email || has_nul (hashPassword password) || has_nul n).
Qed.

(** What [signupSchema.parse] does with a body: it throws a [ZodError],
    or the body holds a password of eight characters or more. *)
Lemma signupSchema_parse_cases (b : json) :
  (exists issues, signupSchema_parse b = Failed (ZodError issues))
  \/ (exists (email password : string) (name : option string),
        (8 <= String.length password)%nat
        /\ signupSchema_parse b = Done (email, password, name)).
Proof.
  destruct b as [ | | flag | x | s | fields ]; try (left; eexists; reflexivity).
  unfold signupSchema_parse.
  destruct (check_email "email" (get_field "email" fields)) as [ | i1 l1 ];
    [ | left; eexists; reflexivity ].
  cbn [app].
  destruct (get_field "password" fields) as [ | | flag | x | password | nested ];
    try (left; eexists; reflexivity).
  cbn [check_password string_of].
  destruct (Nat.ltb_spec (String.length password) 8) as [ short | long ];
    [ left; eexists; reflexivity | ].
  cbn [app].
  destruct (match get_field "name" fields with
            | JUndefined | JString _ => []
            | _ => not_a_string "name" (get_field "name" fields)
            end);
    [ | left; eexists; reflexivity ].
  right. eexists. exists password. eexists. split; [ exact long | reflexivity ].
Qed.

(** X6. Every [POST /auth/signup] whose password is shorter than eight
    characters is answered 400 with the validation details by the schema
    of the route, and no query is made. The check of the length in
    [AuthService.signup] therefore never decides: no request is answered
    with its message "Password must be at least 8 characters long" as
    the error. *)
Theorem short_password_is_rejected_before_signup (req : Request)
    (fields : list (string * json)) (password : string) :
  req_body req = JObject fields ->
  get_field "password" fields = JString password ->
  (String.length password < 8)%nat ->
  (exists issues : list (string * string),
     post_signup req = Done (validation_failed issues)
     /\ In ("password", "Password must be at least 8 characters long") issues)
  /\ forall (req' : Request) (d : Database) (response : Response),
       fst (run_task (post_signup req') d) = inr response ->
       body response <> ErrorBody "Password must be at least 8 characters long".
Proof.
  intros object field short.
  split.
  - unfold post_signup, signupSchema_parse. rewrite object, field.
    unfold check_password.
    replace (String.length password <? 8)%nat with true
      by (symmetry; apply Nat.ltb_lt; exact short).
    destruct (check_email "email" (get_field "email" fields)) as [ | issue issues ];
      cbn [app];
      destruct (match get_field "name" fields with
                | JUndefined | JString _ => []
                | _ => not_a_string "name" (get_field "name" fields)
                end);
      eexists; (split; [ reflexivity | ]).
    + now left.
    + now left.
    + right. apply in_or_app. right. now left.
    + right. apply in_or_app. right. now left.
  - intros req' d response answered.
    destruct (signupSchema_parse_cases (req_body req'))
      as [ [ issues thrown ] | (email & password' & name & long & parsed) ].
    + unfold post_signup in answered. rewrite thrown in answered.
      cbn in answered. injection answered as <-. discriminate.
    + rewrite (post_signup_response req' email password' name d parsed) in answered.
      cbn [fst] in answered. injection answered as <-.
      rewrite run_signup.
      replace (String.length password' <? 8)%nat with false
        by (symmetry; apply Nat.ltb_ge; exact long).
      destruct (negb (RegExp.test RegExp.emailRegex email)); [ discriminate | ].
      destruct (has_nul email); [ discriminate | ].
      destruct (user_rows d email) as [ | found rest ]; [ | discriminate ].
      destruct (insert_user email (hashPassword password') (or_null name) d)
        as [ error | row ] eqn:inserted; [ | discriminate ].
      cbn [fst].
      destruct (insert_user_error _ _ _ _ _ inserted) as [ -> | [ -> | -> ] ];
        discriminate.
Qed.

End Accounts.

(** ** What the statements keep *)

Section Keeping.

Context `{Ext : Externals} `{Lib : Library}.

Lemma pg_courses {R : Type} (q : query R) (d : Database) :
  courses (snd (pg q d)) = courses d.
Proof.
  destruct q as [ u c | c | u c x | email ]; try reflexivity.
  cbn [pg]. now destruct (insert_subscription u c x d).
Qed.

(** No statement removes or changes a subscription. *)
Lemma pg_subscriptions {R : Type} (q : query R) (d : Database) (s : SubscriptionRow) :
  In s (subscriptions d) -> In s (subscriptions (snd (pg q d))).
Proof.
  intro present.
  destruct q as [ u c | c | u c x | email ]; try exact present.
  cbn [pg]. destruct (insert_subscription u c x d); [ exact present | ].
  cbn [snd subscriptions]. apply in_or_app. now left.
Qed.

Lemma exec_courses {R : Type} (q : statement R) (d : Database) :
  courses (snd (exec q d)) = courses d.
Proof.
  destruct q as [ R q | email | email password name | | id | u ]; try reflexivity.
  - apply pg_courses.
  - cbn [exec]. now destruct (has_nul email).
  - cbn [exec]. now destruct (insert_user email password name d).
  - cbn [exec]. destruct (has_nul id); [ reflexivity | ]. now destruct (uuid_in id).
Qed.

Lemma exec_subscriptions {R : Type} (q : statement R) (d : Database)
    (s : SubscriptionRow) :
  In s (subscriptions d) -> In s (subscriptions (snd (exec q d))).
Proof.
  intro present.
  destruct q as [ R q | email | email password name | | id | u ]; try exact present.
  - now apply pg_subscriptions.
  - cbn [exec]. now destruct (has_nul email).
  - cbn [exec]. now destruct (insert_user email password name d).
  - cbn [exec]. destruct (has_nul id); [ exact present | ]. now destruct (uuid_in id).
Qed.

(** What every statement keeps is kept by every function, by two
    functions whose statements are interleaved, and by the server
    whatever happens. *)

Variable kept : Database -> Prop.

Hypothesis exec_kept :
  forall (R : Type) (q : statement R) (d : Database), kept d -> kept (snd (exec q d)).

Lemma step_task_kept {A : Type} (p : task A) (d : Database) :
  kept d -> kept (snd (step_task p d)).
Proof.
  intro holds.
  destruct p as [ a | e | R q k ]; try exact holds.
  cbn [step_task].
  pose proof (exec_kept R q d holds) as still.
  now destruct (exec q d).
Qed.

Lemma run_task_kept {A : Type} (p : task A) (d : Database) :
  kept d -> kept (snd (run_task p d)).
Proof.
  revert d.
  induction p as [ a | e | R q k IH ]; intros d holds; try exact holds.
  cbn [run_task].
  pose proof (exec_kept R q d holds) as still.
  destruct (exec q d) as [ outcome d' ].
  now apply IH.
Qed.

Lemma race_tasks_kept {A B : Type} (schedule : list bool) (p1 : task A) (p2 : task B)
    (d : Database) :
  kept d -> kept (snd (race_tasks schedule p1 p2 d)).
Proof.
  revert p1 p2 d.
  induction schedule as [ | first schedule IH ]; intros p1 p2 d holds.
  - cbn [race_tasks].
    pose proof (run_task_kept p1 d holds) as still1.
    destruct (run_task p1 d) as [ r1 d1 ].
    pose proof (run_task_kept p2 d1 still1) as still2.
    now destruct (run_task p2 d1) as [ r2 d2 ].
  - destruct first; cbn [race_tasks].
    + pose proof (step_task_kept p1 d holds) as still.
      destruct (step_task p1 d) as [ p1' d' ]. now apply IH.
    + pose proof (step_task_kept p2 d holds) as still.
      destruct (step_task p2 d) as [ p2' d' ]. now apply IH.
Qed.

Lemma proceed_kept {A : Type} (i : nat) (running : list (task A)) (d : Database) :
  kept d -> kept (snd (proceed i running d)).
Proof.
  revert i.
  induction running as [ | p running IH ]; intros i holds; [ exact holds | ].
  destruct i as [ | i ]; cbn [proceed].
  - pose proof (step_task_kept p d holds) as still.
    now destruct (step_task p d).
  - specialize (IH i holds). now destruct (proceed i running d).
Qed.

Lemma serve_kept (events : list event) (running : list (task Reply)) (d : Database) :
  kept d -> kept (snd (serve events running d)).
Proof.
  revert running d.
  induction events as [ | [ r | i ] events IH ]; intros running d holds;
    cbn [serve]; [ exact holds | now apply IH | ].
  pose proof (proceed_kept i running d holds) as still.
  destruct (proceed i running d) as [ running' d' ]. now apply IH.
Qed.

Lemma after_kept (events : list event) (d : Database) :
  kept d -> kept (after events d).
Proof. apply serve_kept. Qed.

End Keeping.

(** ** Two signups for the same email, in any interleaving *)

Section SignupRacing.

Context `{Ext : Externals} `{Lib : Library}.

Variables (d : Database) (email password : string) (name : option string).
Variable row : UserRow.

Hypothesis accepted : RegExp.test RegExp.emailRegex email = true.
Hypothesis long : (8 <= String.length password)%nat.
Hypothesis unused : user_rows d email = [].
Hypothesis inserted :
  insert_user email (hashPassword password) (or_null name) d = inr row.

Let d1 : Database := with_user d row.
Let created : UserDTO * string := (account row, generateToken (user_id row)).
Let checking : task (UserDTO * string) := signup email password name.
Let inserting : task (UserDTO * string) := fst (step_task checking d).

Lemma inserted_email : user_email row = email.
Proof.
  destruct (insert_user_inv _ _ _ _ _ inserted)
    as (email' & hash & stored_name & first & _ & _ & _ & -> & _).
  cbn [user_email account_row].
  exact (varchar255_no_space email email' (accepted_no_space email accepted) first).
Qed.

Lemma inserted_clean : has_nul email = false.
Proof.
  now destruct (insert_user_inv _ _ _ _ _ inserted)
    as (email' & hash & stored_name & _ & _ & _ & _ & _ & clean).
Qed.

Lemma insert_user_late :
  insert_user email (hashPassword password) (or_null name) d1 = inl duplicate_email.
Proof.
  destruct (insert_user_inv _ _ _ _ _ inserted)
    as (email' & hash & stored_name & first & second & third & _ & same & _).
  assert (clean : has_nul email || has_nul (hashPassword password)
                  || match or_null name with Some n => has_nul n | None => false end
                  = false).
  { revert inserted. unfold insert_user.
    now destruct (has_nul email || has_nul (hashPassword password)
                  || match or_null name with Some n => has_nul n | None => false end). }
  unfold insert_user. rewrite clean, first, second.
  assert (taken : existsb (fun u => String.eqb (user_email u) email') (users d1) = true).
  { unfold d1, with_user. cbn [users]. rewrite existsb_app.
    apply orb_true_iff. right. cbn [existsb].
    rewrite same. cbn [user_email account_row]. now rewrite String.eqb_refl. }
  destruct (or_null name) as [ n | ].
  - destruct third as (n' & -> & _). now rewrite taken.
  - now rewrite taken.
Qed.

Lemma short_password : (String.length password <? 8)%nat = false.
Proof. apply Nat.ltb_ge. exact long. Qed.

Lemma signup_step_checking : step_task checking d = (inserting, d).
Proof.
  unfold inserting.
  assert (same : snd (step_task checking d) = d).
  { unfold checking, signup. rewrite accepted, short_password.
    cbn [negb ask step_task exec]. now rewrite inserted_clean. }
  destruct (step_task checking d) as [ next d' ]. cbn [fst snd] in *.
  now subst d'.
Qed.

Lemma signup_step_checking_late : step_task checking d1 = (Failed email_exists, d1).
Proof.
  unfold checking, signup. rewrite accepted, short_password.
  cbn [negb ask step_task exec]. rewrite inserted_clean.
  unfold d1. rewrite (user_rows_with_user d row email unused inserted_email).
  reflexivity.
Qed.

Lemma signup_step_inserting : step_task inserting d = (Done created, d1).
Proof.
  unfold inserting, checking, signup. rewrite accepted, short_password.
  cbn [negb ask step_task exec fst]. rewrite inserted_clean. cbn [fst]. rewrite unused.
  cbn [map List.length Nat.ltb Nat.leb ask step_task exec].
  now rewrite inserted.
Qed.

Lemma signup_step_inserting_late :
  step_task inserting d1 = (Failed duplicate_email, d1).
Proof.
  unfold inserting, checking, signup. rewrite accepted, short_password.
  cbn [negb ask step_task exec fst]. rewrite inserted_clean. cbn [fst]. rewrite unused.
  cbn [map List.length Nat.ltb Nat.leb ask step_task exec].
  now rewrite insert_user_late.
Qed.

Let underway (p : task (UserDTO * string)) : Prop :=
  p = checking \/ p = inserting.
Let behind (p : task (UserDTO * string)) : Prop :=
  underway p \/ p = Failed email_exists \/ p = Failed duplicate_email.
Let configuration (p1 p2 : task (UserDTO * string)) (e : Database) : Prop :=
  (e = d /\ underway p1 /\ underway p2)
  \/ (e = d1 /\ p1 = Done created /\ behind p2)
  \/ (e = d1 /\ behind p1 /\ p2 = Done created).
Let ending
    (result : (exn + UserDTO * string) * (exn + UserDTO * string) * Database) : Prop :=
  exists error : exn,
    (error = email_exists \/ error = duplicate_email)
    /\ (result = (inr created, inl error, d1) \/ result = (inl error, inr created, d1)).

Lemma signup_underway_step (p : task (UserDTO * string)) :
  underway p ->
  (snd (step_task p d) = d /\ underway (fst (step_task p d)))
  \/ step_task p d = (Done created, d1).
Proof.
  intros [ -> | -> ].
  - left. rewrite signup_step_checking. split; [ reflexivity | now right ].
  - right. exact signup_step_inserting.
Qed.

Lemma signup_behind_step (p : task (UserDTO * string)) :
  behind p -> snd (step_task p d1) = d1 /\ behind (fst (step_task p d1)).
Proof.
  intros [ [ -> | -> ] | [ -> | -> ] ].
  - rewrite signup_step_checking_late. split; [ reflexivity | right; now left ].
  - rewrite signup_step_inserting_late. split; [ reflexivity | right; now right ].
  - split; [ reflexivity | right; now left ].
  - split; [ reflexivity | right; now right ].
Qed.

Lemma signup_underway_first (p : task (UserDTO * string)) :
  underway p -> run_task p d = (inr created, d1).
Proof.
  intros [ -> | -> ].
  - rewrite run_task_step, signup_step_checking. cbn [fst snd].
    now rewrite run_task_step, signup_step_inserting.
  - now rewrite run_task_step, signup_step_inserting.
Qed.

Lemma signup_behind_late (p : task (UserDTO * string)) :
  behind p ->
  exists error : exn,
    (error = email_exists \/ error = duplicate_email)
    /\ run_task p d1 = (inl error, d1).
Proof.
  intros [ [ -> | -> ] | [ -> | -> ] ].
  - exists email_exists. split; [ now left | ].
    now rewrite run_task_step, signup_step_checking_late.
  - exists duplicate_email. split; [ now right | ].
    now rewrite run_task_step, signup_step_inserting_late.
  - exists email_exists. split; [ now left | reflexivity ].
  - exists duplicate_email. split; [ now right | reflexivity ].
Qed.

Lemma signup_race_configuration (schedule : list bool)
    (p1 p2 : task (UserDTO * string)) (e : Database) :
  configuration p1 p2 e -> ending (race_tasks schedule p1 p2 e).
Proof.
  revert p1 p2 e.
  induction schedule as [ | first schedule IH ]; intros p1 p2 e.
  - intros [ (-> & busy1 & busy2) | [ (-> & -> & late) | (-> & late & ->) ] ];
      cbn [race_tasks].
    + rewrite (signup_underway_first p1 busy1).
      destruct (signup_behind_late p2 (or_introl busy2)) as (error & which & ->).
      exists error. split; [ exact which | now left ].
    + destruct (signup_behind_late p2 late) as (error & which & failed).
      cbn [run_task]. rewrite failed.
      exists error. split; [ exact which | now left ].
    + destruct (signup_behind_late p1 late) as (error & which & ->).
      exists error. split; [ exact which | now right ].
  - intros [ (-> & busy1 & busy2) | [ (-> & -> & late) | (-> & late & ->) ] ];
      destruct first; cbn [race_tasks].
    + destruct (signup_underway_step p1 busy1) as [ (same & busy) | -> ].
      * destruct (step_task p1 d) as [ p1' e' ]. cbn [fst snd] in *. subst e'.
        apply IH. left. now repeat split.
      * apply IH. right. left. repeat split. now left.
    + destruct (signup_underway_step p2 busy2) as [ (same & busy) | -> ].
      * destruct (step_task p2 d) as [ p2' e' ]. cbn [fst snd] in *. subst e'.
        apply IH. left. now repeat split.
      * apply IH. right. right. repeat split. now left.
    + cbn [step_task]. apply IH. right. left. now repeat split.
    + destruct (signup_behind_step p2 late) as (same & still).
      destruct (step_task p2 d1) as [ p2' e' ]. cbn [fst snd] in *. subst e'.
      apply IH. right. left. now repeat split.
    + destruct (signup_behind_step p1 late) as (same & still).
      destruct (step_task p1 d1) as [ p1' e' ]. cbn [fst snd] in *. subst e'.
      apply IH. right. right. now repeat split.
    + cbn [step_task]. apply IH. right. right. now repeat split.
Qed.

Lemma race_of_two_signups (schedule : list bool) :
  exists error : exn,
    (error = email_exists \/ error = duplicate_email)
    /\ (race_tasks schedule (signup email password name) (signup email password name) d
        = (inr created, inl error, d1)
        \/ race_tasks schedule (signup email password name)
             (signup email password name) d
           = (inl error, inr created, d1)).
Proof.
  apply (signup_race_configuration schedule checking checking d).
  left. repeat split; now left.
Qed.

(** The first passes the check, the second runs its two statements, then
    the first goes on. *)
Lemma signup_insert_rejected :
  race_tasks [true; false; false] (signup email password name)
    (signup email password name) d
  = (inl duplicate_email, inr created, d1).
Proof.
  change (signup email password name) with checking.
  cbn [race_tasks]. rewrite signup_step_checking.
  cbn [race_tasks]. rewrite signup_step_checking.
  cbn [race_tasks]. rewrite signup_step_inserting.
  cbn [race_tasks].
  now rewrite run_task_step, signup_step_inserting_late.
Qed.

End SignupRacing.

Section RacingSignups.

Context `{Ext : Externals} `{Lib : Library}.

(** X8. Two equal requests to [POST /auth/signup], each of which would
    succeed alone, in any interleaving: one creates the account and is
    answered 201; the other fails at the check and is answered 409, or
    at the unique constraint on the email, whose error nothing maps, and
    is answered 500; one user is added. The constraint does reject an
    insert: when the first passes the check, the second runs its two
    statements and the first goes on, the first is answered 500. A
    request that comes after the account exists is answered 409. *)
Theorem racing_signups (d d' : Database) (req : Request) (email password : string)
    (name : option string) (user : UserDTO) (token : string) :
  signupSchema_parse (req_body req) = Done (email, password, name) ->
  run_task (signup email password name) d = (inr (user, token), d') ->
  (forall schedule : list bool,
     exists (error : exn) (answer : Response),
       (error = email_exists
        /\ answer = error_response 409 "Email already exists"
        \/ error = duplicate_email
           /\ answer = error_response 500 "Internal server error")
       /\ (race_tasks schedule (signup email password name)
             (signup email password name) d
           = (inr (user, token), inl error, d')
           /\ race_tasks schedule (post_signup req) (post_signup req) d
              = (inr {| status := 201; body := AuthBody token user |},
                 inr answer, d')
           \/ race_tasks schedule (signup email password name)
                (signup email password name) d
              = (inl error, inr (user, token), d')
              /\ race_tasks schedule (post_signup req) (post_signup req) d
                 = (inr answer,
                    inr {| status := 201; body := AuthBody token user |},
                    d')))
  /\ race_tasks [true; false; false] (post_signup req) (post_signup req) d
     = (inr (error_response 500 "Internal server error"),
        inr {| status := 201; body := AuthBody token user |},
        d')
  /\ run_task (post_signup req) d'
     = (inr (error_response 409 "Email already exists"), d')
  /\ List.length (users d') = S (List.length (users d)).
Proof.
  intros parsed success.
  destruct (signup_success email password name d d' (user, token) success)
    as (accepted & long & unused & hash & stored_name & _ & inserted & result & ->).
  injection result as -> ->.
  pose proof (post_signup_answers req email password name parsed) as answers.
  set (row := account_row d email hash stored_name) in *.
  split; [ | split; [ | split ] ].
  - intro schedule.
    destruct (race_of_two_signups d email password name row accepted long unused
                inserted schedule) as (error & which & ended).
    exists error, (signup_error_response error).
    split.
    { destruct which as [ -> | -> ];
        [ left; split; reflexivity | right; split; reflexivity ]. }
    rewrite answers, race_replying.
    destruct ended as [ ended | ended ]; [ left | right ];
      (split; [ exact ended | now rewrite ended ]).
  - rewrite answers, race_replying.
    now rewrite (signup_insert_rejected d email password name row accepted long
                   unused inserted).
  - rewrite (post_signup_response req email password name _ parsed).
    rewrite run_signup, accepted.
    replace (String.length password <? 8)%nat with false
      by (symmetry; apply Nat.ltb_ge; exact long).
    rewrite (inserted_clean d email password name row inserted).
    now rewrite (user_rows_with_user d row email unused
                   (inserted_email d email password name row accepted inserted)).
  - unfold with_user. cbn [users]. rewrite length_app. cbn [List.length]. lia.
Qed.

End RacingSignups.

(** ** Courses and subscriptions, read back *)

Lemma filter_unique {A : Type} (key : A -> string) (l : list A) (a : A) :
  NoDup (map key l) ->
  In a l ->
  filter (fun x => String.eqb (key x) (key a)) l = [a].
Proof.
  induction l as [ | b l IH ]; intros unique present; [ contradiction | ].
  cbn [map] in unique. apply NoDup_cons_iff in unique.
  destruct unique as [ fresh unique ].
  cbn [filter].
  destruct present as [ -> | later ].
  - rewrite String.eqb_refl. f_equal.
    apply filter_none. apply not_true_is_false. intro again.
    apply existsb_exists in again. destruct again as (x & present & same).
    apply String.eqb_eq in same.
    apply fresh. rewrite <- same. now apply in_map.
  - destruct (String.eqb_spec (key b) (key a)) as [ same | ].
    + exfalso. apply fresh. rewrite same. now apply in_map.
    + now apply IH.
Qed.

Section Reading.

Context `{Ext : Externals} `{Lib : Library}.

Lemma run_getAllCourses (d : Database) :
  run_task getAllCourses d
  = (inr (map course_shown (order_by_desc course_created_at (courses d))), d).
Proof.
  unfold getAllCourses, ask. cbn [run_task exec].
  now rewrite map_map.
Qed.

Lemma run_getCourseById (d : Database) (id : string) :
  run_task (getCourseById id) d
  = if has_nul id then (inl invalid_byte_sequence, d)
    else
      match uuid_in id with
      | Some value =>
          (inr match course_rows d value with
               | [] => None
               | row :: _ => Some (course_shown row)
               end, d)
      | None => (inl (PgError "22P02" id), d)
      end.
Proof.
  unfold getCourseById, ask. cbn [run_task exec].
  destruct (has_nul id); [ reflexivity | ].
  destruct (uuid_in id) as [ value | ]; [ | reflexivity ].
  now destruct (course_rows d value).
Qed.

Lemma run_getUserSubscriptions (d : Database) (u : uuid) :
  run_task (getUserSubscriptions u) d
  = (inr (map listing
            (order_by_desc (fun pair => subscription_subscribed_at (fst pair))
               (subscriptions_joined d u))), d).
Proof.
  unfold getUserSubscriptions, ask. cbn [run_task exec].
  now rewrite map_map.
Qed.

Lemma in_subscriptions_joined (d : Database) (u : uuid) (s : SubscriptionRow)
    (c : CourseRow) :
  In (s, c) (subscriptions_joined d u)
  <-> In s (subscriptions d) /\ subscription_user_id s = u
      /\ In c (courses d) /\ course_id c = subscription_course_id s.
Proof.
  unfold subscriptions_joined.
  rewrite in_flat_map. split.
  - intros (s' & mine & paired).
    apply filter_In in mine. destruct mine as [ present mine ].
    apply in_map_iff in paired. destruct paired as (c' & same & course).
    injection same as -> ->.
    apply filter_In in course. destruct course as [ listed equal ].
    apply String.eqb_eq in mine, equal.
    now repeat split.
  - intros (present & mine & listed & equal).
    exists s. split.
    + apply filter_In. split; [ exact present | ]. now apply String.eqb_eq.
    + apply in_map. apply filter_In. split; [ exact listed | ].
      now apply String.eqb_eq.
Qed.

(** With the constraints of the schema, the join has one row for each
    subscription of the user. *)
Lemma subscriptions_joined_once (d : Database) (u : uuid) :
  unique_courses d ->
  references_hold d ->
  map fst (subscriptions_joined d u) = subscriptions_of_user d u.
Proof.
  unfold unique_courses, references_hold, subscriptions_joined, subscriptions_of_user.
  intros keyed hold.
  induction (subscriptions d) as [ | s l IH ]; [ reflexivity | ].
  apply Forall_cons_iff in hold. destruct hold as [ [ _ listed ] hold ].
  cbn [filter].
  destruct (String.eqb (subscription_user_id s) u); [ | now apply IH ].
  cbn [flat_map]. rewrite map_app, (IH hold).
  unfold has_course in listed. apply existsb_exists in listed.
  destruct listed as (c & present & same). apply String.eqb_eq in same.
  assert (one : filter (fun c0 => String.eqb (subscription_course_id s) (course_id c0))
                  (courses d) = [c]).
  { rewrite <- same.
    rewrite <- (filter_unique course_id (courses d) c keyed present).
    apply filter_ext. intro c0. apply String.eqb_sym. }
  rewrite one. reflexivity.
Qed.

(** X9. [getUserSubscriptions] leaves the database alone and returns,
    most recent first, the subscriptions of the user and of nobody else,
    each with its course as [CourseService] shows it; with the
    constraints of the schema, each subscription of the user once. *)
Theorem my_courses_lists_own_subscriptions (d : Database) (u : uuid) :
  exists pairs : list (SubscriptionRow * CourseRow),
    run_task (getUserSubscriptions u) d = (inr (map listing pairs), d)
    /\ (forall s c,
          In (s, c) pairs
          <-> In s (subscriptions d) /\ subscription_user_id s = u
              /\ In c (courses d) /\ course_id c = subscription_course_id s)
    /\ (forall s c,
          In (s, c) pairs ->
          subscription (listing (s, c)) = subscription_of s
          /\ userId (subscription (listing (s, c))) = u
          /\ course (listing (s, c)) = course_shown c)
    /\ Sorted Z.ge (map (fun item => subscribedAt (subscription item)) (map listing pairs))
    /\ (unique_courses d -> references_hold d ->
        Permutation (map fst pairs) (subscriptions_of_user d u)).
Proof.
  set (key := fun pair : SubscriptionRow * CourseRow =>
                subscription_subscribed_at (fst pair)).
  exists (order_by_desc key (subscriptions_joined d u)).
  split; [ apply run_getUserSubscriptions | ].
  assert (member : forall s c,
            In (s, c) (order_by_desc key (subscriptions_joined d u))
            <-> In s (subscriptions d) /\ subscription_user_id s = u
                /\ In c (courses d) /\ course_id c = subscription_course_id s).
  { intros s c. rewrite order_by_desc_in. apply in_subscriptions_joined. }
  split; [ exact member | ].
  split.
  { intros s c present. apply member in present.
    destruct present as (_ & mine & _ & same).
    split; [ | split; [ exact mine | reflexivity ] ].
    unfold listing, subscription_with_course, joined_row, subscription_of.
    cbn [subscription joined_id joined_user_id joined_course_id joined_price_paid
           joined_subscribed_at].
    now rewrite same. }
  split.
  { rewrite map_map.
    rewrite (map_ext _ key) by (intros [ s c ]; reflexivity).
    apply (sorted_keys key (order_by_desc key (subscriptions_joined d u))
             (order_by_desc_sorted key _)). }
  intros keyed hold.
  rewrite <- (subscriptions_joined_once d u keyed hold).
  apply Permutation_map. symmetry. apply order_by_desc_permutation.
Qed.

Lemma subscriptions_joined_courses (d d' : Database) (u : uuid) :
  courses d' = courses d ->
  subscriptions_of_user d' u = subscriptions_of_user d u ->
  subscriptions_joined d' u = subscriptions_joined d u.
Proof.
  unfold subscriptions_joined, subscriptions_of_user.
  now intros -> ->.
Qed.

Lemma subscriptions_of_other (d : Database) (s : SubscriptionRow) (u : uuid) :
  subscription_user_id s <> u ->
  subscriptions_of_user (with_subscription d s) u = subscriptions_of_user d u.
Proof.
  intro other. unfold subscriptions_of_user, with_subscription. cbn [subscriptions].
  rewrite filter_app. cbn [filter].
  destruct (String.eqb_spec (subscription_user_id s) u); [ contradiction | ].
  apply app_nil_r.
Qed.

(** What the pricing step throws. *)
Lemma price_to_pay_throws (course : Course) (promoCode : option string) (e : exn) :
  price_to_pay course promoCode = Throw e ->
  e = JsError "Promo code required for paid courses" /\ falsy promoCode = true
  \/ e = JsError "Invalid promo code" /\ promoCode <> Some "BFSALE25".
Proof.
  unfold price_to_pay.
  destruct (strict_eq _ zero); [ discriminate | ].
  destruct (falsy promoCode) eqn:missing; [ intros [= <-]; now left | ].
  unfold validatePromoCode.
  destruct (String.eqb_spec (promo_or_empty promoCode) VALID_PROMO_CODE)
    as [ same | other ]; cbn [valid negb]; [ discriminate | ].
  intros [= <-]. right. split; [ reflexivity | ].
  intros ->. now apply other.
Qed.

(** [subscribe], run alone, by what it finds. *)
Lemma subscribe_outcomes (d d' : Database) (u c : uuid) (promoCode : option string)
    (e : exn) :
  run (subscribe u c promoCode) d = (inl e, d') ->
  d' = d
  /\ (e = already_subscribed /\ is_subscribed d u c = true
      \/ e = JsError "Course not found"
         /\ is_subscribed d u c = false /\ course_rows d c = []
      \/ e = JsError "Promo code required for paid courses" /\ falsy promoCode = true
      \/ e = JsError "Invalid promo code" /\ promoCode <> Some "BFSALE25"
      \/ e = PgError "22003" ""
      \/ e = PgError "23503" "subscriptions_user_id_fkey" /\ has_user d u = false).
Proof.
  intro failure.
  destruct (is_subscribed d u c) eqn:free.
  { rewrite (subscribe_subscribed d u c promoCode free) in failure.
    injection failure as <- <-. split; [ reflexivity | now left ]. }
  destruct (course_rows d c) as [ | row rest ] eqn:found.
  { rewrite (subscribe_no_course d u c promoCode free found) in failure.
    injection failure as <- <-. split; [ reflexivity | right; now left ]. }
  destruct (price_to_pay_cases (course_object row) promoCode)
    as [ [ x priced ] | [ thrown throws ] ].
  - rewrite (subscribe_priced d u c promoCode row rest x free found priced) in failure.
    destruct (insert_subscription u c x d) as [ error | s ] eqn:inserted;
      [ | discriminate ].
    injection failure as <- <-. split; [ reflexivity | ].
    unfold insert_subscription in inserted.
    destruct x as [ sign | sign | | sign m exponent ]; cbn [numeric_in] in inserted.
    1, 3: fold (is_subscribed d u c) in inserted; rewrite free in inserted;
      fold (has_user d u) in inserted;
      destruct (has_user d u); cbn [negb] in inserted;
      [ apply filter_cons_existsb in found; fold (has_course d c) in inserted;
        unfold has_course in inserted; rewrite found in inserted; discriminate
      | injection inserted as <-; do 5 right; now split ].
    + injection inserted as <-. do 4 right. now left.
    + destruct (10 ^ 10 <=? nearest_hundredths m exponent);
        [ injection inserted as <-; do 4 right; now left | ].
      fold (is_subscribed d u c) in inserted. rewrite free in inserted.
      fold (has_user d u) in inserted.
      destruct (has_user d u); cbn [negb] in inserted;
        [ apply filter_cons_existsb in found; rewrite found in inserted; discriminate
        | injection inserted as <-; do 5 right; now split ].
  - rewrite (subscribe_no_price d u c promoCode row rest thrown free found throws)
      in failure.
    injection failure as <- <-. split; [ reflexivity | ].
    destruct (price_to_pay_throws _ _ _ throws) as [ [ -> missing ] | [ -> other ] ].
    + right. right. left. now split.
    + right. right. right. left. now split.
Qed.

(** X10. A [subscribe] that fails leaves the database as it was. Run
    alone it fails with one of its four messages, which
    [POST /subscribe] answers with 409, 404 and 400, or at the insert,
    with the driver's error for an amount of more than ten digits or for
    a user that does not exist, which is answered 500. *)
Theorem subscribe_fails_without_trace (d d' : Database) (u c : uuid)
    (promoCode : option string) (e : exn) :
  run (subscribe u c promoCode) d = (inl e, d') ->
  d' = d
  /\ (e = already_subscribed /\ is_subscribed d u c = true
        /\ status (subscribe_error_response e) = 409
      \/ e = JsError "Course not found" /\ course_rows d c = []
         /\ status (subscribe_error_response e) = 404
      \/ e = JsError "Promo code required for paid courses" /\ falsy promoCode = true
         /\ status (subscribe_error_response e) = 400
      \/ e = JsError "Invalid promo code" /\ promoCode <> Some "BFSALE25"
         /\ status (subscribe_error_response e) = 400
      \/ e = PgError "22003" ""
         /\ subscribe_error_response e = error_response 500 "Internal server error"
      \/ e = PgError "23503" "subscriptions_user_id_fkey" /\ has_user d u = false
         /\ subscribe_error_response e = error_response 500 "Internal server error")
  /\ forall req : Request,
       subscribeSchema_parse (req_body req) = Return (c, promoCode) ->
       run (subscribe_handler u req) d = (inr (subscribe_error_response e), d).
Proof.
  intro failure.
  destruct (subscribe_outcomes d d' u c promoCode e failure) as [ -> which ].
  split; [ reflexivity | ].
  split.
  - destruct which
      as [ [ -> known ] | [ [ -> [ _ missing ] ] | [ [ -> none ] | [ [ -> other ]
         | [ -> | [ -> unknown ] ] ] ] ] ].
    + left. now repeat split.
    + right. left. now repeat split.
    + right. right. left. now repeat split.
    + right. right. right. left. now repeat split.
    + right. right. right. right. left. now repeat split.
    + right. right. right. right. right. now repeat split.
  - intros req parsed.
    now rewrite (subscribe_handler_response u req c promoCode d parsed), failure.
Qed.

(** What [subscribe] leaves behind. *)
Lemma subscribe_database (d : Database) (u c : uuid) (promoCode : option string) :
  snd (run (subscribe u c promoCode) d) = d
  \/ exists v, snd (run (subscribe u c promoCode) d)
               = with_subscription d (new_subscription d u c v).
Proof.
  destruct (run (subscribe u c promoCode) d) as [ [ e | s ] d' ] eqn:ran.
  - left. now destruct (subscribe_outcomes d d' u c promoCode e ran).
  - right.
    destruct (subscribe_success d d' u c promoCode s ran)
      as (_ & row & rest & x & v & _ & _ & _ & _ & _ & ->).
    now exists v.
Qed.

(** X11. What a user reads in [GET /my-courses] does not depend on what
    others do: after a [subscribe] of another user, and after any
    [signup], [getUserSubscriptions] returns what it returned before. *)
Theorem others_do_not_change_my_courses (d : Database) (u other c : uuid)
    (promoCode : option string) (email password : string) (name : option string) :
  other <> u ->
  fst (run_task (getUserSubscriptions u) (snd (run (subscribe other c promoCode) d)))
  = fst (run_task (getUserSubscriptions u) d)
  /\ fst (run_task (getUserSubscriptions u)
            (snd (run_task (signup email password name) d)))
     = fst (run_task (getUserSubscriptions u) d).
Proof.
  intro different.
  rewrite !run_getUserSubscriptions. cbn [fst].
  split.
  - destruct (subscribe_database d other c promoCode) as [ -> | [ v -> ] ];
      [ reflexivity | ].
    rewrite (subscriptions_joined_courses d
               (with_subscription d (new_subscription d other c v)) u);
      [ reflexivity | reflexivity | ].
    now apply subscriptions_of_other.
  - destruct (run_task (signup email password name) d) as [ [ e | result ] d' ] eqn:ran.
    + destruct (signup_outcomes d d' email password name e ran) as [ -> _ ].
      reflexivity.
    + destruct (signup_success email password name d d' result ran)
        as (_ & _ & _ & hash & stored_name & _ & _ & _ & ->).
      reflexivity.
Qed.

End Reading.

Section Composing.

Context `{Ext : Externals} `{Lib : Library}.

Lemma course_rows_in (d : Database) (c : uuid) (row : CourseRow)
    (rest : list CourseRow) :
  course_rows d c = row :: rest -> In row (courses d) /\ course_id row = c.
Proof.
  intro found.
  assert (listed : In row (course_rows d c)) by (rewrite found; now left).
  unfold course_rows in listed. apply filter_In in listed.
  destruct listed as [ present same ].
  apply String.eqb_eq in same. now split.
Qed.

Lemma listing_parts (s : SubscriptionRow) (c : CourseRow) :
  course_id c = subscription_course_id s ->
  listing (s, c) = {| subscription := subscription_of s; course := course_shown c |}.
Proof.
  intro same.
  unfold listing, subscription_with_course, joined_row, subscription_of.
  cbn [joined_id joined_user_id joined_course_id joined_price_paid
         joined_subscribed_at].
  now rewrite <- same.
Qed.

(** X12. A subscription that [subscribe] has returned is among those
    that [getUserSubscriptions] returns for the user from then on, that
    is whatever requests arrive afterwards and however far their
    statements, in any interleaving, have run: with the price paid and
    the time that [subscribe] returned, and with the course that
    [getCourseById] returns for the identifier, in any spelling that
    PostgreSQL reads as that [uuid]. *)
Theorem subscription_appears_in_my_courses (d d' : Database) (u c : uuid)
    (promoCode : option string) (s : Subscription) :
  run (subscribe u c promoCode) d = (inr s, d') ->
  exists shown : Course,
    Course_id shown = c
    /\ forall later : list event,
         exists items : list SubscriptionWithCourse,
           run_task (getUserSubscriptions u) (after later d')
           = (inr items, after later d')
           /\ In {| subscription := s; course := shown |} items
           /\ forall id : string,
                has_nul id = false ->
                uuid_in id = Some c ->
                run_task (getCourseById id) (after later d')
                = (inr (Some shown), after later d').
Proof.
  intro success.
  destruct (subscribe_success d d' u c promoCode s success)
    as (_ & row & rest & x & v & found & _ & _ & _ & -> & ->).
  destruct (course_rows_in d c row rest found) as [ present same ].
  exists (course_shown row).
  split; [ exact same | ].
  intro later.
  set (stored := new_subscription d u c v).
  destruct (after_kept
              (fun e => courses e = courses d /\ In stored (subscriptions e))
              (fun R q e holds =>
                 conj (eq_trans (exec_courses q e) (proj1 holds))
                      (exec_subscriptions q e stored (proj2 holds)))
              later (with_subscription d stored))
    as [ catalogue persisted ].
  { split; [ reflexivity | ].
    unfold with_subscription. cbn [subscriptions].
    apply in_or_app. right. now left. }
  eexists.
  split; [ apply run_getUserSubscriptions | ].
  split.
  - assert (item : {| subscription := subscription_of stored;
                      course := course_shown row |}
                   = listing (stored, row)).
    { symmetry. now apply listing_parts. }
    rewrite item. apply in_map. apply order_by_desc_in.
    apply in_subscriptions_joined.
    split; [ exact persisted | ].
    split; [ reflexivity | ].
    split; [ now rewrite catalogue | exact same ].
  - intros id clean readable.
    rewrite run_getCourseById, clean, readable.
    unfold course_rows in *. now rewrite catalogue, found.
Qed.

(** X13. [getAllCourses] returns every course once, the newest first,
    and [GET /courses] answers 200 with them. With identifiers that are
    unique, [getCourseById], for a text that PostgreSQL reads as a
    [uuid], returns the course of the list with that [uuid], in whatever
    spelling the text has it, and [null] exactly when the list has none
    with it. *)
Theorem course_lookup_agrees_with_list (d : Database) :
  unique_courses d ->
  exists list : list Course,
    run_task getAllCourses d = (inr list, d)
    /\ run_task get_courses d
       = (inr {| reply_status := 200; reply_content_ := CoursesBody list |}, d)
    /\ Permutation list (map course_shown (courses d))
    /\ Sorted Z.ge (map Course_created_at list)
    /\ forall (id : string) (value : uuid),
         has_nul id = false ->
         uuid_in id = Some value ->
         (forall c : Course,
            run_task (getCourseById id) d = (inr (Some c), d)
            <-> In c list /\ Course_id c = value)
         /\ (run_task (getCourseById id) d = (inr None, d)
             <-> forall c : Course, In c list -> Course_id c <> value).
Proof.
  intro keyed.
  exists (map course_shown (order_by_desc course_created_at (courses d))).
  split; [ apply run_getAllCourses | ].
  split.
  { unfold get_courses. now rewrite run_attempt, run_and_then, run_getAllCourses. }
  split.
  { apply Permutation_map. symmetry. apply order_by_desc_permutation. }
  split.
  { rewrite map_map.
    apply (sorted_keys course_created_at _ (order_by_desc_sorted course_created_at _)). }
  intros id value clean readable.
  assert (found : forall c : Course,
            run_task (getCourseById id) d = (inr (Some c), d)
            <-> In c (map course_shown (order_by_desc course_created_at (courses d)))
                /\ Course_id c = value).
  { intro c. rewrite run_getCourseById, clean, readable. split.
    - destruct (course_rows d value) as [ | row rest ] eqn:rows; [ discriminate | ].
      intros [= <-].
      destruct (course_rows_in d value row rest rows) as [ present same ].
      split; [ | exact same ].
      apply in_map. now apply order_by_desc_in.
    - intros [ listed same ].
      apply in_map_iff in listed. destruct listed as (row & <- & present).
      apply order_by_desc_in in present.
      cbn in same. subst value.
      unfold course_rows.
      now rewrite (filter_unique course_id (courses d) row keyed present). }
  split; [ exact found | ].
  split.
  - intros missing c listed same.
    pose proof (proj2 (found c) (conj listed same)) as present.
    rewrite missing in present. discriminate.
  - intro none.
    rewrite run_getCourseById, clean, readable.
    destruct (course_rows d value) as [ | row rest ] eqn:rows; [ reflexivity | ].
    destruct (course_rows_in d value row rest rows) as [ present same ].
    exfalso. apply (none (course_shown row)); [ | exact same ].
    apply in_map. now apply order_by_desc_in.
Qed.

Lemma run_get_course (d : Database) (id : string) :
  run_task (get_course id) d
  = (inr match fst (run_task (getCourseById id) d) with
         | inr (Some c) => {| reply_status := 200; reply_content_ := CourseBody c |}
         | inr None => error_reply 404 "Course not found"
         | inl _ => error_reply 500 "Internal server error"
         end, d).
Proof.
  unfold get_course.
  rewrite run_attempt, run_and_then, run_getCourseById.
  destruct (has_nul id); [ reflexivity | ].
  destruct (uuid_in id) as [ value | ]; [ | reflexivity ].
  now destruct (course_rows d value).
Qed.

(** X14. [GET /courses/:id] answers 500 to a text that PostgreSQL does
    not take or does not read as a [uuid]; to a text that it reads as a
    [uuid], in whatever spelling, it answers 404 "Course not found" when
    no course has that [uuid], and 200 with the course that has it
    otherwise. [subscribe], called with the identifiers of the user and
    of the course as PostgreSQL prints them, fails with "Course not
    found", which [POST /subscribe] answers with 404, for the same
    courses, when the user has no subscription to it. *)
Theorem unknown_course_is_not_found (d : Database) (id : string) :
  (has_nul id = true \/ uuid_in id = None ->
   run_task (get_course id) d = (inr (error_reply 500 "Internal server error"), d))
  /\ forall value : uuid,
       has_nul id = false ->
       uuid_in id = Some value ->
       (course_rows d value = [] ->
        run_task (get_course id) d = (inr (error_reply 404 "Course not found"), d)
        /\ forall (u : uuid) (promoCode : option string),
             uuid_in u = Some u ->
             is_subscribed d u value = false ->
             run (subscribe u value promoCode) d
             = (inl (JsError "Course not found"), d)
             /\ subscribe_error_response (JsError "Course not found")
                = error_response 404 "Course not found")
       /\ forall (row : CourseRow) (rest : list CourseRow),
            course_rows d value = row :: rest ->
            run_task (get_course id) d
            = (inr {| reply_status := 200;
                      reply_content_ := CourseBody (course_shown row) |}, d)
            /\ Course_id (course_shown row) = value
            /\ forall (u : uuid) (promoCode : option string),
                 fst (run (subscribe u value promoCode) d)
                 <> inl (JsError "Course not found").
Proof.
  split.
  - intros [ dirty | unreadable ]; rewrite run_get_course, run_getCourseById.
    + now rewrite dirty.
    + destruct (has_nul id); [ reflexivity | ]. now rewrite unreadable.
  - intros value clean readable.
    split.
    + intro missing.
      split.
      * now rewrite run_get_course, run_getCourseById, clean, readable, missing.
      * intros u promoCode _ free.
        split; [ now apply subscribe_no_course | reflexivity ].
    + intros row rest found.
      split; [ | split ].
      * now rewrite run_get_course, run_getCourseById, clean, readable, found.
      * exact (proj2 (course_rows_in d value row rest found)).
      * intros u promoCode failure.
        destruct (run (subscribe u value promoCode) d) as [ outcome d' ] eqn:ran.
        cbn [fst] in failure. subst outcome.
        destruct (subscribe_outcomes d d' u value promoCode _ ran)
          as [ _ [ [ other _ ] | [ [ _ [ _ missing ] ] | [ [ other _ ] | [ [ other _ ]
             | [ other | [ other _ ] ] ] ] ] ] ];
          try discriminate.
        rewrite missing in found. discriminate.
Qed.

Lemma missing_user_subscriptions (d : Database) (u : uuid) :
  references_hold d ->
  has_user d u = false ->
  subscriptions_of_user d u = [].
Proof.
  unfold references_hold, subscriptions_of_user.
  intros hold unknown.
  induction (subscriptions d) as [ | s l IH ]; [ reflexivity | ].
  apply Forall_cons_iff in hold. destruct hold as [ [ known _ ] hold ].
  cbn [filter].
  destruct (String.eqb_spec (subscription_user_id s) u) as [ same | ];
    [ | now apply IH ].
  rewrite same in known. congruence.
Qed.

(** X15. A token outlives its user. For a user that is not in [users]
    any more, [POST /subscribe] to a course that exists, with a price
    that the pricing step returns, fails at the foreign key of the
    insert and is answered 500, not 401 or 404; [getUserSubscriptions]
    returns the empty list. Nothing is stored. *)
Theorem subscribe_for_missing_user (d : Database) (u c : uuid)
    (promoCode : option string) (row : CourseRow) (rest : list CourseRow)
    (x : number) (v : pg_numeric) :
  references_hold d ->
  has_user d u = false ->
  course_rows d c = row :: rest ->
  price_to_pay (course_object row) promoCode = Return x ->
  numeric_in x = inr v ->
  run (subscribe u c promoCode) d
  = (inl (PgError "23503" "subscriptions_user_id_fkey"), d)
  /\ (forall req : Request,
        subscribeSchema_parse (req_body req) = Return (c, promoCode) ->
        run (subscribe_handler u req) d
        = (inr (error_response 500 "Internal server error"), d))
  /\ run_task (getUserSubscriptions u) d = (inr [], d).
Proof.
  intros hold unknown found priced storable.
  pose proof (missing_user_subscriptions d u hold unknown) as none.
  assert (free : is_subscribed d u c = false).
  { unfold is_subscribed. apply not_true_is_false. intro subscribed.
    apply existsb_exists in subscribed. destruct subscribed as (s & present & mine).
    unfold subscribed_row in mine. apply andb_true_iff in mine.
    destruct mine as [ mine _ ].
    assert (listed : In s (subscriptions_of_user d u)).
    { apply filter_In. now split. }
    rewrite none in listed. contradiction. }
  assert (ran : run (subscribe u c promoCode) d
                = (inl (PgError "23503" "subscriptions_user_id_fkey"), d)).
  { rewrite (subscribe_priced d u c promoCode row rest x free found priced).
    unfold insert_subscription. rewrite storable.
    fold (is_subscribed d u c). rewrite free.
    fold (has_user d u). now rewrite unknown. }
  split; [ exact ran | ].
  split.
  - intros req parsed.
    now rewrite (subscribe_handler_response u req c promoCode d parsed), ran.
  - rewrite run_getUserSubscriptions.
    unfold subscriptions_joined. fold (subscriptions_of_user d u).
    now rewrite none.
Qed.

End Composing.

(** ** Prices on the pages *)

Section Displays.

Context `{Ext : Externals}.

(** The number read from an amount that is not zero. *)
Lemma amount_read (c : Z) :
  c <> 0 ->
  - 2 ^ 50 < c < 2 ^ 50 ->
  exists (m : positive) (e : Z),
    parseFloat (numeric_out (Numeric c)) = S754_finite (c <? 0) m e
    /\ Zpos (digits2_pos m) = 53
    /\ -59 <= e <= -8
    /\ nearest_hundredths m e = Z.abs c.
Proof.
  intros filled range.
  change (2 ^ 50) with 1125899906842624 in range.
  destruct c as [ | p | p ]; [ contradiction | | ].
  - destruct (hundredths_as_number false p)
      as (m & e & read & digits & exponent & nearest & _);
      [ change (2 ^ 50) with 1125899906842624; lia | ].
    exists m, e. repeat split; assumption || lia.
  - destruct (hundredths_as_number true p)
      as (m & e & read & digits & exponent & nearest & _);
      [ change (2 ^ 50) with 1125899906842624; lia | ].
    exists m, e. repeat split; assumption || lia.
Qed.

(** [toFixed(2)] prints a normal number below [2^53] with its sign and
    the nearest hundredths. *)
Lemma toFixed2_normal (s : bool) (m : positive) (e : Z) :
  Zpos (digits2_pos m) = 53 -> e < 0 ->
  toFixed2 (S754_finite s m e) = TxtFixed s (Z.to_N (nearest_hundredths m e)).
Proof.
  intros digits negative. unfold toFixed2.
  now rewrite (below_1e21 m e digits negative).
Qed.

(** [toFixed(2)] prints back the amount that [parseFloat] has read. *)
Lemma amount_printed (c : Z) :
  c <> 0 ->
  - 2 ^ 50 < c < 2 ^ 50 ->
  toFixed2 (parseFloat (numeric_out (Numeric c))) = numeric_out (Numeric c).
Proof.
  intros filled range.
  destruct (amount_read c filled range) as (m & e & -> & digits & exponent & nearest).
  rewrite (toFixed2_normal _ m e digits) by lia.
  rewrite nearest. cbn [numeric_out].
  f_equal. now destruct c.
Qed.

(** The number that a result row holds for an amount. *)
Lemma amount_in_row (c : Z) :
  - 2 ^ 50 < c < 2 ^ 50 ->
  parseFloat_any (numeric_to_js (Numeric c)) = parseFloat (numeric_out (Numeric c)).
Proof.
  intro range. unfold numeric_to_js.
  destruct numeric_as_number; [ | reflexivity ].
  destruct (Z.eq_dec c 0) as [ -> | filled ]; [ reflexivity | ].
  destruct (amount_read c filled range) as (m & e & -> & _).
  reflexivity.
Qed.

(** X16. The pages show the price of a course as it is stored. For a
    price of [cents] hundredths in the [DECIMAL(10,2)] column,
    [CourseService] returns a number on which [formatPrice] gives "Free"
    when [cents] is zero and otherwise the dollar sign with the digits of
    the column, sign included: reading the column with [parseFloat] and
    printing with [toFixed(2)] loses nothing. *)
Theorem price_label_shows_stored_price (row : CourseRow) (cents : Z) :
  course_price row = Numeric cents ->
  - 10 ^ 10 < cents < 10 ^ 10 ->
  exists price : number,
    Course_price (course_shown row) = AsNumber price
    /\ price = parseFloat (numeric_out (Numeric cents))
    /\ CourseCard.formatPrice price
       = if cents =? 0 then Free else Dollars (numeric_out (Numeric cents)).
Proof.
  intros stored range.
  assert (small : - 2 ^ 50 < cents < 2 ^ 50).
  { change (10 ^ 10) with 10000000000 in range.
    change (2 ^ 50) with 1125899906842624. lia. }
  exists (parseFloat (numeric_out (Numeric cents))).
  split.
  { unfold course_shown, with_parsed_price, course_object.
    cbn [Course_price]. now rewrite stored, (amount_in_row cents small). }
  split; [ reflexivity | ].
  unfold CourseCard.formatPrice.
  destruct (Z.eqb_spec cents 0) as [ -> | filled ]; [ reflexivity | ].
  rewrite (amount_printed cents filled small).
  destruct (amount_read cents filled small) as (m & e & -> & _).
  now destruct (cents <? 0).
Qed.

(** X17. For a paid course, the discounted price that [PromoCodeInput]
    shows under a valid promo code, the amount that [subscribe] stores,
    and the amount that the message after the subscription names are the
    same hundredths. *)
Theorem discount_shown_is_amount_charged (d d' : Database) (u c : uuid)
    (row : CourseRow) (rest : list CourseRow) (cents : Z) (s : Subscription) :
  course_rows d c = row :: rest ->
  course_price row = Numeric cents ->
  0 < cents < 10 ^ 10 ->
  run (subscribe u c (Some "BFSALE25")) d = (inr s, d') ->
  exists (price : number) (paid : Z),
    Course_price (course_shown row) = AsNumber price
    /\ PromoCodeInput.discounted_price_shown price
       = Dollars (numeric_out (Numeric paid))
    /\ d' = with_subscription d (new_subscription d u c (Numeric paid))
    /\ CourseDetail.amount_paid_shown s = Dollars (numeric_out (Numeric paid)).
Proof.
  intros found stored range success.
  assert (small : - 2 ^ 50 < cents < 2 ^ 50).
  { change (10 ^ 10) with 10000000000 in range.
    change (2 ^ 50) with 1125899906842624. lia. }
  destruct (is_subscribed d u c) eqn:free.
  { rewrite (subscribe_subscribed d u c _ free) in success. discriminate. }
  destruct (subscribe_paid d u c row rest cents free found stored range)
    as (m & e & paid & number & negative & nearest & halved & positive & result).
  change VALID_PROMO_CODE with "BFSALE25" in result.
  rewrite result in success.
  destruct (has_user d u); [ | discriminate ].
  injection success as <- <-.
  rewrite number_of_course_price, stored in number.
  destruct (amount_read cents ltac:(lia) small)
    as (m' & e' & read & digits & exponent & _).
  rewrite read in number.
  replace (cents <? 0) with false in number by (symmetry; apply Z.ltb_ge; lia).
  injection number as -> ->.
  exists (S754_finite false m e), paid.
  assert (printed : numeric_out (Numeric paid) = TxtFixed false (Z.to_N paid)).
  { cbn [numeric_out].
    replace (paid <? 0) with false by (symmetry; apply Z.ltb_ge; lia).
    f_equal. now destruct paid. }
  split.
  { unfold course_shown, with_parsed_price, course_object.
    cbn [Course_price]. rewrite stored, (amount_in_row cents small), read.
    now replace (cents <? 0) with false by (symmetry; apply Z.ltb_ge; lia). }
  split.
  { unfold PromoCodeInput.discounted_price_shown,
      PromoCodeInput.calculateDiscountedPrice.
    rewrite (mul_half false m e digits) by lia.
    rewrite (toFixed2_normal false m (e - 1) digits) by lia.
    now rewrite printed, nearest. }
  split; [ reflexivity | ].
  change (CourseDetail.amount_paid_shown _)
    with (Dollars (toFixed2 (parseFloat (TxtFixed false (Z.to_N paid))))).
  rewrite <- printed.
  assert (small' : - 2 ^ 50 < paid < 2 ^ 50).
  { change (10 ^ 10) with 10000000000 in range.
    change (2 ^ 50) with 1125899906842624. lia. }
  now rewrite (amount_printed paid ltac:(lia) small').
Qed.

End Displays.

(** ** Tokens and sessions *)

Section Sessions.

Context `{Ext : Externals} `{Lib : Library}.

(** A token that [jwt.verify] accepts, in the header. *)
Lemma bearer_accepted (token : string) (b : json) (u : string) :
  jwt_verify token JWT_SECRET = inr {| payload_userId := u |} ->
  authMiddleware (bearing token b) = Return (inr u).
Proof.
  intro verified.
  unfold authMiddleware, bearing. cbn [headers_authorization].
  change (String.eqb ("Bearer " ++ token) "") with false.
  rewrite (prefix_append "Bearer " token). cbn [negb].
  change 7%nat with (String.length "Bearer ").
  rewrite (substring_after "Bearer " token).
  unfold verifyToken. now rewrite verified.
Qed.

Lemma authMiddleware_through (req : Request) (u : string) :
  authMiddleware req = Return (inr u) ->
  exists token : string,
    headers_authorization req = Some ("Bearer " ++ token)%string
    /\ jwt_verify token JWT_SECRET = inr {| payload_userId := u |}.
Proof.
  unfold authMiddleware.
  destruct (headers_authorization req) as [ authHeader | ]; [ | discriminate ].
  destruct (String.eqb authHeader ""); [ discriminate | ].
  destruct (prefix "Bearer " authHeader) eqn:bearer; [ | discriminate ].
  cbn [negb]. unfold verifyToken.
  set (token := substring 7 (String.length authHeader - 7) authHeader).
  destruct (jwt_verify token JWT_SECRET) as [ error | [ userId ] ] eqn:verified;
    [ discriminate | ].
  cbn [try_catch bind payload_userId]. intros [= <-].
  exists token. split; [ | exact verified ].
  f_equal. exact (prefix_split "Bearer " authHeader bearer).
Qed.

(** X18. [authMiddleware] attaches a user to a request exactly when the
    header is "Bearer " followed by a token that [jwt.verify] accepts
    under the secret, and the user is the one of the token's payload.
    In every other case it answers 401; it never throws and makes no
    query. *)
Theorem authMiddleware_attaches_the_verified_user (req : Request) :
  (forall u : string,
     authMiddleware req = Return (inr u)
     <-> exists token : string,
           headers_authorization req = Some ("Bearer " ++ token)%string
           /\ jwt_verify token JWT_SECRET = inr {| payload_userId := u |})
  /\ exists outcome : Response + string,
       authMiddleware req = Return outcome
       /\ forall res : Response, outcome = inl res -> status res = 401.
Proof.
  split.
  - intro u. split; [ apply authMiddleware_through | ].
    intros (token & header & verified).
    destruct req as [ authorization b ]. cbn [headers_authorization] in header.
    subst authorization.
    exact (bearer_accepted token b u verified).
  - unfold authMiddleware.
    destruct (headers_authorization req) as [ authHeader | ].
    2: { eexists. split; [ reflexivity | ]. now intros res [= <-]. }
    destruct (String.eqb authHeader "").
    { eexists. split; [ reflexivity | ]. now intros res [= <-]. }
    destruct (prefix "Bearer " authHeader); cbn [negb].
    2: { eexists. split; [ reflexivity | ]. now intros res [= <-]. }
    unfold verifyToken.
    destruct (jwt_verify _ JWT_SECRET) as [ error | payload ];
      cbn [try_catch bind].
    + eexists. split; [ reflexivity | ]. now intros res [= <-].
    + eexists. split; [ reflexivity | ]. intros res. discriminate.
Qed.

(** [login], run alone. *)
Lemma run_login (d : Database) (email password : string) :
  run (login email password) d
  = (match user_rows d email with
     | [] => inl (JsError "Invalid credentials")
     | row :: _ =>
         if bcrypt_compare password (user_password row) then
           inr (account row, generateToken (user_id row))
         else inl (JsError "Invalid credentials")
     end, d).
Proof.
  unfold login, await, comparePassword. cbn [run pg].
  fold (user_rows d email).
  destruct (user_rows d email) as [ | row rest ]; [ reflexivity | ].
  now destruct (bcrypt_compare password (user_password row)).
Qed.


(** X20. The token that [login] or [signup] returns opens the protected
    routes for the user that came with it, as long as [jwt.verify]
    accepts what [jwt.sign] has made under the same secret: with the
    token in the header, [authMiddleware] attaches the identifier of
    that user, and a handler behind it runs for that user. *)
Theorem issued_token_authenticates (d d' : Database) (email password : string)
    (name : option string) (user : UserDTO) (token : string) :
  (forall payload : JWTPayload,
     jwt_verify (jwt_sign payload JWT_SECRET) JWT_SECRET = inr payload) ->
  run (login email password) d = (inr (user, token), d')
  \/ run_task (signup email password name) d = (inr (user, token), d') ->
  forall b : json,
    authMiddleware (bearing token b) = Return (inr (dto_id user))
    /\ forall handler : string -> Request -> io Response,
         protected handler (bearing token b) = handler (dto_id user) (bearing token b).
Proof.
  intros law issued b.
  assert (signed : token = generateToken (dto_id user)).
  { destruct issued as [ logged | signed ].
    - rewrite run_login in logged.
      destruct (user_rows d email) as [ | row rest ]; [ discriminate | ].
      destruct (bcrypt_compare password (user_password row)); [ | discriminate ].
      now injection logged as <- <- _.
    - destruct (signup_success email password name d d' (user, token) signed)
        as (_ & _ & _ & hash & stored_name & _ & _ & result & _).
      now injection result as -> ->. }
  assert (attached : authMiddleware (bearing token b) = Return (inr (dto_id user))).
  { apply bearer_accepted. rewrite signed. apply law. }
  split; [ exact attached | ].
  intro handler. unfold protected. now rewrite attached.
Qed.

(** A request that [authMiddleware] turns away. *)
Lemma authMiddleware_refuses (req : Request) :
  bad_authorization req ->
  exists message : string,
    authMiddleware req = Return (inl (error_response 401 message)).
Proof.
  unfold authMiddleware, bad_authorization.
  destruct (headers_authorization req) as [ authHeader | ];
    [ | eexists; reflexivity ].
  destruct (String.eqb_spec authHeader "") as [ -> | filled ];
    [ eexists; reflexivity | ].
  destruct (prefix "Bearer " authHeader) eqn:bearer;
    [ | eexists; reflexivity ].
  intros [ empty | [ other | [ error rejected ] ] ];
    [ contradiction | discriminate | ].
  cbn [negb]. unfold verifyToken. rewrite rejected.
  eexists. reflexivity.
Qed.

(** X21. [GET /my-courses] shows subscriptions to the user of the token
    and to nobody else: with a token that [jwt.verify] accepts it
    answers 200 with what [getUserSubscriptions] returns for the user of
    the payload; without a header, with a malformed one or with a token
    that [jwt.verify] rejects it answers 401 with a message and no list.
    It never changes the database. *)
Theorem my_courses_are_for_the_user_of_the_token (d : Database) (req : Request) :
  (forall token u : string,
     headers_authorization req = Some ("Bearer " ++ token)%string ->
     jwt_verify token JWT_SECRET = inr {| payload_userId := u |} ->
     exists items : list SubscriptionWithCourse,
       run_task (getUserSubscriptions u) d = (inr items, d)
       /\ run_task (get_my_courses req) d
          = (inr {| reply_status := 200;
                    reply_content_ := SubscriptionsBody items |}, d))
  /\ (bad_authorization req ->
      exists message : string,
        run_task (get_my_courses req) d = (inr (error_reply 401 message), d)).
Proof.
  split.
  - intros token u header verified.
    eexists. split; [ apply run_getUserSubscriptions | ].
    assert (attached : authMiddleware req = Return (inr u)).
    { destruct req as [ authorization b ]. cbn [headers_authorization] in header.
      subst authorization. exact (bearer_accepted token b u verified). }
    unfold get_my_courses. rewrite attached. cbn [lift and_then].
    unfold my_courses_handler.
    now rewrite run_attempt, run_and_then, run_getUserSubscriptions.
  - intro bad.
    destruct (authMiddleware_refuses req bad) as [ message refused ].
    exists message.
    unfold get_my_courses. now rewrite refused.
Qed.

End Sessions.

(** ** The global error handler *)

(** The status and the message that [errorHandler] answers to an error
    with message [m] that is not a [ZodError]: five messages are 401;
    then "not found" anywhere in the message is 404; then "already
    exists" anywhere, or the message of a second subscription, is 409;
    then "Invalid" or "required" anywhere, or the message for a short
    password, is 400; the rest is 500. *)
Lemma errorHandler_message (e : exn) :
  (forall issues, e <> ZodError issues) ->
  let m := message_of e in
  errorHandler (Caught e)
  = if String.eqb m "Invalid credentials" || String.eqb m "No token provided"
       || String.eqb m "Invalid token" || String.eqb m "Token expired"
       || String.eqb m "Unauthorized" then error_reply 401 m
    else if includes "not found" m then error_reply 404 m
    else if String.eqb m "User already subscribed to this course"
            || includes "already exists" m then error_reply 409 m
    else if String.eqb m "Password must be at least 8 characters long"
            || includes "Invalid" m || includes "required" m then error_reply 400 m
    else error_reply 500 "Internal server error".
Proof.
  intros other m.
  assert (shape : errorHandler (Caught e)
                  = if String.eqb m "Invalid credentials"
                       || String.eqb m "No token provided"
                       || String.eqb m "Invalid token"
                       || String.eqb m "Token expired"
                       || String.eqb m "Unauthorized" then
                      error_reply 401 m
                    else if String.eqb m "Course not found"
                            || String.eqb m "User not found"
                            || String.eqb m "Subscription not found"
                            || includes "not found" m then
                      error_reply 404 m
                    else if String.eqb m "Email already exists"
                            || String.eqb m "User already subscribed to this course"
                            || includes "already exists" m then
                      error_reply 409 m
                    else if String.eqb m "Invalid email format"
                            || String.eqb m "Password must be at least 8 characters long"
                            || String.eqb m "Invalid promo code"
                            || String.eqb m "Promo code required for paid courses"
                            || includes "Invalid" m
                            || includes "required" m then
                      error_reply 400 m
                    else error_reply 500 "Internal server error").
  { destruct e as [ message | code text | issues ]; try reflexivity.
    now contradiction (other issues). }
  rewrite shape. clear shape. clearbody m.
  destruct (String.eqb_spec m "Invalid credentials") as [ -> | ]; [ reflexivity | ].
  destruct (String.eqb_spec m "No token provided") as [ -> | ]; [ reflexivity | ].
  destruct (String.eqb_spec m "Invalid token") as [ -> | ]; [ reflexivity | ].
  destruct (String.eqb_spec m "Token expired") as [ -> | ]; [ reflexivity | ].
  destruct (String.eqb_spec m "Unauthorized") as [ -> | ]; [ reflexivity | ].
  destruct (String.eqb_spec m "Course not found") as [ -> | ]; [ reflexivity | ].
  destruct (String.eqb_spec m "User not found") as [ -> | ]; [ reflexivity | ].
  destruct (String.eqb_spec m "Subscription not found") as [ -> | ]; [ reflexivity | ].
  destruct (String.eqb_spec m "Email already exists") as [ -> | ]; [ reflexivity | ].
  destruct (String.eqb_spec m "Invalid email format") as [ -> | ]; [ reflexivity | ].
  destruct (String.eqb_spec m "Invalid promo code") as [ -> | ]; [ reflexivity | ].
  destruct (String.eqb_spec m "Promo code required for paid courses") as [ -> | ];
    [ reflexivity | ].
  cbn [orb]. now rewrite !orb_false_r.
Qed.

(** The driver's errors have messages of their own. *)
Lemma pg_message_differs (code text : string) :
  String.eqb (pg_message code text) "User already subscribed to this course" = false
  /\ String.eqb (pg_message code text) "Course not found" = false
  /\ String.eqb (pg_message code text) "Invalid promo code" = false
  /\ String.eqb (pg_message code text) "Promo code required for paid courses" = false
  /\ String.eqb (pg_message code text) "Invalid credentials" = false.
Proof.
  unfold pg_message.
  destruct (String.eqb code "23505"); [ now repeat split | ].
  destruct (String.eqb code "23503"); now repeat split.
Qed.

Lemma message_of_differs (code text : string) :
  String.eqb (message_of (PgError code text)) "Email already exists" = false
  /\ String.eqb (message_of (PgError code text)) "Invalid email format" = false
  /\ String.eqb (message_of (PgError code text))
       "Password must be at least 8 characters long" = false.
Proof.
  unfold message_of, exn_message, pg_message.
  destruct (String.eqb code "22001"); [ now repeat split | ].
  destruct (String.eqb code "22021"); [ now repeat split | ].
  destruct (String.eqb code "22P02"); [ now repeat split | ].
  destruct (String.eqb code "23505"); [ now repeat split | ].
  destruct (String.eqb code "23503"); now repeat split.
Qed.

(** X22. [errorHandler] answers a [ZodError] with 400 and its issues, an
    [AppError] with its own status and message, so the error of
    [notFoundHandler] with 404, and any other error by its message: five
    messages are 401; then "not found" anywhere in the message is 404;
    then "already exists" anywhere, or the message of a second
    subscription, is 409; then "Invalid" or "required" anywhere, or the
    message for a short password, is 400; the rest is 500 "Internal
    server error". The other ten messages that it compares with are
    covered by these. *)
Theorem errorHandler_classifies :
  (forall e : exn,
     errorHandler (Caught e)
     = match e with
       | ZodError issues => reply_of (validation_failed issues)
       | _ =>
           let m := message_of e in
           if String.eqb m "Invalid credentials" || String.eqb m "No token provided"
              || String.eqb m "Invalid token" || String.eqb m "Token expired"
              || String.eqb m "Unauthorized" then error_reply 401 m
           else if includes "not found" m then error_reply 404 m
           else if String.eqb m "User already subscribed to this course"
                   || includes "already exists" m then error_reply 409 m
           else if String.eqb m "Password must be at least 8 characters long"
                   || includes "Invalid" m || includes "required" m then
             error_reply 400 m
           else error_reply 500 "Internal server error"
       end)
  /\ (forall (statusCode : Z) (message : string),
        errorHandler (AppError statusCode message JUndefined)
        = error_reply statusCode message)
  /\ (forall method path : string,
        errorHandler (notFoundHandler method path)
        = error_reply 404 ("Route " ++ method ++ " " ++ path ++ " not found")).
Proof.
  split; [ | split; reflexivity ].
  intro e.
  destruct e as [ message | code text | issues ]; [ | | reflexivity ].
  - apply (errorHandler_message (JsError message)). discriminate.
  - apply (errorHandler_message (PgError code text)). discriminate.
Qed.

(** X23. The global handler and the [catch] clauses of the routes agree:
    whenever the handler of [POST /subscribe], of [POST /auth/signup] or
    of [POST /auth/login] answers an error with something else than 500,
    [errorHandler] would answer it with the same status and body. *)
Theorem errorHandler_agrees_with_routes (e : exn) :
  (status (subscribe_error_response e) <> 500 ->
   errorHandler (Caught e) = reply_of (subscribe_error_response e))
  /\ (status (signup_error_response e) <> 500 ->
      errorHandler (Caught e) = reply_of (signup_error_response e))
  /\ (exn_message e = "Invalid credentials" ->
      errorHandler (Caught e) = error_reply 401 "Invalid credentials").
Proof.
  destruct e as [ m | code text | issues ].
  - split; [ | split ].
    + unfold subscribe_error_response. cbn [exn_message].
      destruct (String.eqb_spec m "User already subscribed to this course")
        as [ -> | ]; [ reflexivity | ].
      destruct (String.eqb_spec m "Course not found") as [ -> | ]; [ reflexivity | ].
      destruct (String.eqb_spec m "Invalid promo code") as [ -> | ]; [ reflexivity | ].
      destruct (String.eqb_spec m "Promo code required for paid courses")
        as [ -> | ]; [ reflexivity | ].
      intro other. now contradiction other.
    + unfold signup_error_response. cbn [message_of exn_message].
      destruct (String.eqb_spec m "Email already exists") as [ -> | ]; [ reflexivity | ].
      destruct (String.eqb_spec m "Invalid email format") as [ -> | ]; [ reflexivity | ].
      destruct (String.eqb_spec m "Password must be at least 8 characters long")
        as [ -> | ]; [ reflexivity | ].
      intro other. now contradiction other.
    + cbn [exn_message]. now intros ->.
  - destruct (pg_message_differs code text) as (no1 & no2 & no3 & no4 & no5).
    destruct (message_of_differs code text) as (no6 & no7 & no8).
    split; [ | split ].
    + unfold subscribe_error_response. cbn [exn_message].
      rewrite no1, no2, no3, no4. intro other. now contradiction other.
    + unfold signup_error_response.
      rewrite no6, no7, no8. intro other. now contradiction other.
    + cbn [exn_message]. intro same. rewrite same in no5. discriminate.
  - split; [ reflexivity | split; [ reflexivity | discriminate ] ].
Qed.

(** ** The signup page *)

Section Forms.

Context `{Ext : Externals} `{Lib : Library}.

(** X24. The signup page and [AuthService.signup] check the same: the
    form passes [validateForm] exactly when [signup] gets to its first
    query; a form that does not pass would fail in [signup] with
    "Invalid email format" or the message for a short password, before
    any query. *)
Theorem signup_form_checks_what_the_service_checks (email password : string)
    (name : option string) :
  (SignupPage.validateForm email password = true
   <-> exists k, signup email password name = Ask (SelectUserId email) k)
  /\ (SignupPage.validateForm email password = false
      <-> signup email password name = Failed (JsError "Invalid email format")
          \/ signup email password name
             = Failed (JsError "Password must be at least 8 characters long")).
Proof.
  unfold SignupPage.validateForm, SignupPage.validateEmail,
    SignupPage.validatePassword, SignupPage.EMAIL_REGEX,
    SignupPage.MIN_PASSWORD_LENGTH, signup, ask.
  destruct (String.eqb_spec email "") as [ -> | filled ].
  { cbn. split; split; try discriminate; try (intros [ k ask ]; discriminate).
    - now left.
    - reflexivity. }
  destruct (RegExp.test RegExp.emailRegex email); cbn [negb].
  2: { split; split; try discriminate; try (intros [ k ask ]; discriminate).
       - now left.
       - reflexivity. }
  destruct (String.eqb_spec password "") as [ -> | typed ].
  { cbn. split; split; try discriminate; try (intros [ k ask ]; discriminate).
    - now right.
    - reflexivity. }
  destruct (String.length password <? 8)%nat.
  - split; split; try discriminate; try (intros [ k ask ]; discriminate).
    + now right.
    + reflexivity.
  - split; split; try discriminate; try reflexivity.
    + intros _. eexists. reflexivity.
    + intros [ failed | failed ]; discriminate.
Qed.

End Forms.

(** ** More of the catalogue at work *)

Section MoreCatalogue.

#[local] Existing Instance demo_accounts.
#[local] Existing Instance demo_library.

(** A new user with a name. *)
Lemma signup_creates_account_witness :
  let row :=
    {| user_id := "id-4";
       user_name := Some "New User";
       user_email := "new@example.com";
       user_password := "bcrypt:password123";
       user_created_at := 3 |} in
  run_task (signup "new@example.com" "password123" (Some "New User")) seed_database
  = (inr (account row, "jwt:id-4"), with_user seed_database row)
  /\ run_task
       (post_signup (signup_request "new@example.com" "password123" (JString "New User")))
       seed_database
     = (inr {| status := 201; body := AuthBody "jwt:id-4" (account row) |},
        with_user seed_database row).
Proof.
  intro row.
  destruct (signup_creates_account seed_database "new@example.com" "password123"
              (Some "New User"))
    as (ran & _ & _ & _ & answered).
  - vm_compute. reflexivity.
  - cbn. lia.
  - reflexivity.
  - split; [ reflexivity | unfold fits255; cbn; lia ].
  - split; [ reflexivity | unfold fits255; cbn; lia ].
  - intros n [= <-]. split; [ reflexivity | unfold fits255; cbn; lia ].
  - split; [ exact ran | ].
    exact (answered (signup_request "new@example.com" "password123"
                       (JString "New User")) eq_refl).
Defined.

(** The new user logs in, and mistypes the password. *)
Lemma signup_then_login_witness :
  let row :=
    {| user_id := "id-4";
       user_name := None;
       user_email := "new@example.com";
       user_password := "bcrypt:password123";
       user_created_at := 3 |} in
  run_task (signup "new@example.com" "password123" (Some "")) seed_database
  = (inr (account row, "jwt:id-4"), with_user seed_database row)
  /\ run (login "new@example.com" "password123") (with_user seed_database row)
     = (inr (account row, "jwt:id-4"), with_user seed_database row)
  /\ run (login "new@example.com" "password124") (with_user seed_database row)
     = (inl (JsError "Invalid credentials"), with_user seed_database row).
Proof.
  intro row.
  assert (created : run_task (signup "new@example.com" "password123" (Some ""))
                      seed_database
                    = (inr (account row, "jwt:id-4"), with_user seed_database row))
    by (vm_compute; reflexivity).
  split; [ exact created | ].
  destruct (signup_then_login seed_database (with_user seed_database row)
              "new@example.com" "password123" (Some "") (account row) "jwt:id-4"
              created)
    as (_ & logged & mistyped).
  - unfold fits255. cbn. lia.
  - reflexivity.
  - split; [ exact logged | apply mistyped; reflexivity ].
Defined.

(** The email of the first seeded user is taken. *)
Lemma signup_fails_without_trace_witness :
  run_task (signup "test1@example.com" "password123" None) seed_database
  = (inl email_exists, seed_database)
  /\ run_task (post_signup (signup_request "test1@example.com" "password123" JUndefined))
       seed_database
     = (inr (error_response 409 "Email already exists"), seed_database).
Proof.
  assert (failed : run_task (signup "test1@example.com" "password123" None)
                     seed_database
                   = (inl email_exists, seed_database))
    by (vm_compute; reflexivity).
  split; [ exact failed | ].
  destruct (signup_fails_without_trace seed_database seed_database
              "test1@example.com" "password123" None email_exists failed)
    as (_ & _ & answered).
  exact (answered (signup_request "test1@example.com" "password123" JUndefined)
           eq_refl).
Defined.

(** A name of 256 letters. *)
Lemma overlong_name_is_answered_500_witness :
  run_task (post_signup (signup_request "new@example.com" "password123"
                           (JString long_name)))
    seed_database
  = (inr (error_response 500 "Internal server error"), seed_database).
Proof.
  apply (overlong_name_is_answered_500 seed_database
           (signup_request "new@example.com" "password123" (JString long_name))
           "new@example.com" "password123" long_name).
  - vm_compute. reflexivity.
  - vm_compute. reflexivity.
  - reflexivity.
  - vm_compute. lia.
  - vm_compute. reflexivity.
Defined.

Lemma seeded_courses : unique_courses seed_database.
Proof.
  repeat (constructor; [ cbn; intuition discriminate | ]). constructor.
Qed.

Lemma seeded_references : references_hold seed_database.
Proof. constructor. Qed.

(** Two signups for a new email. *)
Lemma racing_signups_witness :
  let req := signup_request "new@example.com" "password123" JUndefined in
  let row :=
    {| user_id := "id-4";
       user_name := None;
       user_email := "new@example.com";
       user_password := "bcrypt:password123";
       user_created_at := 3 |} in
  race_tasks [true; false; false] (post_signup req) (post_signup req) seed_database
  = (inr (error_response 500 "Internal server error"),
     inr {| status := 201; body := AuthBody "jwt:id-4" (account row) |},
     with_user seed_database row)
  /\ run_task (post_signup req) (with_user seed_database row)
     = (inr (error_response 409 "Email already exists"), with_user seed_database row).
Proof.
  intros req row.
  destruct (racing_signups seed_database (with_user seed_database row) req
              "new@example.com" "password123" None (account row) "jwt:id-4")
    as (_ & rejected & later & _).
  - reflexivity.
  - vm_compute. reflexivity.
  - split; [ exact rejected | exact later ].
Defined.

Lemma subscribed_constraints :
  unique_courses subscribed_database /\ references_hold subscribed_database.
Proof.
  split.
  - repeat (constructor; [ cbn; intuition discriminate | ]). constructor.
  - repeat constructor.
Qed.

(** The first user after one subscription. *)
Lemma my_courses_lists_own_subscriptions_witness :
  exists pairs : list (SubscriptionRow * CourseRow),
    run_task (getUserSubscriptions "user-1") subscribed_database
    = (inr (map listing pairs), subscribed_database)
    /\ Permutation (map fst pairs) (subscriptions_of_user subscribed_database "user-1").
Proof.
  destruct (my_courses_lists_own_subscriptions subscribed_database "user-1")
    as (pairs & ran & _ & _ & _ & once).
  exists pairs.
  split; [ exact ran | ].
  exact (once (proj1 subscribed_constraints) (proj2 subscribed_constraints)).
Defined.

(** A paid course without a promo code. *)
Lemma subscribe_fails_without_trace_witness :
  run (subscribe "user-1" "course-2" None) seed_database
  = (inl (JsError "Promo code required for paid courses"), seed_database)
  /\ run (subscribe_handler "user-1" (subscribe_request "course-2" JUndefined))
       seed_database
     = (inr (error_response 400 "Promo code required for paid courses"), seed_database).
Proof.
  assert (failed : run (subscribe "user-1" "course-2" None) seed_database
                   = (inl (JsError "Promo code required for paid courses"),
                      seed_database))
    by (vm_compute; reflexivity).
  split; [ exact failed | ].
  destruct (subscribe_fails_without_trace seed_database seed_database "user-1"
              "course-2" None _ failed)
    as (_ & _ & answered).
  exact (answered (subscribe_request "course-2" JUndefined) eq_refl).
Defined.

(** The second user subscribes, somebody signs up: the first user reads
    the same. *)
Lemma others_do_not_change_my_courses_witness :
  fst (run_task (getUserSubscriptions "user-1")
         (snd (run (subscribe "user-2" "course-1" None) subscribed_database)))
  = fst (run_task (getUserSubscriptions "user-1") subscribed_database)
  /\ fst (run_task (getUserSubscriptions "user-1")
            (snd (run_task (signup "new@example.com" "password123" None)
                    subscribed_database)))
     = fst (run_task (getUserSubscriptions "user-1") subscribed_database).
Proof.
  apply (others_do_not_change_my_courses subscribed_database "user-1" "user-2"
           "course-1" None "new@example.com" "password123" None).
  discriminate.
Defined.

(** The subscription of the first user to the second course, read back
    after a signup and two other subscriptions of the user have been
    served together; the course is asked for in upper case. *)
Lemma subscription_appears_in_my_courses_witness :
  let later :=
    [ Arrives (PostSignup (signup_request "new@example.com" "password123" JUndefined));
      Arrives (PostSubscribe (subscribe_request "course-1" JUndefined));
      Proceeds 1; Proceeds 0;
      Arrives (PostSubscribe (subscribe_request "course-4" JUndefined));
      Proceeds 2; Proceeds 1; Proceeds 2; Proceeds 0; Proceeds 2; Proceeds 1 ] in
  exists (s : Subscription) (shown : Course) (items : list SubscriptionWithCourse),
    run (subscribe "user-1" "course-2" (Some "BFSALE25")) seed_database
    = (inr s, subscribed_database)
    /\ List.length (subscriptions (after later subscribed_database)) = 3%nat
    /\ run_task (getUserSubscriptions "user-1") (after later subscribed_database)
       = (inr items, after later subscribed_database)
    /\ In {| subscription := s; course := shown |} items
    /\ run_task (getCourseById "COURSE-2") (after later subscribed_database)
       = (inr (Some shown), after later subscribed_database).
Proof.
  intro later.
  set (s := {| subscriptionId := "id-4";
               userId := "user-1";
               courseId := "course-2";
               pricePaid := parseFloat (TxtFixed false 4999);
               subscribedAt := 3 |}).
  assert (success : run (subscribe "user-1" "course-2" (Some "BFSALE25")) seed_database
                    = (inr s, subscribed_database))
    by (vm_compute; reflexivity).
  destruct (subscription_appears_in_my_courses seed_database subscribed_database
              "user-1" "course-2" (Some "BFSALE25") s success)
    as (shown & _ & listed).
  destruct (listed later) as (items & ran & present & found).
  exists s, shown, items.
  split; [ exact success | ].
  split; [ vm_compute; reflexivity | ].
  split; [ exact ran | ].
  split; [ exact present | exact (found "COURSE-2" eq_refl eq_refl) ].
Defined.

(** The six seeded courses; the second is asked for in upper case. *)
Lemma course_lookup_agrees_with_list_witness :
  exists list : list Course,
    run_task getAllCourses seed_database = (inr list, seed_database)
    /\ Permutation list (map course_shown (courses seed_database))
    /\ (forall c : Course,
          run_task (getCourseById "COURSE-2") seed_database
          = (inr (Some c), seed_database)
          <-> In c list /\ Course_id c = "course-2")
    /\ (run_task (getCourseById "course-9") seed_database = (inr None, seed_database)
        <-> forall c : Course, In c list -> Course_id c <> "course-9").
Proof.
  destruct (course_lookup_agrees_with_list seed_database seeded_courses)
    as (list & ran & _ & once & _ & lookup).
  exists list.
  split; [ exact ran | ].
  split; [ exact once | ].
  split.
  - exact (proj1 (lookup "COURSE-2" "course-2" eq_refl eq_refl)).
  - exact (proj2 (lookup "course-9" "course-9" eq_refl eq_refl)).
Defined.

(** A text that is no [uuid], the identifier of no course, and the
    second course in upper case. *)
Lemma unknown_course_is_not_found_witness :
  run_task (get_course "two") seed_database
  = (inr (error_reply 500 "Internal server error"), seed_database)
  /\ run_task (get_course "course-9") seed_database
     = (inr (error_reply 404 "Course not found"), seed_database)
  /\ run (subscribe "user-1" "course-9" None) seed_database
     = (inl (JsError "Course not found"), seed_database)
  /\ run_task (get_course "COURSE-2") seed_database
     = (inr {| reply_status := 200;
               reply_content_ :=
                 CourseBody (course_shown
                               (seed_course "course-2" "Advanced React Patterns" 9999)) |},
        seed_database).
Proof.
  destruct (unknown_course_is_not_found seed_database "two") as (unreadable & _).
  destruct (unknown_course_is_not_found seed_database "course-9") as (_ & missing).
  destruct (unknown_course_is_not_found seed_database "COURSE-2") as (_ & found).
  split; [ exact (unreadable (or_intror eq_refl)) | ].
  destruct (proj1 (missing "course-9" eq_refl eq_refl) eq_refl) as (answered & thrown).
  split; [ exact answered | ].
  split; [ exact (proj1 (thrown "user-1" None eq_refl eq_refl)) | ].
  exact (proj1 (proj2 (found "course-2" eq_refl eq_refl) _ _ eq_refl)).
Defined.

(** A token for a user that is not among the seeded ones. *)
Lemma subscribe_for_missing_user_witness :
  run (subscribe "user-9" "course-1" None) seed_database
  = (inl (PgError "23503" "subscriptions_user_id_fkey"), seed_database)
  /\ run (subscribe_handler "user-9" (subscribe_request "course-1" JUndefined))
       seed_database
     = (inr (error_response 500 "Internal server error"), seed_database)
  /\ run_task (getUserSubscriptions "user-9") seed_database = (inr [], seed_database).
Proof.
  destruct (subscribe_for_missing_user seed_database "user-9" "course-1" None
              (seed_course "course-1" "Introduction to Web Development" 0)
              [] zero (Numeric 0))
    as (ran & answered & listed).
  - exact seeded_references.
  - reflexivity.
  - reflexivity.
  - vm_compute. reflexivity.
  - reflexivity.
  - split; [ exact ran | ].
    split; [ | exact listed ].
    exact (answered (subscribe_request "course-1" JUndefined) eq_refl).
Defined.

(** The second course of the catalogue, at 99.99. *)
Lemma price_label_shows_stored_price_witness :
  exists price : number,
    Course_price (course_shown (seed_course "course-2" "Advanced React Patterns" 9999))
    = AsNumber price
    /\ CourseCard.formatPrice price = Dollars (TxtFixed false 9999).
Proof.
  destruct (price_label_shows_stored_price
              (seed_course "course-2" "Advanced React Patterns" 9999) 9999)
    as (price & held & _ & shown).
  - reflexivity.
  - vm_compute. split; reflexivity.
  - exists price. split; [ exact held | exact shown ].
Defined.

(** The second course with the promo code: 49.99 on the page, in the
    table and in the message. *)
Lemma discount_shown_is_amount_charged_witness :
  exists (s : Subscription) (price : number) (paid : Z),
    run (subscribe "user-1" "course-2" (Some "BFSALE25")) seed_database
    = (inr s, subscribed_database)
    /\ Course_price (course_shown (seed_course "course-2" "Advanced React Patterns" 9999))
       = AsNumber price
    /\ PromoCodeInput.discounted_price_shown price = Dollars (numeric_out (Numeric paid))
    /\ subscribed_database
       = with_subscription seed_database
           (new_subscription seed_database "user-1" "course-2" (Numeric paid))
    /\ CourseDetail.amount_paid_shown s = Dollars (numeric_out (Numeric paid)).
Proof.
  set (s := {| subscriptionId := "id-4";
               userId := "user-1";
               courseId := "course-2";
               pricePaid := parseFloat (TxtFixed false 4999);
               subscribedAt := 3 |}).
  assert (success : run (subscribe "user-1" "course-2" (Some "BFSALE25")) seed_database
                    = (inr s, subscribed_database))
    by (vm_compute; reflexivity).
  destruct (discount_shown_is_amount_charged seed_database subscribed_database
              "user-1" "course-2"
              (seed_course "course-2" "Advanced React Patterns" 9999)
              [] 9999 s)
    as (price & paid & held & shown & stored & named).
  - reflexivity.
  - reflexivity.
  - vm_compute. split; reflexivity.
  - exact success.
  - exists s, price, paid.
    split; [ exact success | ].
    split; [ exact held | ].
    split; [ exact shown | ].
    split; [ exact stored | exact named ].
Defined.

(** The token of the first seeded user. *)
Lemma authMiddleware_attaches_the_verified_user_witness :
  authMiddleware (bearing "jwt:user-1" JUndefined) = Return (inr "user-1").
Proof.
  apply (proj1 (authMiddleware_attaches_the_verified_user
                  (bearing "jwt:user-1" JUndefined))).
  exists "jwt:user-1". split; reflexivity.
Defined.


(** The stand-in for [jwt.verify] accepts what the one for [jwt.sign]
    makes. *)
Lemma demo_tokens (payload : JWTPayload) :
  jwt_verify (jwt_sign payload JWT_SECRET) JWT_SECRET = inr payload.
Proof.
  destruct payload as [ u ].
  cbn.
  replace (prefix "" u) with true by now destruct u.
  now rewrite Nat.sub_0_r, substring_all.
Qed.

(** The first seeded user logs in and subscribes with the token. *)
Lemma issued_token_authenticates_witness :
  run (login "test1@example.com" "password123") seed_database
  = (inr (account (seed_user "user-1" "Test User One" "test1@example.com"
                     "bcrypt:password123"), "jwt:user-1"), seed_database)
  /\ authMiddleware (bearing "jwt:user-1" JNull) = Return (inr "user-1")
  /\ protected subscribe_handler (bearing "jwt:user-1" JNull)
     = subscribe_handler "user-1" (bearing "jwt:user-1" JNull).
Proof.
  assert (logged : run (login "test1@example.com" "password123") seed_database
                   = (inr (account (seed_user "user-1" "Test User One"
                                      "test1@example.com" "bcrypt:password123"),
                           "jwt:user-1"), seed_database))
    by (vm_compute; reflexivity).
  split; [ exact logged | ].
  destruct (issued_token_authenticates seed_database seed_database
              "test1@example.com" "password123" None _ _ demo_tokens
              (or_introl logged) JNull)
    as (attached & runs).
  split; [ exact attached | exact (runs subscribe_handler) ].
Defined.

(** The error of a second subscription. *)
Lemma errorHandler_agrees_with_routes_witness :
  errorHandler (Caught already_subscribed)
  = reply_of (subscribe_error_response already_subscribed)
  /\ errorHandler (Caught email_exists) = reply_of (signup_error_response email_exists).
Proof.
  split.
  - apply (proj1 (errorHandler_agrees_with_routes already_subscribed)). discriminate.
  - apply (proj1 (proj2 (errorHandler_agrees_with_routes email_exists))). discriminate.
Defined.

(** The first seeded user, and a request without a header. *)
Lemma my_courses_are_for_the_user_of_the_token_witness :
  (exists items : list SubscriptionWithCourse,
     run_task (getUserSubscriptions "user-1") subscribed_database
     = (inr items, subscribed_database)
     /\ run_task (get_my_courses (bearing "jwt:user-1" JUndefined)) subscribed_database
        = (inr {| reply_status := 200; reply_content_ := SubscriptionsBody items |},
           subscribed_database))
  /\ exists message : string,
       run_task (get_my_courses {| headers_authorization := None;
                                   req_body := JUndefined |})
         subscribed_database
       = (inr (error_reply 401 message), subscribed_database).
Proof.
  split.
  - apply (proj1 (my_courses_are_for_the_user_of_the_token subscribed_database
                    (bearing "jwt:user-1" JUndefined)) "jwt:user-1" "user-1");
      reflexivity.
  - apply (proj2 (my_courses_are_for_the_user_of_the_token subscribed_database
                    {| headers_authorization := None; req_body := JUndefined |})).
    exact I.
Defined.

(** A password of seven characters. *)
Lemma short_password_is_rejected_before_signup_witness :
  exists issues : list (string * string),
    post_signup (signup_request "new@example.com" "passwor" JUndefined)
    = Done (validation_failed issues)
    /\ In ("password", "Password must be at least 8 characters long") issues.
Proof.
  apply (short_password_is_rejected_before_signup
           (signup_request "new@example.com" "passwor" JUndefined)
           [ ("email", JString "new@example.com"); ("password", JString "passwor");
             ("name", JUndefined) ]
           "passwor").
  - reflexivity.
  - reflexivity.
  - cbn. lia.
Defined.

(** A name that holds the code unit 0 passes the schema of the route and
    is refused by PostgreSQL: 500, and no user is added. *)
Example name_with_code_unit_0 :
  run_task
    (post_signup (signup_request "new@example.com" "password123"
                    (JString (String Ascii.zero "name"))))
    seed_database
  = (inr (error_response 500 "Internal server error"), seed_database).
Proof. vm_compute. reflexivity. Qed.

(** Addresses that the pages and the service accept and refuse. *)
Example addresses_tested :
  map (RegExp.test RegExp.emailRegex)
    [ "test1@example.com"; "a@b.c"; "a@b..c"; "a.b@c.d.e";
      "a@b"; "ab.c"; "a b@c.d"; "@b.c"; "a@.c"; "a@b."; "" ]
  = [ true; true; true; true; false; false; false; false; false; false; false ].
Proof. vm_compute. reflexivity. Qed.

End MoreCatalogue.
